(** * Apex batch submitter: a shallow embedding of [apex_submitter_v2.py]

    The development follows the Python source function by function:
    the request signer ([create_message_body], [generate_header]), the
    transport client ([submit_single]), the batch scheduler
    ([batch_submit]), the result aggregator ([print_summary]) and the
    entry point ([main]).

    Python values are modelled as they are at run time: a [str] is a
    sequence of Unicode code points, [bytes] a list of bytes, an [int] an
    unbounded integer, a [float] an IEEE 754 binary64 number (the
    kernel's primitive floats), and the dict shaped records of the script
    are finite maps from their literal keys to values.  Exceptions are
    explicit: every function that can raise returns a [result]. *)

From Stdlib Require Import ZArith NArith List Ascii String.
From Stdlib.Strings Require Import Byte.
From Stdlib Require Import PrimFloat FloatOps SpecFloat.
From Stdlib Require Import DecimalZ Permutation Lia.
From stdpp Require Import base option list sorting gmap strings.

Local Open Scope Z_scope.

#[local] Set Warnings "-register-all".

(** ** Python strings, bytes and values *)

(** A Python [str]: the sequence of its code points. *)
Definition pystr := list N.

(** A string literal of the source, all of whose characters are ASCII. *)
Definition lit (s : string) : pystr :=
  map N_of_ascii (list_ascii_of_string s).

(** The objects that flow through the script: what [json.load] and
    [response.json()] return, plus the scalars stored in result records. *)
Inductive value :=
| VNone
| VBool (b : bool)
| VInt (z : Z)
| VFloat (f : float)
| VStr (s : pystr)
| VList (l : list value)
| VDict (l : list (pystr * value)).

(** A dict whose keys are string literals of the source. *)
Abbreviation dict := (gmap string value).

(** Truth value of an object, as tested by [if x:] and [not x]. *)
Definition truthy (v : value) : bool :=
  match v with
  | VNone => false
  | VBool b => b
  | VInt z => negb (z =? 0)
  | VFloat f => negb (PrimFloat.eqb f 0%float)
  | VStr s => match s with [] => false | _ => true end
  | VList l => match l with [] => false | _ => true end
  | VDict l => match l with [] => false | _ => true end
  end.

(** [type(x).__name__], as it appears in error messages. *)
Definition type_name (v : value) : string :=
  match v with
  | VNone => "NoneType"
  | VBool _ => "bool"
  | VInt _ => "int"
  | VFloat _ => "float"
  | VStr _ => "str"
  | VList _ => "list"
  | VDict _ => "dict"
  end.

(** ** Exceptions *)

Inductive exn_class :=
| KeyError | TypeError | ValueError | AttributeError | ZeroDivisionError
| OverflowError | UnicodeEncodeError
| OtherError (name : string).

(** A raised exception: its class and the text [str(e)] yields.  Every
    class here derives from [Exception]. *)
Record exn := Exn { exn_type : exn_class; exn_str : pystr }.

Inductive result (A : Type) :=
| Ok (a : A)
| Raise (e : exn).
Arguments Ok {A} a.
Arguments Raise {A} e.

#[global] Instance result_ret : MRet result := fun _ a => Ok a.
#[global] Instance result_bind : MBind result := fun _ _ f m =>
  match m with
  | Ok a => f a
  | Raise e => Raise e
  end.

Definition is_ok {A} (r : result A) : bool :=
  match r with Ok _ => true | Raise _ => false end.

(** [d[k]] on a dict: [KeyError(k)] when the key is absent; its text is
    the repr of the key. *)
Definition key_error (k : string) : exn :=
  Exn KeyError (lit "'" ++ lit k ++ lit "'").

Definition getitem (d : dict) (k : string) : result value :=
  match d !! k with
  | Some v => Ok v
  | None => Raise (key_error k)
  end.

(** ** Integers as decimal text: [str(n)] *)

Fixpoint codes_of_uint (d : Decimal.uint) : pystr :=
  match d with
  | Decimal.Nil => []
  | Decimal.D0 d => 48%N :: codes_of_uint d
  | Decimal.D1 d => 49%N :: codes_of_uint d
  | Decimal.D2 d => 50%N :: codes_of_uint d
  | Decimal.D3 d => 51%N :: codes_of_uint d
  | Decimal.D4 d => 52%N :: codes_of_uint d
  | Decimal.D5 d => 53%N :: codes_of_uint d
  | Decimal.D6 d => 54%N :: codes_of_uint d
  | Decimal.D7 d => 55%N :: codes_of_uint d
  | Decimal.D8 d => 56%N :: codes_of_uint d
  | Decimal.D9 d => 57%N :: codes_of_uint d
  end.

Definition codes_of_int (d : Decimal.int) : pystr :=
  match d with
  | Decimal.Pos d => codes_of_uint d
  | Decimal.Neg d => 45%N :: codes_of_uint d
  end.

Definition str_of_Z (z : Z) : pystr := codes_of_int (Z.to_int z).

(** ** Slices: [s[lo:hi]] *)

(** A slice bound is clamped into [0..n], negative bounds counting from
    the end. *)
Definition slice_index (n i : Z) : nat :=
  Z.to_nat (if i <? 0 then Z.max 0 (i + n) else Z.min i n).

Definition py_slice {A} (l : list A) (lo hi : Z) : list A :=
  let n := Z.of_nat (length l) in
  let a := slice_index n lo in
  let b := slice_index n hi in
  take (b - a) (drop a l).

(** [v[:hi]] on an object: strings and lists can be sliced, a scalar is
    not subscriptable and a dict rejects the slice as a key. *)
Definition not_subscriptable (v : value) : exn :=
  Exn TypeError (lit "'" ++ lit (type_name v) ++ lit "' object is not subscriptable").

Definition slice_to (v : value) (hi : Z) : result value :=
  match v with
  | VStr s => Ok (VStr (py_slice s 0 hi))
  | VList l => Ok (VList (py_slice l 0 hi))
  | VDict _ => Raise (Exn TypeError (lit "unhashable type: 'slice'"))
  | _ => Raise (not_subscriptable v)
  end.

(** ** Bytes as lowercase hexadecimal text: [bytes.hex()] and [hexdigest()] *)

Definition hex_digit (n : N) : N :=
  if (n <? 10)%N then (48 + n)%N else (87 + n)%N.

(** The [k] low hexadecimal digits of [n], most significant first: the
    format ['%0kx'] for [n] below [16 ^ k]. *)
Fixpoint hex_width (k : nat) (n : N) : pystr :=
  match k with
  | O => []
  | S k' => hex_width k' (n / 16) ++ [hex_digit (n mod 16)]
  end.

Definition hex_of_byte (b : byte) : pystr := hex_width 2 (Byte.to_N b).

Definition hex (bs : list byte) : pystr := flat_map hex_of_byte bs.

(** ** Text as bytes: [str.encode("utf-8")] *)

Definition byte_of_N (n : N) : byte :=
  match Byte.of_N (n mod 256) with
  | Some b => b
  | None => x00
  end.

(** One code point in UTF-8.  A surrogate has no encoding: Python raises
    [UnicodeEncodeError]. *)
Definition utf8_of_code (c : N) : result (list byte) :=
  (if c <? 128 then Ok [byte_of_N c]
   else if c <? 2048 then
     Ok [byte_of_N (192 + c / 64); byte_of_N (128 + c mod 64)]
   else if (55296 <=? c) && (c <? 57344) then
     Raise (Exn UnicodeEncodeError (lit "surrogates not allowed"))
   else if c <? 65536 then
     Ok [byte_of_N (224 + c / 4096); byte_of_N (128 + (c / 64) mod 64);
         byte_of_N (128 + c mod 64)]
   else
     Ok [byte_of_N (240 + c / 262144); byte_of_N (128 + (c / 4096) mod 64);
         byte_of_N (128 + (c / 64) mod 64); byte_of_N (128 + c mod 64)])%N.

Fixpoint encode_utf8 (s : pystr) : result (list byte) :=
  match s with
  | [] => Ok []
  | c :: s' =>
      bs ← utf8_of_code c;
      rest ← encode_utf8 s';
      Ok (bs ++ rest)
  end.

(** ** JSON text: [json.dumps(data, default=str, sort_keys=True)] *)

(** Four lowercase hexadecimal digits, as in ['\\u{0:04x}'.format(n)]. *)
Definition hex4 (n : N) : pystr := hex_width 4 n.

Definition unicode_escape (n : N) : pystr := lit "\u" ++ hex4 n.

(** The replacement of one character by [py_encode_basestring_ascii]:
    the short escapes of [ESCAPE_DCT], a [\u] escape for every other
    character outside the printable ASCII range (a surrogate pair above
    the basic plane), and the character itself otherwise. *)
Definition escape_code (c : N) : pystr :=
  (if c =? 34 then lit "\" ++ [34]
   else if c =? 92 then lit "\\"
   else if c =? 8 then lit "\b"
   else if c =? 12 then lit "\f"
   else if c =? 10 then lit "\n"
   else if c =? 13 then lit "\r"
   else if c =? 9 then lit "\t"
   else if (32 <=? c) && (c <=? 126) then [c]
   else if c <? 65536 then unicode_escape c
   else
     let n := c - 65536 in
     unicode_escape (N.lor 55296 (N.land (N.shiftr n 10) 1023)) ++
     unicode_escape (N.lor 56320 (N.land n 1023)))%N.

Definition encode_basestring_ascii (s : pystr) : pystr :=
  [34%N] ++ flat_map escape_code s ++ [34%N].

(** [sep.join(parts)] *)
Fixpoint join (sep : pystr) (parts : list pystr) : pystr :=
  match parts with
  | [] => []
  | [p] => p
  | p :: ps => p ++ sep ++ join sep ps
  end.

(** Order on strings: code point by code point, a prefix first. *)
Fixpoint pystr_leb (a b : pystr) : bool :=
  match a, b with
  | [], _ => true
  | _ :: _, [] => false
  | x :: a', y :: b' =>
      if (x <? y)%N then true
      else if (y <? x)%N then false
      else pystr_leb a' b'
  end.

(** [sorted(items)] by key: a stable insertion sort. *)
Fixpoint insert_by {A K} (leb : K → K → bool) (key : A → K)
    (x : A) (l : list A) : list A :=
  match l with
  | [] => [x]
  | y :: l' =>
      if leb (key y) (key x) then y :: insert_by leb key x l'
      else x :: l
  end.

Definition sort_by {A K} (leb : K → K → bool) (key : A → K)
    (l : list A) : list A :=
  foldr (insert_by leb key) [] l.

(** Results of a list of computations, up to the first that raises. *)
Fixpoint sequence {A} (l : list (result A)) : result (list A) :=
  match l with
  | [] => Ok []
  | r :: l' =>
      a ← r;
      rest ← sequence l';
      Ok (a :: rest)
  end.

(** [float.__repr__] (the shortest decimal that reads back as the same
    float) is not part of this model, so the encoder stops on a float.
    No float reaches it: the request holds two ints and a str. *)
Definition float_repr_outside_model : exn :=
  Exn (OtherError "NotModelled") (lit "float.__repr__").

(** The encoder with the default separators [", "] and [": "],
    [ensure_ascii=True] and [sort_keys=True].  Every object of type
    [value] has a native JSON form, so the [default=str] fallback, which
    the encoder calls only for objects it cannot serialise itself, is
    never called. *)
Fixpoint json_encode (v : value) : result pystr :=
  match v with
  | VNone => Ok (lit "null")
  | VBool true => Ok (lit "true")
  | VBool false => Ok (lit "false")
  | VInt z => Ok (str_of_Z z)
  | VFloat _ => Raise float_repr_outside_model
  | VStr s => Ok (encode_basestring_ascii s)
  | VList l =>
      parts ← sequence (map json_encode l);
      Ok (lit "[" ++ join (lit ", ") parts ++ lit "]")
  | VDict l =>
      let item (kv : pystr * value) : pystr * result pystr :=
        (kv.1, json_encode kv.2) in
      let member (ke : pystr * result pystr) : result pystr :=
        e ← ke.2; Ok (encode_basestring_ascii ke.1 ++ lit ": " ++ e) in
      parts ← sequence (map member (sort_by pystr_leb fst (map item l)));
      Ok (lit "{" ++ join (lit ", ") parts ++ lit "}")
  end.

(** The items of a dict with literal keys, as [(key, value)] pairs. *)
Definition items (d : dict) : list (pystr * value) :=
  map (λ kv, (lit kv.1, kv.2)) (map_to_list d).

Definition json_dumps (data : dict) : result pystr :=
  json_encode (VDict (items data)).

(** ** SHA-256: [hashlib.sha256] (FIPS 180-4)

    Words are 32 bit integers with wrap-around addition. *)
Module SHA256.

Definition w32 (x : Z) : Z := x mod 2 ^ 32.
Definition add32 (x y : Z) : Z := w32 (x + y).
Definition rotr (n x : Z) : Z :=
  w32 (Z.lor (Z.shiftr x n) (Z.shiftl x (32 - n))).
Definition shr (n x : Z) : Z := Z.shiftr x n.
Definition not32 (x : Z) : Z := Z.lxor x (2 ^ 32 - 1).

Definition Ch (x y z : Z) : Z :=
  Z.lxor (Z.land x y) (Z.land (not32 x) z).
Definition Maj (x y z : Z) : Z :=
  Z.lxor (Z.lxor (Z.land x y) (Z.land x z)) (Z.land y z).
Definition Sigma0 (x : Z) : Z :=
  Z.lxor (Z.lxor (rotr 2 x) (rotr 13 x)) (rotr 22 x).
Definition Sigma1 (x : Z) : Z :=
  Z.lxor (Z.lxor (rotr 6 x) (rotr 11 x)) (rotr 25 x).
Definition sigma0 (x : Z) : Z :=
  Z.lxor (Z.lxor (rotr 7 x) (rotr 18 x)) (shr 3 x).
Definition sigma1 (x : Z) : Z :=
  Z.lxor (Z.lxor (rotr 17 x) (rotr 19 x)) (shr 10 x).

(** The first [n] primes, found by trial division among the numbers from
    2 up to a bound. *)
Definition is_prime (p : nat) : bool :=
  forallb (λ d, negb (p mod d =? 0)%nat) (seq 2 (p - 2)).

Definition primes (n : nat) : list Z :=
  map Z.of_nat (take n (List.filter is_prime (seq 2 400))).

(** The integer part of the cube root of [n], bit by bit from bit [k]
    down. *)
Fixpoint cube_root (k : nat) (n r : Z) : Z :=
  match k with
  | O => r
  | S k' =>
      let r' := r + 2 ^ Z.of_nat k' in
      cube_root k' n (if r' * r' * r' <=? n then r' else r)
  end.

(** The round constants: the first 32 bits of the fractional parts of
    the cube roots of the first 64 primes. *)
Definition K : list Z :=
  Eval vm_compute in
    map (λ p, w32 (cube_root 44 (p * 2 ^ 96) 0)) (primes 64).

(** The initial hash value: the first 32 bits of the fractional parts
    of the square roots of the first 8 primes. *)
Definition H0 : list Z :=
  Eval vm_compute in
    map (λ p, w32 (Z.sqrt (p * 2 ^ 64))) (primes 8).

(** [n] as [k] bytes, most significant first. *)
Fixpoint be_bytes (k : nat) (n : Z) : list Z :=
  match k with
  | O => []
  | S k' => (n / 256 ^ Z.of_nat k') mod 256 :: be_bytes k' n
  end.

(** The message followed by a one bit, zero bits up to 56 modulo 64
    bytes, and the bit length in 8 bytes. *)
Definition pad (msg : list Z) : list Z :=
  let len := Z.of_nat (length msg) in
  let zeros := Z.to_nat ((55 - len) mod 64) in
  msg ++ [128] ++ replicate zeros 0 ++ be_bytes 8 (8 * len).

Fixpoint words (fuel : nat) (bs : list Z) : list Z :=
  match fuel, bs with
  | S fuel', b0 :: b1 :: b2 :: b3 :: bs' =>
      (((b0 * 256 + b1) * 256 + b2) * 256 + b3) :: words fuel' bs'
  | _, _ => []
  end.

Definition nth_word (l : list Z) (i : nat) : Z := nth i l 0.

(** The message schedule: 16 words of the block, extended to 64. *)
Fixpoint extend (n : nat) (w : list Z) : list Z :=
  match n with
  | O => w
  | S n' =>
      let t := length w in
      let x :=
        add32 (add32 (sigma1 (nth_word w (t - 2))) (nth_word w (t - 7)))
              (add32 (sigma0 (nth_word w (t - 15))) (nth_word w (t - 16))) in
      extend n' (w ++ [x])
  end.

Definition round (st : list Z) (kw : Z * Z) : list Z :=
  match st with
  | [a; b; c; d; e; f; g; h] =>
      let t1 :=
        add32 (add32 (add32 h (Sigma1 e)) (add32 (Ch e f g) kw.1)) kw.2 in
      let t2 := add32 (Sigma0 a) (Maj a b c) in
      [add32 t1 t2; a; b; c; add32 d t1; e; f; g]
  | _ => st
  end.

Definition compress (h : list Z) (block : list Z) : list Z :=
  let w := extend 48 (words 16 block) in
  let st := fold_left round (combine K w) h in
  map (λ p, add32 p.1 p.2) (combine h st).

Fixpoint blocks (fuel : nat) (h : list Z) (bs : list Z) : list Z :=
  match fuel, bs with
  | S fuel', _ :: _ => blocks fuel' (compress h (take 64 bs)) (drop 64 bs)
  | _, _ => h
  end.

Definition digest (msg : list byte) : list byte :=
  let bs := pad (map (λ b, Z.of_N (Byte.to_N b)) msg) in
  let h := blocks (length bs) H0 bs in
  map (λ z, byte_of_N (Z.to_N z)) (flat_map (be_bytes 4) h).

End SHA256.

(** [sha256(body).hexdigest()] *)
Definition sha256_hexdigest (body : list byte) : pystr :=
  hex (SHA256.digest body).

(** ** Floats to integers: [round(x)] *)

(** The integer nearest to [m * 2 ^ e], a tie going to the even one. *)
Definition round_half_even (m : positive) (e : Z) : Z :=
  if 0 <=? e then Z.pos m * 2 ^ e
  else
    let d := 2 ^ (- e) in
    let q := Z.pos m / d in
    let r := Z.pos m mod d in
    if 2 * r <? d then q
    else if d <? 2 * r then q + 1
    else if Z.even q then q else q + 1.

Definition py_round (x : float) : result Z :=
  match Prim2SF x with
  | S754_zero _ => Ok 0
  | S754_infinity _ =>
      Raise (Exn OverflowError (lit "cannot convert float infinity to integer"))
  | S754_nan =>
      Raise (Exn ValueError (lit "cannot convert float NaN to integer"))
  | S754_finite s m e =>
      let v := round_half_even m e in
      Ok (if s then - v else v)
  end.

(** ** Request identifiers: [str(uuid.uuid4())] *)

(** [uuid4] draws 128 random bits and overwrites the variant and version
    fields. *)
Definition uuid4 (entropy : N) : N :=
  let n := (entropy mod 2 ^ 128)%N in
  let n := N.ldiff n (N.shiftl 0xc000 48) in
  let n := N.lor n (N.shiftl 0x8000 48) in
  let n := N.ldiff n (N.shiftl 0xf000 64) in
  N.lor n (N.shiftl 4 76).

(** The 32 digits in groups of 8, 4, 4, 4 and 12. *)
Definition dashed (h : pystr) : pystr :=
  py_slice h 0 8 ++ lit "-" ++ py_slice h 8 12 ++ lit "-" ++
  py_slice h 12 16 ++ lit "-" ++ py_slice h 16 20 ++ lit "-" ++
  drop 20 h.

Definition str_of_uuid (u : N) : pystr := dashed (hex_width 32 u).

(** ** The request signer *)

(** A signing identity of [bittensor_wallet]: its public address and its
    signing primitive, which may fail. *)
Record Keypair := {
  ss58_address : pystr;
  sign : pystr → result (list byte) }.

Record BatchSubmitter := {
  orchestrator_url : pystr;
  spec_version : Z;
  timeout : float }.

(** [BatchSubmitter.__init__]: the mainnet URL unless one is given. *)
Definition BatchSubmitter_init (orchestrator_url : option pystr)
    (spec_version : Z) (timeout : float) : BatchSubmitter :=
  {| orchestrator_url :=
       match orchestrator_url with
       | Some (c :: u) => c :: u
       | _ => lit "https://apex.api.macrocosmos.ai"
       end;
     spec_version := spec_version;
     timeout := timeout |}.

(** [create_message_body]: the bytes the signature covers. *)
Definition create_message_body (data : dict) : result (list byte) :=
  s ← json_dumps data;
  encode_utf8 s.

(** [round(time.time() * 1000)] for the clock reading [now]. *)
Definition timestamp_ms (now : float) : result Z :=
  py_round (now * 1000)%float.

(** The message handed to the signing primitive:
    [f"{sha256(body).hexdigest()}.{timestamp}."] *)
Definition signed_message (body : list byte) (timestamp : Z) : pystr :=
  sha256_hexdigest body ++ lit "." ++ str_of_Z timestamp ++ lit ".".

(** [generate_header], given the clock reading and the random bits that
    this call obtains from the system. *)
Definition generate_header (self : BatchSubmitter) (hotkey : Keypair)
    (body : list byte) (now : float) (entropy : N) : result dict :=
  timestamp ← timestamp_ms now;
  let message := signed_message body timestamp in
  signature ← sign hotkey message;
  Ok ({[ "Epistula-Timestamp" := VStr (str_of_Z timestamp);
         "Epistula-Signed-By" := VStr (ss58_address hotkey);
         "Epistula-Request-Signature" := VStr (lit "0x" ++ hex signature);
         "X-Spec-Version" := VStr (str_of_Z (spec_version self));
         "X-Request-Id" := VStr (str_of_uuid (uuid4 entropy));
         "Content-Type" := VStr (lit "application/json") ]} : dict).

(** ** Key files: [load_keypair] *)

Definition hex_value (c : N) : option N :=
  (if (48 <=? c) && (c <=? 57) then Some (c - 48)
   else if (97 <=? c) && (c <=? 102) then Some (c - 87)
   else if (65 <=? c) && (c <=? 70) then Some (c - 55)
   else None)%N.

Definition is_ascii_space (c : N) : bool :=
  ((c =? 32) || ((9 <=? c) && (c <=? 13)))%N.

Definition fromhex_error (pos : Z) : exn :=
  Exn ValueError
    (lit "non-hexadecimal number found in fromhex() arg at position " ++
     str_of_Z pos).

(** [bytes.fromhex]: pairs of hexadecimal digits, white space allowed
    between pairs. *)
Fixpoint fromhex_from (pos : Z) (s : pystr) : result (list byte) :=
  match s with
  | [] => Ok []
  | c :: s' =>
      if is_ascii_space c then fromhex_from (pos + 1) s'
      else
        match hex_value c, s' with
        | None, _ => Raise (fromhex_error pos)
        | Some _, [] => Raise (fromhex_error (pos + 1))
        | Some h, d :: s'' =>
            match hex_value d with
            | None => Raise (fromhex_error (pos + 1))
            | Some l =>
                rest ← fromhex_from (pos + 2) s'';
                Ok (byte_of_N (16 * h + l) :: rest)
            end
        end
  end.

Fixpoint first_non_ascii (pos : Z) (s : pystr) : option Z :=
  match s with
  | [] => None
  | c :: s' => if (c <? 128)%N then first_non_ascii (pos + 1) s' else Some pos
  end.

Definition bytes_fromhex (s : pystr) : result (list byte) :=
  match first_non_ascii 0 s with
  | Some pos => Raise (fromhex_error pos)
  | None => fromhex_from 0 s
  end.

Fixpoint assoc (k : pystr) (l : list (pystr * value)) : option value :=
  match l with
  | [] => None
  | (k', v) :: l' => if decide (k = k') then Some v else assoc k l'
  end.

(** [obj.get(k)]: [None] for a missing key; only a dict has the method. *)
Definition py_get (obj : value) (k : string) : result value :=
  match obj with
  | VDict l => Ok (default VNone (assoc (lit k) l))
  | _ =>
      Raise (Exn AttributeError
               (lit "'" ++ lit (type_name obj) ++
                lit "' object has no attribute 'get'"))
  end.

(** ** Discovery of the identities: [find_all_hotkeys] *)

(** What the scan meets under the wallet directory.  An entry of a
    [hotkeys] directory: its name, its path as text, whether it is a
    regular file, and what opening it and [json.load] give. *)
Record HotkeyFile := {
  file_name : pystr;
  file_str : pystr;
  file_is_file : bool;
  file_json : result value }.

(** A path under the wallet directory: its name, whether it is a
    directory, and its [hotkeys] entry: absent, or what [iterdir] gives
    for it. *)
Record WalletPath := {
  path_name : pystr;
  path_is_dir : bool;
  hotkeys_dir : option (result (list HotkeyFile)) }.

(** The wallet directory: whether it exists, what [iterdir] gives for
    it, and the path [wallet_dir / name] for a name. *)
Record WalletDir := {
  wallet_dir_exists : bool;
  wallet_dir_iterdir : result (list WalletPath);
  wallet_dir_child : pystr → WalletPath }.

(** [s.endswith(suffix)] *)
Definition endswith (s suffix : pystr) : bool :=
  (length suffix <=? length s)%nat &&
  bool_decide (drop (length s - length suffix) s = suffix).

(** The body of the [try] block for one key file: the record to append,
    or nothing when the file holds no address. *)
Definition read_hotkey (wallet_name : pystr) (hotkey_file : HotkeyFile)
    : result (option dict) :=
  key_data ← file_json hotkey_file;
  ss58_address ← py_get key_data "ss58Address";
  if negb (truthy ss58_address) then Ok None
  else
    Ok (Some {[ "wallet_name" := VStr wallet_name;
                "hotkey_name" := VStr (file_name hotkey_file);
                "hotkey_path" := VStr (file_str hotkey_file);
                "ss58_address" := ss58_address ]}).

(** The loop over the files of one wallet, with the list [hotkeys]
    built so far. *)
Fixpoint scan_hotkeys (wallet_name : pystr) (files : list HotkeyFile)
    (hotkeys : list dict) : list dict :=
  match files with
  | [] => hotkeys
  | hotkey_file :: files' =>
      if negb (file_is_file hotkey_file) then
        scan_hotkeys wallet_name files' hotkeys
      else if endswith (file_name hotkey_file) (lit ".txt") ||
              endswith (file_name hotkey_file) (lit "pub") then
        scan_hotkeys wallet_name files' hotkeys
      else
        match read_hotkey wallet_name hotkey_file with
        | Ok (Some record) =>
            scan_hotkeys wallet_name files' (hotkeys ++ [record])
        | Ok None => scan_hotkeys wallet_name files' hotkeys
        | Raise _ => scan_hotkeys wallet_name files' hotkeys
        end
  end.

(** The loop over the wallets. *)
Fixpoint scan_wallets (wallet_dirs : list WalletPath) (hotkeys : list dict)
    : result (list dict) :=
  match wallet_dirs with
  | [] => Ok hotkeys
  | wallet_path :: wallet_dirs' =>
      if negb (path_is_dir wallet_path) then scan_wallets wallet_dirs' hotkeys
      else
        match hotkeys_dir wallet_path with
        | None => scan_wallets wallet_dirs' hotkeys
        | Some listing =>
            files ← listing;
            scan_wallets wallet_dirs'
              (scan_hotkeys (path_name wallet_path) files hotkeys)
        end
  end.

Definition find_all_hotkeys (fs : WalletDir) (wallet_name : option pystr)
    : result (list dict) :=
  if negb (wallet_dir_exists fs) then Ok []
  else
    wallet_dirs ←
      match wallet_name with
      | Some (c :: name) => Ok [wallet_dir_child fs (c :: name)]
      | _ => wallet_dir_iterdir fs
      end;
    scan_wallets wallet_dirs [].

(** What one submission meets outside the program: the clock readings of
    its calls to [time.time()], the content of the key file, the wallet
    library, the random bits of [uuid4], the remote service, and the
    instant at which the task completes on the event loop. *)
Record Response := {
  status_code : Z;
  text : pystr;
  json : result value }.

Record attempt := {
  t_start : float;
  read_key_file : value → result value;
  create_from_private_key : pystr → result Keypair;
  t_header : float;
  entropy : N;
  post : pystr → dict → dict → result Response;
  t_response : float;
  t_except : float;
  finished_at : N }.

Definition load_keypair (a : attempt) (hotkey_path : value) : result Keypair :=
  key_data ← read_key_file a hotkey_path;
  private_key ← py_get key_data "privateKey";
  if negb (truthy private_key) then
    Raise (Exn ValueError (lit "No private key found in key file"))
  else
    match private_key with
    | VStr s =>
        let s :=
          match s with
          | 48%N :: 120%N :: rest => rest
          | _ => s
          end in
        private_key_bytes ← bytes_fromhex s;
        create_from_private_key a (hex private_key_bytes)
    | _ =>
        Raise (Exn AttributeError
                 (lit "'" ++ lit (type_name private_key) ++
                  lit "' object has no attribute 'startswith'"))
    end.

(** ** The transport client: [submit_single] *)

Definition submit_request (competition_id round_number : Z) (code : pystr) : dict :=
  {[ "competition_id" := VInt competition_id;
     "round_number" := VInt round_number;
     "raw_code" := VStr code ]}.

Definition http_error (response : Response) : pystr :=
  lit "HTTP " ++ str_of_Z (status_code response) ++ lit ": " ++ text response.

(** The [try] block up to the answer of the service: the key is loaded,
    the request built and signed, and the POST is made. *)
Definition send_request (self : BatchSubmitter) (a : attempt)
    (hotkey_path : value) (code : pystr) (competition_id round_number : Z)
    : result Response :=
  keypair ← load_keypair a hotkey_path;
  let request := submit_request competition_id round_number code in
  body_bytes ← create_message_body request;
  headers ← generate_header self keypair body_bytes (t_header a) (entropy a);
  post a (orchestrator_url self ++ lit "/miner/submission") request headers.

(** The body of the [try] block: the record [result] of the source
    (here [res], the name [result] being taken) as the block leaves it,
    and whether the block ended normally or by an exception. *)
Definition try_submit (self : BatchSubmitter) (a : attempt)
    (hotkey_path : value) (code : pystr) (competition_id round_number : Z)
    (res : dict) : dict * result unit :=
  match send_request self a hotkey_path code competition_id round_number with
  | Raise e => (res, Raise e)
  | Ok response =>
      let res :=
        <["duration" := VFloat (t_response a - t_start a)%float]> res in
      if status_code response =? 200 then
        let res := <["success" := VBool true]> res in
        match json response with
        | Ok body => (<["response" := body]> res, Ok ())
        | Raise e => (res, Raise e)
        end
      else (<["error" := VStr (http_error response)]> res, Ok ())
  end.

Definition submit_single (self : BatchSubmitter) (hotkey_info : dict)
    (code : pystr) (competition_id round_number : Z) (a : attempt)
    : result dict :=
  hotkey_path ← getitem hotkey_info "hotkey_path";
  ss58 ← getitem hotkey_info "ss58_address";
  wallet_name ← getitem hotkey_info "wallet_name";
  hotkey_name ← getitem hotkey_info "hotkey_name";
  hotkey_short ← slice_to ss58 8;
  let res : dict :=
    {[ "success" := VBool false;
       "hotkey" := ss58;
       "hotkey_short" := hotkey_short;
       "wallet_name" := wallet_name;
       "hotkey_name" := hotkey_name;
       "response" := VNone;
       "error" := VNone;
       "duration" := VInt 0 ]} in
  match try_submit self a hotkey_path code competition_id round_number res with
  | (res, Ok _) => Ok res
  | (res, Raise e) =>
      Ok (<["error" := VStr (exn_str e)]>
            (<["duration" := VFloat (t_except a - t_start a)%float]> res))
  end.

(** ** The event loop: [asyncio.gather] with [return_exceptions=True]

    Each task comes with the instant at which it completes.  The loop
    handles completions in the order of these instants; a completion
    stores the task's outcome, returned or raised, in the future created
    for that task.  When every task is done the outcomes are read from
    the futures in the order in which the tasks were passed. *)
Definition gather {A} (tasks : list (N * result A)) : list (result A) :=
  let completions :=
    sort_by N.leb (λ c : nat * (N * result A), c.2.1)
            (imap (λ i t, (i, t)) tasks) in
  let futures :=
    foldl (λ fs (c : nat * (N * result A)), <[c.1 := Some c.2.2]> fs)
          (replicate (length tasks) None) completions in
  omap id futures.

(** ** [range(start, stop, step)] *)

Definition py_range (start stop step : Z) : result (list Z) :=
  if step =? 0 then
    Raise (Exn ValueError (lit "range() arg 3 must not be zero"))
  else
    let count :=
      if 0 <? step then (stop - start + step - 1) / step
      else (start - stop - step - 1) / (- step) in
    Ok (map (λ k, start + Z.of_nat k * step) (seq 0 (Z.to_nat count))).

(** ** The batch scheduler: [batch_submit] *)

(** What the scheduler does to the outside, in order: the groups of
    tasks it hands to the event loop and the pauses it starts. *)
Inductive event :=
| Launched (repeat_num : Z) (batch : list dict)
| Slept (seconds : float).

(** How a computation on the event loop ends: it returns or raises, or
    it waits for ever. *)
Inductive ending (A : Type) :=
| Returned (r : result A)
| Waits.
Arguments Returned {A} r.
Arguments Waits {A}.

(** A computation that leaves a trace of events and ends; the trace up
    to an exception, or up to the wait that does not end, is kept. *)
Definition io (A : Type) : Type := list event * ending A.

#[global] Instance io_ret : MRet io := λ _ a, ([], Returned (Ok a)).
#[global] Instance io_bind : MBind io := λ _ _ f m,
  match m with
  | (t, Returned (Ok a)) => let '(t', r) := f a in (t ++ t', r)
  | (t, Returned (Raise e)) => (t, Returned (Raise e))
  | (t, Waits) => (t, Waits)
  end.

Definition tell (es : list event) : io unit := (es, Returned (Ok ())).
Definition lift {A} (r : result A) : io A := ([], Returned r).

(** [await asyncio.sleep(seconds)] for [seconds > 0], which its two
    callers test before they call it: the pause starts, and the run
    goes on when the timer fires.  The timer of an infinite delay never
    fires. *)
Definition asyncio_sleep (seconds : float) : io unit :=
  if (seconds =? infinity)%float then ([Slept seconds], Waits)
  else tell [Slept seconds].

(** [f"{x:.2f}"]: defined for numbers only. *)
Definition format_2f (v : value) : result unit :=
  match v with
  | VFloat _ | VBool _ => Ok ()
  | VInt z =>
      if Z.abs z <? 2 ^ 1024 - 2 ^ 970 then Ok ()
      else Raise (Exn OverflowError (lit "int too large to convert to float"))
  | VStr _ =>
      Raise (Exn ValueError
               (lit "Unknown format code 'f' for object of type 'str'"))
  | _ =>
      Raise (Exn TypeError
               (lit "unsupported format string passed to " ++
                lit (type_name v) ++ lit ".__format__"))
  end.

(** The line printed for one result: the keys it reads, in order. *)
Definition print_result (res : dict) : result unit :=
  success ← getitem res "success";
  if truthy success then
    getitem res "hotkey_short";;
    getitem res "wallet_name";;
    getitem res "hotkey_name";;
    duration ← getitem res "duration";
    format_2f duration
  else
    getitem res "hotkey_short";;
    getitem res "wallet_name";;
    getitem res "hotkey_name";;
    getitem res "error";;
    Ok ().

(** [batch[idx]] *)
Definition index {A} (l : list A) (idx : nat) : result A :=
  match l !! idx with
  | Some x => Ok x
  | None => Raise (Exn (OtherError "IndexError") (lit "list index out of range"))
  end.

(** The record built for a task whose outcome is an exception. *)
Definition fault_record (batch : list dict) (idx : nat) (e : exn) : result dict :=
  hotkey_info ← index batch idx;
  hotkey ← getitem hotkey_info "ss58_address";
  Ok ({[ "success" := VBool false;
         "hotkey" := hotkey;
         "error" := VStr (exn_str e) ]} : dict).

(** One turn of the loop over [enumerate(batch_results)]: the record
    appended to [results], unless the turn raises. *)
Definition collect (batch : list dict) (repeat_num : Z) (idx : nat)
    (outcome : result dict) : result dict :=
  res ← match outcome with
        | Ok res => Ok res
        | Raise e => fault_record batch idx e
        end;
  let res := <["repeat_num" := VInt repeat_num]> res in
  print_result res;;
  Ok res.

(** The outside of a whole run: the attempt met by the submission of
    repeat cycle [r] for the identity at position [k] of the list. *)
Definition world := Z → nat → attempt.

Section Scheduler.

Variable self : BatchSubmitter.
Variable w : world.
Variable hotkeys : list dict.
Variable code : pystr.
Variable competition_id : Z.
Variable max_workers : Z.
Variable delay_between_batches : float.

Definition len_hotkeys : Z := Z.of_nat (length hotkeys).

(** The tasks of the group that starts at position [i]. *)
Definition tasks_of (repeat_num i : Z) (batch : list dict)
    : list (N * result dict) :=
  imap (λ idx hotkey_info,
          let a := w repeat_num (Z.to_nat i + idx)%nat in
          (finished_at a,
           submit_single self hotkey_info code competition_id (-1) a))
       batch.

(** One turn of the loop over [range(0, len(hotkeys), max_workers)]. *)
Definition submit_group (repeat_num i : Z) : io (list dict) :=
  let batch := py_slice hotkeys i (i + max_workers) in
  tell [Launched repeat_num batch];;
  let batch_results := gather (tasks_of repeat_num i batch) in
  rs ← lift (sequence (imap (collect batch repeat_num) batch_results));
  (if (i + max_workers <? len_hotkeys) && (0 <? delay_between_batches)%float
   then asyncio_sleep delay_between_batches else mret ());;
  mret rs.

Fixpoint for_groups (repeat_num : Z) (starts : list Z) (results : list dict)
    : io (list dict) :=
  match starts with
  | [] => mret results
  | i :: starts' =>
      rs ← submit_group repeat_num i;
      for_groups repeat_num starts' (results ++ rs)
  end.

(** The body of the loop over the repeats, up to the extension of
    [all_results]: one repeat cycle. *)
Definition submit_cycle (repeat_num : Z) : io (list dict) :=
  starts ← lift (py_range 0 len_hotkeys max_workers);
  for_groups repeat_num starts [].

Variable repeat : Z.
Variable delay_between_repeats : float.

Fixpoint for_repeats (nums : list Z) (all_results : list dict)
    : io (list dict) :=
  match nums with
  | [] => mret all_results
  | repeat_num :: nums' =>
      results ← submit_cycle repeat_num;
      let all_results := all_results ++ results in
      (if (repeat_num <? repeat) && (0 <? delay_between_repeats)%float
       then asyncio_sleep delay_between_repeats else mret ());;
      for_repeats nums' all_results
  end.

Definition batch_submit : io (list dict) :=
  nums ← lift (py_range 1 (repeat + 1) 1);
  for_repeats nums [].

End Scheduler.

(** ** Numbers: [+] and [/] on ints and floats *)

Inductive number :=
| NInt (z : Z)
| NFloat (f : float).

Definition as_number (v : value) : option number :=
  match v with
  | VInt z => Some (NInt z)
  | VBool b => Some (NInt (if b then 1 else 0))
  | VFloat f => Some (NFloat f)
  | _ => None
  end.

Definition number_type (n : number) : string :=
  match n with NInt _ => "int" | NFloat _ => "float" end.

(** [float(z)]: the nearest float, ties to even; an int beyond the
    range of floats cannot be converted. *)
Definition to_float (z : Z) : result float :=
  if Z.abs z <? 2 ^ 1024 - 2 ^ 970 then
    Ok (SF2Prim (binary_normalize prec emax z 0 false))
  else Raise (Exn OverflowError (lit "int too large to convert to float")).

Definition py_add (acc : number) (v : value) : result number :=
  match acc, as_number v with
  | _, None =>
      Raise (Exn TypeError
               (lit "unsupported operand type(s) for +: '" ++
                lit (number_type acc) ++ lit "' and '" ++
                lit (type_name v) ++ lit "'"))
  | NInt a, Some (NInt b) => Ok (NInt (a + b))
  | NInt a, Some (NFloat b) => x ← to_float a; Ok (NFloat (x + b)%float)
  | NFloat a, Some (NInt b) => y ← to_float b; Ok (NFloat (a + y)%float)
  | NFloat a, Some (NFloat b) => Ok (NFloat (a + b)%float)
  end.

(** The quotient of two ints is their exact quotient rounded once.  The
    float division of the converted operands is that value when both
    convert exactly; larger ints are outside this model. *)
Definition int_quotient_outside_model : exn :=
  Exn (OtherError "NotModelled") (lit "int / int beyond 2 ** 53").

(** [x / n] for an int [n]. *)
Definition py_truediv (x : number) (n : Z) : result float :=
  if n =? 0 then
    Raise (Exn ZeroDivisionError
             (match x with
              | NInt _ => lit "division by zero"
              | NFloat _ => lit "float division by zero"
              end))
  else
    match x with
    | NFloat f => d ← to_float n; Ok (f / d)%float
    | NInt z =>
        if (Z.abs z <=? 2 ^ 53) && (Z.abs n <=? 2 ^ 53) then
          a ← to_float z; d ← to_float n; Ok (a / d)%float
        else Raise int_quotient_outside_model
    end.

(** ** The result aggregator: [print_summary] *)

(** The lines of the summary, by what they report. *)
Inductive line :=
| Rule
| Title
| Total (n : Z)
| Successful (n : Z)
| Failed (n : Z)
| NumberOfRepeats (n : Z)
| RepeatLine (repeat_num successful total : Z)
| AverageDuration (avg : float)
| FailedHeader
| FailedItem (hotkey_short : value) (repeat_num : option value) (error : value).

(** [sum(1 for r in results if r["success"])] *)
Fixpoint count_success (results : list dict) : result Z :=
  match results with
  | [] => Ok 0
  | r :: results' =>
      success ← getitem r "success";
      n ← count_success results';
      Ok (if truthy success then 1 + n else n)
  end.

(** [sum(r["duration"] for r in results if r["success"])], from the
    accumulator [acc]. *)
Fixpoint sum_durations (acc : number) (results : list dict) : result number :=
  match results with
  | [] => Ok acc
  | r :: results' =>
      success ← getitem r "success";
      if truthy success then
        duration ← getitem r "duration";
        acc ← py_add acc duration;
        sum_durations acc results'
      else sum_durations acc results'
  end.

(** The repeat numbers present, for the breakdown by repeat.  They are
    the ints stamped by [batch_submit]; sets of other objects, with
    Python's equality and order across types, are outside this model. *)
Definition repeats_outside_model : exn :=
  Exn (OtherError "NotModelled") (lit "repeat_num that is not an int").

Fixpoint repeat_nums (results : list dict) : result (list Z) :=
  match results with
  | [] => Ok []
  | r :: results' =>
      rest ← repeat_nums results';
      match r !! "repeat_num" with
      | None => Ok rest
      | Some (VInt n) => Ok (if decide (n ∈ rest) then rest else n :: rest)
      | Some _ => Raise repeats_outside_model
      end
  end.

Definition has_repeat_num (n : Z) (r : dict) : bool :=
  match r !! "repeat_num" with
  | Some (VInt m) => m =? n
  | _ => false
  end.

Definition repeat_line (results : list dict) (repeat_num : Z) : result line :=
  let repeat_results := filter (λ r, has_repeat_num repeat_num r = true) results in
  repeat_success ← count_success repeat_results;
  Ok (RepeatLine repeat_num repeat_success (Z.of_nat (length repeat_results))).

(** [max(repeats)] of a set that is not empty. *)
Definition max_of (l : list Z) : Z :=
  match l with
  | [] => 0
  | x :: l' => foldr Z.max x l'
  end.

Definition repeat_breakdown (results : list dict) : result (list line) :=
  repeats ← repeat_nums results;
  if 1 <? Z.of_nat (length repeats) then
    ls ← sequence (map (repeat_line results) (sort_by Z.leb id repeats));
    Ok (NumberOfRepeats (max_of repeats) :: ls)
  else Ok [].

Definition average_line (results : list dict) (successful : Z) : result (list line) :=
  if 0 <? successful then
    total ← sum_durations (NInt 0) results;
    avg_duration ← py_truediv total successful;
    Ok [AverageDuration avg_duration]
  else Ok [].

Fixpoint failed_items (results : list dict) : result (list line) :=
  match results with
  | [] => Ok []
  | r :: results' =>
      success ← getitem r "success";
      rest ← failed_items results';
      if truthy success then Ok rest
      else
        Ok (FailedItem (default (VStr (lit "unknown")) (r !! "hotkey_short"))
                       (r !! "repeat_num")
                       (default (VStr (lit "Unknown error")) (r !! "error"))
            :: rest)
  end.

(** [print_summary]: the lines printed, when it returns. *)
Definition print_summary (results : list dict) : result (list line) :=
  let total := Z.of_nat (length results) in
  successful ← count_success results;
  let failed := total - successful in
  breakdown ← repeat_breakdown results;
  average ← average_line results successful;
  details ←
    (if 0 <? failed then
       items ← failed_items results; Ok (FailedHeader :: items)
     else Ok []);
  Ok ([Rule; Title; Rule; Total total; Successful successful; Failed failed]
      ++ breakdown ++ average ++ [Rule] ++ details).

(** ** The entry point: [main] *)

(** [str.isspace] on one character: the white space of Unicode. *)
Definition py_isspace (c : N) : bool :=
  (((9 <=? c) && (c <=? 13)) || ((28 <=? c) && (c <=? 32)) ||
   (c =? 133) || (c =? 160) || (c =? 5760) ||
   ((8192 <=? c) && (c <=? 8202)) || (c =? 8232) || (c =? 8233) ||
   (c =? 8239) || (c =? 8287) || (c =? 12288))%N.

Fixpoint lstrip (s : pystr) : pystr :=
  match s with
  | c :: s' => if py_isspace c then lstrip s' else s
  | [] => []
  end.

(** [s.strip()] *)
Definition strip (s : pystr) : pystr := rev (lstrip (rev (lstrip s))).

(** The parsed command line. *)
Record Args := {
  solution : pystr;
  arg_competition_id : Z;
  wallet_dir : option pystr;
  wallet_name : option pystr;
  arg_max_workers : Z;
  delay : float;
  arg_repeat : Z;
  repeat_delay : float;
  arg_orchestrator_url : option pystr;
  arg_timeout : float;
  dry_run : bool }.

(** What [main] meets outside the program: the solution file, the
    identities that [find_all_hotkeys] discovers, and the attempts of the
    submissions. *)
Record System := {
  solution_exists : bool;
  solution_read : result pystr;
  found_hotkeys : list dict;
  attempts : world }.

(** The line that lists one discovered identity. *)
Definition print_hotkey (hk : dict) : result unit :=
  getitem hk "wallet_name";;
  getitem hk "hotkey_name";;
  ss58 ← getitem hk "ss58_address";
  slice_to ss58 8;;
  Ok ().

(** [all(r["success"] for r in results)] *)
Fixpoint all_success (results : list dict) : result bool :=
  match results with
  | [] => Ok true
  | r :: results' =>
      success ← getitem r "success";
      if truthy success then all_success results' else Ok false
  end.

(** [return status] in [main]. *)
Definition done (status : Z) : io Z := mret status.

Definition main (args : Args) (sys : System) : io Z :=
  if negb (solution_exists sys) then done 1
  else
    match solution_read sys with
    | Raise _ => done 1
    | Ok content =>
        let code := strip content in
        match code with
        | [] => done 1
        | _ :: _ =>
            let submitter :=
              BatchSubmitter_init (arg_orchestrator_url args) 100000
                                  (arg_timeout args) in
            let hotkeys := found_hotkeys sys in
            match hotkeys with
            | [] => done 1
            | _ :: _ =>
                lift (sequence (map print_hotkey hotkeys));;
                if dry_run args then done 0
                else
                  results ← batch_submit submitter (attempts sys) hotkeys code
                              (arg_competition_id args) (arg_max_workers args)
                              (delay args) (arg_repeat args) (repeat_delay args);
                  lift (print_summary results);;
                  ok ← lift (all_success results);
                  done (if ok : bool then 0 else 1)
            end
        end
    end.

(** The status with which the process ends: the value [main] returns,
    handed to [exit], or 1 after an exception that nothing catches.  A
    run that waits for ever ends with no status. *)
Definition exit_code (run : io Z) : option Z :=
  match run.2 with
  | Returned (Ok status) => Some status
  | Returned (Raise _) => Some 1
  | Waits => None
  end.

(** * Notions used to state the properties *)

(** The value returned, or [d] after an exception. *)
Definition ok_or {A} (d : A) (r : result A) : A :=
  match r with
  | Ok a => a
  | Raise _ => d
  end.

(** [s.split(sep)] for a separator of one character. *)
Fixpoint split_on (sep : N) (s : pystr) : list pystr :=
  match s with
  | [] => [[]]
  | c :: s' =>
      if (c =? sep)%N then [] :: split_on sep s'
      else
        match split_on sep s' with
        | field :: fields => (c :: field) :: fields
        | [] => [[c]]
        end
  end.

(** A digit or a letter from [a] to [f]. *)
Definition is_lower_hex (c : N) : bool :=
  (((48 <=? c) && (c <=? 57)) || ((97 <=? c) && (c <=? 102)))%N.

(** [str(v)] in place of a scalar [v] that is not a string: the request
    as it would be if such values were rendered as strings.  (The text
    of a float is outside the model and a float is left as it is.) *)
Definition stringified (v : value) : value :=
  match v with
  | VNone => VStr (lit "None")
  | VBool true => VStr (lit "True")
  | VBool false => VStr (lit "False")
  | VInt z => VStr (str_of_Z z)
  | _ => v
  end.

(** A key between double quotes. *)
Definition quoted (k : string) : pystr := [34%N] ++ lit k ++ [34%N].

(** One member of a JSON object: the key, a colon and a space, and the
    text of the value. *)
Definition member (k : string) (v : pystr) : pystr :=
  quoted k ++ lit ": " ++ v.

(** The JSON text of a request: the three members in the order of their
    keys, the two integers as bare decimal numbers and the code as a JSON
    string. *)
Definition canonical_text (competition_id round_number : Z) (code : pystr) : pystr :=
  lit "{" ++
  join (lit ", ")
       [member "competition_id" (str_of_Z competition_id);
        member "raw_code" (encode_basestring_ascii code);
        member "round_number" (str_of_Z round_number)] ++
  lit "}".

(** A character of the ASCII range. *)
Definition is_ascii (c : N) : Prop := (c < 128)%N.

(** An object that [v[:8]] accepts. *)
Definition sliceable (v : value) : bool :=
  match v with
  | VStr _ | VList _ => true
  | _ => false
  end.

(** An identity record with the four keys that [submit_single] reads
    and an address that can be sliced. *)
Definition well_formed (hotkey_info : dict) : bool :=
  match hotkey_info !! "hotkey_path", hotkey_info !! "ss58_address",
        hotkey_info !! "wallet_name", hotkey_info !! "hotkey_name" with
  | Some _, Some address, Some _, Some _ => sliceable address
  | _, _, _, _ => false
  end.

(** The entries of a result record, key by key. *)
Record Fields := {
  f_success : option value;
  f_hotkey : option value;
  f_hotkey_short : option value;
  f_wallet_name : option value;
  f_hotkey_name : option value;
  f_response : option value;
  f_error : option value;
  f_duration : option value;
  f_repeat_num : option value }.

Definition fields (res : dict) : Fields :=
  {| f_success := res !! "success";
     f_hotkey := res !! "hotkey";
     f_hotkey_short := res !! "hotkey_short";
     f_wallet_name := res !! "wallet_name";
     f_hotkey_name := res !! "hotkey_name";
     f_response := res !! "response";
     f_error := res !! "error";
     f_duration := res !! "duration";
     f_repeat_num := res !! "repeat_num" |}.

(** The record that [submit_single] returns, entry by entry, from the
    values read in the identity record and from how the request went. *)
Definition outcome_fields (address short wallet name : value) (a : attempt)
    (sent : result Response) : Fields :=
  let base success response error duration :=
    {| f_success := Some (VBool success);
       f_hotkey := Some address;
       f_hotkey_short := Some short;
       f_wallet_name := Some wallet;
       f_hotkey_name := Some name;
       f_response := Some response;
       f_error := Some error;
       f_duration := Some (VFloat duration);
       f_repeat_num := None |} in
  match sent with
  | Raise e =>
      base false VNone (VStr (exn_str e)) (t_except a - t_start a)%float
  | Ok response =>
      if status_code response =? 200 then
        match json response with
        | Ok body => base true body VNone (t_response a - t_start a)%float
        | Raise e =>
            base true VNone (VStr (exn_str e)) (t_except a - t_start a)%float
        end
      else
        base false VNone (VStr (http_error response))
             (t_response a - t_start a)%float
  end.

(** The record appended for the identity at position [k] in repeat
    cycle [r]: the outcome of its submission, stamped with the cycle. *)
Definition record_of (self : BatchSubmitter) (w : world) (code : pystr)
    (competition_id : Z) (r : Z) (k : nat) (hotkey_info : dict) : dict :=
  <["repeat_num" := VInt r]>
    (ok_or ∅ (submit_single self hotkey_info code competition_id (-1) (w r k))).

(** The records of one repeat cycle, in the order of the identities. *)
Definition cycle_records (self : BatchSubmitter) (w : world)
    (hotkeys : list dict) (code : pystr) (competition_id : Z) (r : Z)
    : list dict :=
  imap (record_of self w code competition_id r) hotkeys.

(** The number of groups of at most [c] among [n] identities, as the
    source computes it for its progress line. *)
Definition total_batches (n c : Z) : nat := Z.to_nat ((n + c - 1) / c).

(** [n / c] rounded up. *)
Definition ceil_div (n c : Z) : Z :=
  n / c + (if n mod c =? 0 then 0 else 1).

(** The [k]-th group of at most [c] consecutive identities. *)
Definition group (hotkeys : list dict) (c : Z) (k : nat) : list dict :=
  take (Z.to_nat c) (drop (k * Z.to_nat c) hotkeys).

(** The same attempt, completing on the event loop at another instant. *)
Definition completing_at (instant : N) (a : attempt) : attempt :=
  {| t_start := t_start a;
     read_key_file := read_key_file a;
     create_from_private_key := create_from_private_key a;
     t_header := t_header a;
     entropy := entropy a;
     post := post a;
     t_response := t_response a;
     t_except := t_except a;
     finished_at := instant |}.

(** The same outside, with the submissions completing at other
    instants, hence in another order. *)
Definition retimed (instants : Z → nat → N) (w : world) : world :=
  λ r k, completing_at (instants r k) (w r k).

(** A delay after which the run goes on: any delay but [+inf]. *)
Definition passes (delay : float) : bool := negb (delay =? infinity)%float.

(** The pause after the [k]-th group. *)
Definition pause_after (hotkeys : list dict) (c : Z) (delay : float) (k : nat)
    : list event :=
  if (Z.of_nat k * c + c <? Z.of_nat (length hotkeys)) && (0 <? delay)%float
  then [Slept delay] else [].

(** What one repeat cycle does to the outside. *)
Definition cycle_trace (hotkeys : list dict) (c : Z) (delay : float) (r : Z)
    : list event :=
  flat_map (λ k, Launched r (group hotkeys c k) :: pause_after hotkeys c delay k)
           (seq 0 (total_batches (Z.of_nat (length hotkeys)) c)).

(** The groups handed to the event loop, and the pauses taken, in a
    trace. *)
Definition launched (t : list event) : list (Z * list dict) :=
  omap (λ e, match e with Launched r batch => Some (r, batch) | _ => None end) t.

Definition slept (t : list event) : list float :=
  omap (λ e, match e with Slept d => Some d | _ => None end) t.

(** The pause after repeat cycle [r]. *)
Definition repeat_pause (repeat : Z) (delay : float) (r : Z) : list event :=
  if (r <? repeat) && (0 <? delay)%float then [Slept delay] else [].

(** The repeat cycles of a run: [1], [2], up to [repeat]. *)
Definition cycles (repeat : Z) : list Z :=
  map (λ k, 1 + Z.of_nat k) (seq 0 (Z.to_nat repeat)).

(** What a whole run does to the outside, and the records it returns. *)
Definition batch_trace (hotkeys : list dict) (c : Z) (delay : float)
    (repeat : Z) (repeat_delay : float) : list event :=
  flat_map (λ r, cycle_trace hotkeys c delay r ++ repeat_pause repeat repeat_delay r)
           (cycles repeat).

Definition batch_records (self : BatchSubmitter) (w : world)
    (hotkeys : list dict) (code : pystr) (competition_id : Z) (repeat : Z)
    : list dict :=
  flat_map (cycle_records self w hotkeys code competition_id) (cycles repeat).

(** An identity record with its four keys and an address that cannot
    be sliced. *)
Definition faulty (hotkey_info : dict) : bool :=
  match hotkey_info !! "hotkey_path", hotkey_info !! "ss58_address",
        hotkey_info !! "wallet_name", hotkey_info !! "hotkey_name" with
  | Some _, Some address, Some _, Some _ => negb (sliceable address)
  | _, _, _, _ => false
  end.

(** A record whose [success] entry is true. *)
Definition succeeded (res : dict) : bool :=
  match res !! "success" with
  | Some v => truthy v
  | None => false
  end.

(** [sum(values)] from the accumulator [acc]. *)
Fixpoint sum_values (acc : number) (values : list value) : result number :=
  match values with
  | [] => Ok acc
  | v :: values' => acc ← py_add acc v; sum_values acc values'
  end.

(** The mean of the durations of the successful records: their sum over
    their count. *)
Definition mean_duration (results : list dict) : result float :=
  let successes := filter (λ res, succeeded res = true) results in
  total ← sum_values (NInt 0) (omap (λ res : dict, res !! "duration") successes);
  py_truediv total (Z.of_nat (length successes)).

(** The averages that a summary reports. *)
Definition averages (lines : list line) : list float :=
  omap (λ l, match l with AverageDuration avg => Some avg | _ => None end) lines.

(** The failed submissions that a summary lists: the identity, the
    repeat number if any, and the error. *)
Definition failures (lines : list line) : list (value * option value * value) :=
  omap (λ l, match l with
             | FailedItem hotkey_short repeat_num error =>
                 Some (hotkey_short, repeat_num, error)
             | _ => None
             end) lines.

(** What the summary lists for a record. *)
Definition failure_of (res : dict) : value * option value * value :=
  (default (VStr (lit "unknown")) (res !! "hotkey_short"),
   res !! "repeat_num",
   default (VStr (lit "Unknown error")) (res !! "error")).

(** A record with the entries that the summary reads, of the types that
    [submit_single] and [batch_submit] give them. *)
Definition reported (res : dict) : Prop :=
  ∃ (b : bool) (d : float) (r : Z),
    res !! "success" = Some (VBool b) ∧
    res !! "duration" = Some (VFloat d) ∧
    res !! "repeat_num" = Some (VInt r).

(** The identity record made from a key file. *)
Definition identity (wallet_name : pystr) (hotkey_file : HotkeyFile)
    (address : value) : dict :=
  {[ "wallet_name" := VStr wallet_name;
     "hotkey_name" := VStr (file_name hotkey_file);
     "hotkey_path" := VStr (file_str hotkey_file);
     "ss58_address" := address ]}.

(** A key file that yields an identity: a regular file, not a copy of
    the public key by its name, that holds a JSON object with a truthy
    [ss58Address]; and the record it yields. *)
Definition usable (wallet_name : pystr) (hotkey_file : HotkeyFile)
    : option dict :=
  if file_is_file hotkey_file &&
     negb (endswith (file_name hotkey_file) (lit ".txt")) &&
     negb (endswith (file_name hotkey_file) (lit "pub")) then
    match file_json hotkey_file with
    | Ok (VDict l) =>
        match assoc (lit "ss58Address") l with
        | Some address =>
            if truthy address then Some (identity wallet_name hotkey_file address)
            else None
        | None => None
        end
    | _ => None
    end
  else None.

(** The identities of one wallet path: those of the usable files of
    its [hotkeys] directory, in the order of the listing. *)
Definition identities_of (wallet_path : WalletPath) : list dict :=
  if path_is_dir wallet_path then
    match hotkeys_dir wallet_path with
    | Some (Ok files) => omap (usable (path_name wallet_path)) files
    | _ => []
    end
  else [].


(** The wallet paths that a scan visits. *)
Definition visited (fs : WalletDir) (wallet_name : option pystr)
    : result (list WalletPath) :=
  match wallet_name with
  | Some (c :: name) => Ok [wallet_dir_child fs (c :: name)]
  | _ => wallet_dir_iterdir fs
  end.

(** The repeat numbers that the records carry, one per record that has
    an int as its [repeat_num]. *)
Definition repeat_numbers (results : list dict) : list Z :=
  omap (λ res : dict, match res !! "repeat_num" with
                      | Some (VInt n) => Some n
                      | _ => None
                      end) results.

(** The lines of a summary that break the totals down by repeat. *)
Definition is_breakdown (l : line) : bool :=
  match l with
  | NumberOfRepeats _ | RepeatLine _ _ _ => true
  | _ => false
  end.

Definition breakdown_lines (lines : list line) : list line :=
  filter (λ l, is_breakdown l = true) lines.

(** The line of the breakdown for the repeat number [n]: how many of
    the records of that number are successful, and how many there are. *)
Definition repeat_totals (results : list dict) (n : Z) : line :=
  let of_n := filter (λ res, has_repeat_num n res = true) results in
  RepeatLine n
    (Z.of_nat (length (filter (λ res, succeeded res = true) of_n)))
    (Z.of_nat (length of_n)).

(** A computation that does not end in a [ZeroDivisionError]. *)
Definition no_zero_division {A} (r : result A) : Prop :=
  ∀ e, r = Raise e → exn_type e ≠ ZeroDivisionError.

(** The digits of a dashed identifier, without the dashes. *)
Definition undashed (s : pystr) : pystr :=
  take 8 s ++ take 4 (drop 9 s) ++ take 4 (drop 14 s) ++ take 4 (drop 19 s)
  ++ drop 24 s.

(** The full stop that delimits the fields of the signed message. *)
Definition dot : N := 46%N.

(** ** A sample run

    Concrete identities and a concrete outside, on which the statements
    below are exercised. *)

Definition sample_keypair : Keypair :=
  {| ss58_address := lit "5FHneW46xGXgs5mUiveU4sbTyGBzmstUspZC92UhjJM694ty";
     sign := λ message, Ok (SHA256.digest (map byte_of_N message)) |}.

Definition sample_key_file : value :=
  VDict [(lit "privateKey", VStr (lit "0x0aFF10"));
         (lit "ss58Address",
          VStr (lit "5FHneW46xGXgs5mUiveU4sbTyGBzmstUspZC92UhjJM694ty"))].

(** An attempt answered with the given status, completing at the given
    instant. *)
Definition sample_attempt (status : Z) (instant : N) : attempt :=
  {| t_start := 1730000000.5%float;
     read_key_file := λ _, Ok sample_key_file;
     create_from_private_key := λ _, Ok sample_keypair;
     t_header := 1730000000.625%float;
     entropy := 0x123456789abcdef0123456789abcdef0%N;
     post := λ _ _ _,
       Ok {| status_code := status;
             text := lit "rejected";
             json := Ok (VDict [(lit "accepted", VBool true)]) |};
     t_response := 1730000001.75%float;
     t_except := 1730000002%float;
     finished_at := instant |}.

(** The identity at position 1 is answered with status 500, the others
    with 200; later positions complete first. *)
Definition sample_world : world := λ repeat_num k,
  sample_attempt (if (k =? 1)%nat then 500 else 200) (N.of_nat (10 - k)).

Definition sample_hotkey (name : string) (address : value) : dict :=
  {[ "wallet_name" := VStr (lit "mama");
     "hotkey_name" := VStr (lit name);
     "hotkey_path" := VStr (lit "/wallets/mama/hotkeys/" ++ lit name);
     "ss58_address" := address ]}.

Definition sample_hotkeys : list dict :=
  [sample_hotkey "apex0" (VStr (lit "5FHneW46xGXgs5mUiveU4sbTyGBzmstUspZC92UhjJM694ty"));
   sample_hotkey "apex1" (VStr (lit "5DAAnrj7VHTznn2AWBemMuyBwZWs6FNFjdyVXUeYum3PTXFy"));
   sample_hotkey "apex2" (VStr (lit "5HGjWAeFDfFCWPsjFQdVV2Msvz2XtMktvgocEZcCj68kUMaw"))].

Definition sample_submitter : BatchSubmitter :=
  BatchSubmitter_init None 100000 60%float.

Definition sample_body : list byte :=
  map byte_of_N (lit "{}").

(** The headers of a sample signing at the given clock reading and
    random bits (empty if the signing raises). *)
Definition sample_headers (now : float) (entropy : N) : dict :=
  ok_or ∅ (generate_header sample_submitter sample_keypair sample_body now entropy).

(** The first sample identity, and a sample attempt that the service
    answers with status 200. *)
Definition sample_identity : dict :=
  sample_hotkey "apex0"
    (VStr (lit "5FHneW46xGXgs5mUiveU4sbTyGBzmstUspZC92UhjJM694ty")).

Definition sample_path : value := VStr (lit "/wallets/mama/hotkeys/apex0").

(** An attempt that a service answers with status 200 and a body that
    is not JSON. *)
Definition sample_attempt_bad_body : attempt :=
  {| t_start := t_start (sample_attempt 200 0);
     read_key_file := read_key_file (sample_attempt 200 0);
     create_from_private_key := create_from_private_key (sample_attempt 200 0);
     t_header := t_header (sample_attempt 200 0);
     entropy := entropy (sample_attempt 200 0);
     post := λ _ _ _,
       Ok {| status_code := 200;
             text := lit "<html>";
             json := Raise (Exn (OtherError "JSONDecodeError")
                                (lit "Expecting value: line 1 column 1 (char 0)")) |};
     t_response := t_response (sample_attempt 200 0);
     t_except := t_except (sample_attempt 200 0);
     finished_at := 0 |}.

(** An attempt whose connection is refused. *)
Definition sample_attempt_refused : attempt :=
  {| t_start := t_start (sample_attempt 200 0);
     read_key_file := read_key_file (sample_attempt 200 0);
     create_from_private_key := create_from_private_key (sample_attempt 200 0);
     t_header := t_header (sample_attempt 200 0);
     entropy := entropy (sample_attempt 200 0);
     post := λ _ _ _,
       Raise (Exn (OtherError "ConnectError") (lit "All connection attempts failed"));
     t_response := t_response (sample_attempt 200 0);
     t_except := t_except (sample_attempt 200 0);
     finished_at := 0 |}.

(** An attempt whose key file holds an address only. *)
Definition sample_attempt_no_key : attempt :=
  {| t_start := t_start (sample_attempt 200 0);
     read_key_file := λ _,
       Ok (VDict [(lit "ss58Address",
                   VStr (lit "5FHneW46xGXgs5mUiveU4sbTyGBzmstUspZC92UhjJM694ty"))]);
     create_from_private_key := create_from_private_key (sample_attempt 200 0);
     t_header := t_header (sample_attempt 200 0);
     entropy := entropy (sample_attempt 200 0);
     post := post (sample_attempt 200 0);
     t_response := t_response (sample_attempt 200 0);
     t_except := t_except (sample_attempt 200 0);
     finished_at := 0 |}.

(** Records of a summary: two successes and one refusal. *)
Definition sample_record (success : bool) (short : string) (error : value)
    (duration : float) (r : Z) : dict :=
  {[ "success" := VBool success; "hotkey_short" := VStr (lit short);
     "error" := error; "duration" := VFloat duration; "repeat_num" := VInt r ]}.

Definition sample_results : list dict :=
  [ sample_record true "5Fapex00" VNone 0.5%float 1;
    sample_record false "5Fapex01" (VStr (lit "HTTP 500: busy")) 1.5%float 1;
    sample_record true "5Fapex02" VNone 0.25%float 1 ].

(** The same records followed by those of a second repeat. *)
Definition sample_results_of_two_repeats : list dict :=
  sample_results ++
  [ sample_record false "5Fapex00" (VStr (lit "HTTP 429: slow down")) 0.125%float 2;
    sample_record true "5Fapex01" VNone 0.75%float 2 ].

(** A command line and what it finds: a solution with white space
    around it and the three identities. *)
Definition sample_args (max_workers repeat : Z) (dry_run : bool) : Args :=
  {| solution := lit "solution.py";
     arg_competition_id := 1;
     wallet_dir := None;
     wallet_name := None;
     arg_max_workers := max_workers;
     delay := 0%float;
     arg_repeat := repeat;
     repeat_delay := 0%float;
     arg_orchestrator_url := None;
     arg_timeout := 60%float;
     dry_run := dry_run |}.

Definition sample_system (content : string) (hotkeys : list dict) : System :=
  {| solution_exists := true;
     solution_read := Ok (lit content);
     found_hotkeys := hotkeys;
     attempts := sample_world |}.

(** A wallet directory: one wallet with a key file, a copy of its
    public key, a file that is not JSON and a key file without address;
    a second wallet; and a stray file. *)
Definition sample_file (wallet name : string) (content : result value)
    : HotkeyFile :=
  {| file_name := lit name;
     file_str := lit "/wallets/" ++ lit wallet ++ lit "/hotkeys/" ++ lit name;
     file_is_file := true;
     file_json := content |}.

Definition sample_wallet (wallet : string) (files : list HotkeyFile)
    : WalletPath :=
  {| path_name := lit wallet;
     path_is_dir := true;
     hotkeys_dir := Some (Ok files) |}.

Definition sample_wallets : list WalletPath :=
  [ sample_wallet "mama"
      [ sample_file "mama" "apex0" (Ok sample_key_file);
        sample_file "mama" "apex0pub.txt" (Ok sample_key_file);
        sample_file "mama" "notes"
          (Raise (Exn (OtherError "JSONDecodeError")
                      (lit "Expecting value: line 1 column 1 (char 0)")));
        sample_file "mama" "apex1" (Ok (VDict [(lit "privateKey", VStr (lit "00"))])) ];
    {| path_name := lit "README"; path_is_dir := false; hotkeys_dir := None |};
    sample_wallet "papa"
      [ sample_file "papa" "apex2"
          (Ok (VDict [(lit "ss58Address", VInt 12345)])) ] ].

Definition sample_wallet_dir : WalletDir :=
  {| wallet_dir_exists := true;
     wallet_dir_iterdir := Ok sample_wallets;
     wallet_dir_child := λ name,
       default {| path_name := name; path_is_dir := false; hotkeys_dir := None |}
               (head (filter (λ wp, path_name wp = name) sample_wallets)) |}.



(** * Properties *)

Lemma is_ok_eq {A} (d : A) (r : result A) :
  is_ok r = true → r = Ok (ok_or d r).
Proof. by destruct r. Qed.

(** ** The sort and the join of the event loop *)

Lemma insert_by_perm {A K} (leb : K → K → bool) (key : A → K) x l :
  insert_by leb key x l ≡ₚ x :: l.
Proof.
  induction l as [|y l IH]; simpl; [done|].
  destruct (leb (key y) (key x)); [|done].
  rewrite IH. apply Permutation_swap.
Qed.

Lemma sort_by_perm {A K} (leb : K → K → bool) (key : A → K) l :
  sort_by leb key l ≡ₚ l.
Proof.
  induction l as [|x l IH]; simpl; [done|].
  unfold sort_by in *. simpl. rewrite insert_by_perm. by rewrite IH.
Qed.

(** Storing outcomes in the futures, in any order of completion: the
    future of a task that completes holds that task's outcome. *)
Lemma futures_filled {A} (evs : list (nat * (N * result A))) :
  ∀ (fs : list (option (result A))) j o,
    (j < length fs)%nat →
    (∀ t, (j, t) ∈ evs → t.2 = o) →
    (∃ t, (j, t) ∈ evs) ∨ fs !! j = Some (Some o) →
    foldl (λ fs (c : nat * (N * result A)), <[c.1 := Some c.2.2]> fs) fs evs !! j
    = Some (Some o).
Proof.
  induction evs as [|[i t] evs IH]; intros fs j o Hj Hsame Hcase; simpl.
  - destruct Hcase as [[t Ht]|Hfs]; [|done]. by apply elem_of_nil in Ht.
  - apply IH.
    + by rewrite length_insert.
    + intros t' Ht'. apply Hsame. by right.
    + destruct (decide (i = j)) as [->|Hne].
      * right. rewrite list_lookup_insert_eq by done.
        do 2 f_equal. apply Hsame. by left.
      * destruct Hcase as [[t' Ht']|Hfs].
        -- apply elem_of_cons in Ht' as [Heq|Hin]; [congruence|].
           left. by exists t'.
        -- right. by rewrite list_lookup_insert_ne.
Qed.

Lemma futures_length {A} (evs : list (nat * (N * result A))) :
  ∀ fs : list (option (result A)),
    length (foldl (λ fs (c : nat * (N * result A)), <[c.1 := Some c.2.2]> fs) fs evs)
    = length fs.
Proof.
  induction evs as [|c evs IH]; intros fs; simpl; [done|].
  by rewrite IH, length_insert.
Qed.

Lemma omap_id_Some {A} (l : list A) : omap id (Some <$> l) = l.
Proof. induction l as [|x l IH]; [done|]. csimpl. by rewrite IH. Qed.

(** The join returns the outcomes in the order of the tasks, whatever
    the order in which the tasks complete. *)
Lemma gather_positional {A} (tasks : list (N * result A)) :
  gather tasks = snd <$> tasks.
Proof.
  unfold gather.
  set (evs := sort_by _ _ _).
  set (fs := foldl _ _ evs).
  assert (Hevs : ∀ i t, (i, t) ∈ evs ↔ tasks !! i = Some t).
  { intros i t. unfold evs. rewrite sort_by_perm.
    rewrite elem_of_lookup_imap. split.
    - intros (i' & t' & Heq & Hl). by simplify_eq.
    - intros Hl. by exists i, t. }
  assert (Hfs : fs = Some <$> (snd <$> tasks)).
  { apply list_eq. intros j. unfold fs.
    destruct (tasks !! j) as [t|] eqn:Hj.
    - rewrite !list_lookup_fmap, Hj. simpl.
      apply futures_filled.
      + rewrite length_replicate. by eapply lookup_lt_Some.
      + intros t' Ht'. apply Hevs in Ht'. congruence.
      + left. exists t. by apply Hevs.
    - rewrite !list_lookup_fmap, Hj. simpl.
      apply lookup_ge_None. rewrite futures_length, length_replicate.
      by apply lookup_ge_None. }
  rewrite Hfs. apply omap_id_Some.
Qed.

(** ** Fields of a dotted string *)

Lemma split_on_field sep a b :
  sep ∉ a → split_on sep (a ++ sep :: b) = a :: split_on sep b.
Proof.
  induction a as [|c a IH]; intros Hsep; simpl.
  - by rewrite N.eqb_refl.
  - apply not_elem_of_cons in Hsep as [Hc Ha].
    destruct (N.eqb_spec c sep); [congruence|].
    by rewrite IH.
Qed.

Lemma split_on_field_app sep a b :
  sep ∉ a → split_on sep (a ++ [sep] ++ b) = a :: split_on sep b.
Proof. apply split_on_field. Qed.

(** ** Decimal and hexadecimal text *)

Lemma codes_of_uint_chars d :
  Forall (λ c, (48 ≤ c ≤ 57)%N) (codes_of_uint d).
Proof. induction d; simpl; constructor; (lia || done). Qed.

Lemma codes_of_uint_inj d d' :
  codes_of_uint d = codes_of_uint d' → d = d'.
Proof.
  revert d'. induction d; intros []; simpl; intros H;
    try discriminate; try done; f_equal; apply IHd; congruence.
Qed.

Lemma codes_of_int_inj d d' :
  codes_of_int d = codes_of_int d' → d = d'.
Proof.
  destruct d as [d|d], d' as [d'|d']; simpl; intros H.
  - f_equal. by apply codes_of_uint_inj.
  - pose proof (codes_of_uint_chars d) as Hc. rewrite H in Hc.
    apply Forall_inv in Hc. lia.
  - pose proof (codes_of_uint_chars d') as Hc. rewrite <- H in Hc.
    apply Forall_inv in Hc. lia.
  - f_equal. apply codes_of_uint_inj. congruence.
Qed.

Lemma str_of_Z_inj z z' : str_of_Z z = str_of_Z z' → z = z'.
Proof.
  unfold str_of_Z. intros H%codes_of_int_inj.
  rewrite <- (DecimalZ.of_to z), <- (DecimalZ.of_to z'). by rewrite H.
Qed.

Lemma str_of_Z_chars z : Forall (λ c, (c = 45 ∨ 48 ≤ c ≤ 57)%N) (str_of_Z z).
Proof.
  unfold str_of_Z. destruct (Z.to_int z) as [d|d]; simpl.
  - eapply Forall_impl; [apply codes_of_uint_chars|]. intros c Hc. by right.
  - constructor; [by left|].
    eapply Forall_impl; [apply codes_of_uint_chars|]. intros c Hc. by right.
Qed.

Lemma hex_digit_lower n : (n < 16)%N → is_lower_hex (hex_digit n) = true.
Proof.
  intros Hn. unfold hex_digit, is_lower_hex.
  destruct (N.ltb_spec n 10).
  - apply orb_true_iff. left. apply andb_true_iff. split; apply N.leb_le; lia.
  - apply orb_true_iff. right. apply andb_true_iff. split; apply N.leb_le; lia.
Qed.

Lemma hex_width_lower k n : Forall (λ c, is_lower_hex c = true) (hex_width k n).
Proof.
  revert n. induction k as [|k IH]; intros n; simpl; [constructor|].
  apply Forall_app. split; [apply IH|].
  constructor; [|constructor].
  apply hex_digit_lower. apply N.mod_lt. done.
Qed.

Lemma hex_width_length k n : length (hex_width k n) = k.
Proof.
  revert n. induction k as [|k IH]; intros n; simpl; [done|].
  rewrite length_app, IH. simpl. lia.
Qed.

Lemma hex_cons b bs : hex (b :: bs) = hex_of_byte b ++ hex bs.
Proof. done. Qed.

Lemma hex_lower bs : Forall (λ c, is_lower_hex c = true) (hex bs).
Proof.
  induction bs as [|b bs IH]; [constructor|].
  rewrite hex_cons. apply Forall_app. split; [apply hex_width_lower|done].
Qed.

Lemma hex_length bs : length (hex bs) = (2 * length bs)%nat.
Proof.
  induction bs as [|b bs IH]; [done|].
  rewrite hex_cons, length_app, IH. unfold hex_of_byte.
  rewrite hex_width_length. simpl. lia.
Qed.

(** ** The digest *)

Lemma round_length st kw : length st = 8%nat → length (SHA256.round st kw) = 8%nat.
Proof.
  intros H. do 9 (destruct st as [|? st]; try discriminate). done.
Qed.

Lemma rounds_length kws : ∀ st,
  length st = 8%nat → length (fold_left SHA256.round kws st) = 8%nat.
Proof.
  induction kws as [|kw kws IH]; intros st H; simpl; [done|].
  apply IH. by apply round_length.
Qed.

Lemma compress_length h block :
  length h = 8%nat → length (SHA256.compress h block) = 8%nat.
Proof.
  intros H. unfold SHA256.compress.
  rewrite length_map, length_combine, rounds_length by done. lia.
Qed.

Lemma blocks_length fuel : ∀ h bs,
  length h = 8%nat → length (SHA256.blocks fuel h bs) = 8%nat.
Proof.
  induction fuel as [|fuel IH]; intros h bs H; simpl; [done|].
  destruct bs; [done|]. apply IH. by apply compress_length.
Qed.

Lemma be_bytes_length k n : length (SHA256.be_bytes k n) = k.
Proof. induction k as [|k IH]; simpl; [done|]. by rewrite IH. Qed.

Lemma flat_map_length_const {A B} (f : A → list B) k l :
  (∀ x, length (f x) = k) → length (flat_map f l) = (k * length l)%nat.
Proof.
  intros Hf. induction l as [|x l IH]; simpl; [lia|].
  rewrite length_app, Hf, IH. lia.
Qed.

Lemma digest_length body : length (SHA256.digest body) = 32%nat.
Proof.
  unfold SHA256.digest. rewrite length_map.
  rewrite (flat_map_length_const _ 4) by apply be_bytes_length.
  by rewrite blocks_length.
Qed.

Lemma hexdigest_length body : length (sha256_hexdigest body) = 64%nat.
Proof. unfold sha256_hexdigest. by rewrite hex_length, digest_length. Qed.

Lemma lower_hex_not_dot s :
  Forall (λ c, is_lower_hex c = true) s → dot ∉ s.
Proof.
  intros H Hin. eapply Forall_forall in H; [|done]. done.
Qed.

Lemma str_of_Z_not_dot z : dot ∉ str_of_Z z.
Proof.
  intros Hin. pose proof (str_of_Z_chars z) as H.
  eapply Forall_forall in H; [|done]. unfold dot in H. lia.
Qed.

(** The signed message has three fields: the digest, the timestamp and
    an empty field. *)
Lemma signed_message_fields body ts :
  split_on dot (signed_message body ts)
  = [sha256_hexdigest body; str_of_Z ts; []].
Proof.
  unfold signed_message. change (lit ".") with [dot].
  rewrite split_on_field_app by (apply lower_hex_not_dot, hex_lower).
  f_equal. rewrite <- (app_nil_r [dot]).
  by rewrite split_on_field_app by apply str_of_Z_not_dot.
Qed.

(** ** The request signer *)

(** Reading the headers that [generate_header] builds. *)
Lemma headers_lookup (timestamp signed_by signature version request_id content : value) :
  let headers : dict :=
    {[ "Epistula-Timestamp" := timestamp;
       "Epistula-Signed-By" := signed_by;
       "Epistula-Request-Signature" := signature;
       "X-Spec-Version" := version;
       "X-Request-Id" := request_id;
       "Content-Type" := content ]} in
  headers !! "Epistula-Timestamp" = Some timestamp ∧
  headers !! "Epistula-Request-Signature" = Some signature ∧
  headers !! "X-Request-Id" = Some request_id.
Proof. vm_compute. done. Qed.

(** What a returned set of headers tells about the call. *)
Lemma generate_header_ok (self : BatchSubmitter) (hotkey : Keypair)
    (body : list byte) (now : float) (entropy : N) (headers : dict) :
  generate_header self hotkey body now entropy = Ok headers →
  ∃ ts signature,
    timestamp_ms now = Ok ts ∧
    sign hotkey (signed_message body ts) = Ok signature ∧
    headers !! "Epistula-Timestamp" = Some (VStr (str_of_Z ts)) ∧
    headers !! "Epistula-Request-Signature"
      = Some (VStr (lit "0x" ++ hex signature)) ∧
    headers !! "X-Request-Id" = Some (VStr (str_of_uuid (uuid4 entropy))).
Proof.
  unfold generate_header. intros H.
  destruct (timestamp_ms now) as [ts|] eqn:Hts; [|discriminate H].
  cbn [mbind result_bind] in H.
  destruct (sign hotkey (signed_message body ts)) as [signature|] eqn:Hsig;
    [|discriminate H].
  cbn [mbind result_bind] in H. injection H as <-.
  exists ts, signature. do 2 (split; [done|]).
  exact (headers_lookup _ _ _ _ _ _).
Qed.

(** C4.  [generate_header] signs the message made of the lowercase
    hexadecimal SHA-256 digest of the body, a full stop, the timestamp in
    milliseconds and a closing full stop: three fields joined by full
    stops, of which the third is empty.  The signature header is the
    hexadecimal text of the signature after the prefix [0x]. *)
Theorem generate_header_signs_digest_and_timestamp
    (self : BatchSubmitter) (hotkey : Keypair) (body : list byte)
    (now : float) (entropy : N) (timestamp : Z) (signature : list byte) :
  timestamp_ms now = Ok timestamp →
  sign hotkey (sha256_hexdigest body ++ lit "." ++ str_of_Z timestamp ++ lit ".")
    = Ok signature →
  ∃ headers,
    generate_header self hotkey body now entropy = Ok headers ∧
    headers !! "Epistula-Request-Signature"
      = Some (VStr (lit "0x" ++ hex signature)) ∧
    split_on dot (signed_message body timestamp)
      = [hex (SHA256.digest body); str_of_Z timestamp; []] ∧
    length (hex (SHA256.digest body)) = 64%nat ∧
    Forall (λ c, is_lower_hex c = true) (hex (SHA256.digest body)).
Proof.
  intros Hts Hsig. unfold generate_header. rewrite Hts. simpl.
  unfold signed_message at 1. rewrite Hsig. simpl.
  eexists. split; [done|]. split; [apply headers_lookup|].
  split; [apply signed_message_fields|].
  split; [apply hexdigest_length|apply hex_lower].
Qed.

Lemma generate_header_signs_digest_and_timestamp_witness :
  ∃ headers,
    generate_header sample_submitter sample_keypair sample_body
      1730000000.625%float 7%N = Ok headers ∧
    headers !! "Epistula-Request-Signature"
      = Some (VStr (lit "0x" ++
                    hex (SHA256.digest
                           (map byte_of_N (signed_message sample_body 1730000000625))))) ∧
    split_on dot (signed_message sample_body 1730000000625)
      = [hex (SHA256.digest sample_body); str_of_Z 1730000000625; []] ∧
    length (hex (SHA256.digest sample_body)) = 64%nat ∧
    Forall (λ c, is_lower_hex c = true) (hex (SHA256.digest sample_body)).
Proof.
  apply (generate_header_signs_digest_and_timestamp
           sample_submitter sample_keypair sample_body
           1730000000.625%float 7%N 1730000000625
           (SHA256.digest (map byte_of_N (signed_message sample_body 1730000000625)))).
  - vm_compute. reflexivity.
  - vm_compute. reflexivity.
Defined.

(** ** Fresh timestamps and request identifiers *)

Lemma hex_digit_inj a b :
  (a < 16)%N → (b < 16)%N → hex_digit a = hex_digit b → a = b.
Proof.
  unfold hex_digit. intros Ha Hb.
  destruct (N.ltb_spec a 10), (N.ltb_spec b 10); lia.
Qed.

Lemma hex_width_inj k : ∀ a b,
  hex_width k a = hex_width k b → (a mod 16 ^ N.of_nat k = b mod 16 ^ N.of_nat k)%N.
Proof.
  induction k as [|k IH]; intros a b H.
  - simpl. by rewrite !N.mod_1_r.
  - simpl in H. apply app_inj_tail in H as [Hhi Hlo].
    apply IH in Hhi.
    apply hex_digit_inj in Hlo; [|by apply N.mod_lt..].
    rewrite Nat2N.inj_succ, N.pow_succ_r'.
    rewrite !N.Div0.mod_mul_r. by rewrite Hhi, Hlo.
Qed.

Lemma lor_below n a b :
  (a < 2 ^ n)%N → (b < 2 ^ n)%N → (N.lor a b < 2 ^ n)%N.
Proof.
  intros Ha Hb.
  destruct (N.eq_dec a 0%N) as [->|Ha0]; [by rewrite N.lor_0_l|].
  destruct (N.eq_dec b 0%N) as [->|Hb0]; [by rewrite N.lor_0_r|].
  destruct (N.eq_dec (N.lor a b) 0%N) as [->|Hne]; [lia|].
  apply N.log2_lt_pow2; [lia|]. rewrite N.log2_lor.
  apply N.max_lub_lt; apply N.log2_lt_pow2; (lia || done).
Qed.

Lemma uuid4_below entropy : (uuid4 entropy < 2 ^ 128)%N.
Proof.
  unfold uuid4.
  assert (H0 : (entropy mod 2 ^ 128 < 2 ^ 128)%N) by (by apply N.mod_lt).
  set (n0 := (entropy mod 2 ^ 128)%N) in *.
  set (n1 := N.ldiff n0 _).
  assert (H1 : (n1 < 2 ^ 128)%N).
  { eapply N.le_lt_trans; [apply N.ldiff_le_l|done]. }
  set (n2 := N.lor n1 _).
  assert (H2 : (n2 < 2 ^ 128)%N) by (by apply lor_below).
  set (n3 := N.ldiff n2 _).
  assert (H3 : (n3 < 2 ^ 128)%N).
  { eapply N.le_lt_trans; [apply N.ldiff_le_l|done]. }
  by apply lor_below.
Qed.

(** The hexadecimal digits can be read back from the dashed text. *)
Lemma undashed_dashed (h : pystr) :
  length h = 32%nat → undashed (dashed h) = h.
Proof.
  intros Hlen.
  do 33 (destruct h as [|? h]; try discriminate). reflexivity.
Qed.

Lemma str_of_uuid_inj u u' :
  (u < 2 ^ 128)%N → (u' < 2 ^ 128)%N →
  str_of_uuid u = str_of_uuid u' → u = u'.
Proof.
  intros Hu Hu' H. unfold str_of_uuid in H.
  apply (f_equal undashed) in H.
  rewrite !undashed_dashed in H by apply hex_width_length.
  apply hex_width_inj in H.
  change (16 ^ N.of_nat 32)%N with (2 ^ 128)%N in H.
  by rewrite !N.mod_small in H.
Qed.

(** C9, as the code has it.  Two signings of the same body by the same
    identity sign the same digest: each hands to the signing primitive
    the text made of the SHA-256 digest of the body, a full stop, its
    own timestamp and a closing full stop, and the signature header it
    emits is the signature of that text.  Each reads the clock and
    draws its identifier anew: the timestamp headers are equal exactly
    when the two readings round to the same millisecond, and the request
    identifiers are equal exactly when the two draws yield the same
    UUID. *)
Theorem generate_header_fresh_per_call
    (self : BatchSubmitter) (hotkey : Keypair) (body : list byte)
    (now1 now2 : float) (entropy1 entropy2 : N) (headers1 headers2 : dict) :
  generate_header self hotkey body now1 entropy1 = Ok headers1 →
  generate_header self hotkey body now2 entropy2 = Ok headers2 →
  ∃ ts1 ts2 sig1 sig2,
    timestamp_ms now1 = Ok ts1 ∧ timestamp_ms now2 = Ok ts2 ∧
    sign hotkey (sha256_hexdigest body ++ lit "." ++ str_of_Z ts1 ++ lit ".")
      = Ok sig1 ∧
    sign hotkey (sha256_hexdigest body ++ lit "." ++ str_of_Z ts2 ++ lit ".")
      = Ok sig2 ∧
    headers1 !! "Epistula-Request-Signature"
      = Some (VStr (lit "0x" ++ hex sig1)) ∧
    headers2 !! "Epistula-Request-Signature"
      = Some (VStr (lit "0x" ++ hex sig2)) ∧
    split_on dot (sha256_hexdigest body ++ lit "." ++ str_of_Z ts1 ++ lit ".")
      = [sha256_hexdigest body; str_of_Z ts1; []] ∧
    split_on dot (sha256_hexdigest body ++ lit "." ++ str_of_Z ts2 ++ lit ".")
      = [sha256_hexdigest body; str_of_Z ts2; []] ∧
    (headers1 !! "Epistula-Timestamp" = headers2 !! "Epistula-Timestamp"
     ↔ ts1 = ts2) ∧
    (headers1 !! "X-Request-Id" = headers2 !! "X-Request-Id"
     ↔ uuid4 entropy1 = uuid4 entropy2).
Proof.
  intros H1 H2.
  apply generate_header_ok in H1 as (ts1 & sig1 & Hts1 & Hsig1 & Ht1 & Hs1 & Hr1).
  apply generate_header_ok in H2 as (ts2 & sig2 & Hts2 & Hsig2 & Ht2 & Hs2 & Hr2).
  exists ts1, ts2, sig1, sig2.
  do 6 (split; [done|]).
  split; [apply signed_message_fields|]. split; [apply signed_message_fields|].
  rewrite Ht1, Ht2, Hr1, Hr2. split.
  - split; [|by intros ->].
    intros H. apply str_of_Z_inj. congruence.
  - split; [|by intros ->].
    intros H. apply str_of_uuid_inj; [apply uuid4_below..|congruence].
Qed.

Lemma generate_header_fresh_per_call_witness :
  ∃ ts1 ts2 sig1 sig2,
    timestamp_ms 1730000000.625%float = Ok ts1 ∧
    timestamp_ms 1730000000.75%float = Ok ts2 ∧
    sign sample_keypair
         (sha256_hexdigest sample_body ++ lit "." ++ str_of_Z ts1 ++ lit ".")
      = Ok sig1 ∧
    sign sample_keypair
         (sha256_hexdigest sample_body ++ lit "." ++ str_of_Z ts2 ++ lit ".")
      = Ok sig2 ∧
    sample_headers 1730000000.625%float 1 !! "Epistula-Request-Signature"
      = Some (VStr (lit "0x" ++ hex sig1)) ∧
    sample_headers 1730000000.75%float 2 !! "Epistula-Request-Signature"
      = Some (VStr (lit "0x" ++ hex sig2)) ∧
    split_on dot
      (sha256_hexdigest sample_body ++ lit "." ++ str_of_Z ts1 ++ lit ".")
      = [sha256_hexdigest sample_body; str_of_Z ts1; []] ∧
    split_on dot
      (sha256_hexdigest sample_body ++ lit "." ++ str_of_Z ts2 ++ lit ".")
      = [sha256_hexdigest sample_body; str_of_Z ts2; []] ∧
    (sample_headers 1730000000.625%float 1 !! "Epistula-Timestamp"
     = sample_headers 1730000000.75%float 2 !! "Epistula-Timestamp"
     ↔ ts1 = ts2) ∧
    (sample_headers 1730000000.625%float 1 !! "X-Request-Id"
     = sample_headers 1730000000.75%float 2 !! "X-Request-Id"
     ↔ uuid4 1 = uuid4 2).
Proof.
  apply (generate_header_fresh_per_call
           sample_submitter sample_keypair sample_body
           1730000000.625%float 1730000000.75%float 1%N 2%N).
  - apply is_ok_eq. vm_compute. reflexivity.
  - apply is_ok_eq. vm_compute. reflexivity.
Defined.

(** C9, as the specification states it, fails: a second signing a
    quarter of a millisecond after the first, with other random bits,
    carries the same timestamp. *)
Lemma timestamp_repeats_within_a_millisecond :
  ¬ (∀ (self : BatchSubmitter) (hotkey : Keypair) (body : list byte)
       (now1 now2 : float) (entropy1 entropy2 : N) (headers1 headers2 : dict),
       (now1 <? now2)%float = true →
       entropy1 ≠ entropy2 →
       generate_header self hotkey body now1 entropy1 = Ok headers1 →
       generate_header self hotkey body now2 entropy2 = Ok headers2 →
       headers1 !! "Epistula-Timestamp" ≠ headers2 !! "Epistula-Timestamp" ∧
       headers1 !! "X-Request-Id" ≠ headers2 !! "X-Request-Id").
Proof.
  intros H.
  destruct (H sample_submitter sample_keypair sample_body
              1730000000.625%float 1730000000.625244140625%float 1%N 2%N
              (sample_headers 1730000000.625%float 1)
              (sample_headers 1730000000.625244140625%float 2)) as [Hts _].
  - vm_compute. reflexivity.
  - done.
  - apply is_ok_eq. vm_compute. reflexivity.
  - apply is_ok_eq. vm_compute. reflexivity.
  - apply Hts. vm_compute. reflexivity.
Qed.

(** ** The canonical body *)

Example sha256_abc :
  sha256_hexdigest (map byte_of_N (lit "abc"))
  = lit "ba7816bf8f01cfea414140de5dae2223b00361a396177a9cb410ff61f20015ad".
Proof. vm_compute. reflexivity. Qed.

Example sha256_two_blocks :
  sha256_hexdigest
    (map byte_of_N (lit "abcdbcdecdefdefgefghfghighijhijkijkljklmklmnlmnomnopnopq"))
  = lit "248d6a61d20638b8e5c026930c3e6039a33ce45964ff2167f6ecedd419db06c1".
Proof. vm_compute. reflexivity. Qed.

Lemma items_request (a b d : value) :
  items ({[ "competition_id" := a; "round_number" := b; "raw_code" := d ]} : dict)
  = [(lit "competition_id", a); (lit "round_number", b); (lit "raw_code", d)].
Proof. unfold items. vm_compute (map_to_list _). reflexivity. Qed.

(** The keys of a request in sorted order: [raw_code] moves before
    [round_number]. *)
Lemma sort_request_keys {A} (x y z : A) :
  sort_by pystr_leb fst
    [(lit "competition_id", x); (lit "round_number", y); (lit "raw_code", z)]
  = [(lit "competition_id", x); (lit "raw_code", z); (lit "round_number", y)].
Proof. vm_compute. reflexivity. Qed.

Lemma encode_key (k : string) :
  forallb (λ c, (32 <=? c)%N && (c <=? 126)%N && negb (c =? 34)%N && negb (c =? 92)%N)
          (lit k) = true →
  encode_basestring_ascii (lit k) = quoted k.
Proof.
  unfold encode_basestring_ascii, quoted. intros H. do 2 f_equal.
  induction (lit k) as [|c s IH]; [done|].
  simpl in H. apply andb_true_iff in H as [Hc Hs].
  simpl. rewrite (IH Hs). clear IH Hs.
  apply andb_true_iff in Hc as [Hc H92]. apply andb_true_iff in Hc as [Hc H34].
  apply andb_true_iff in Hc as [H32 H126].
  apply negb_true_iff in H34, H92.
  apply N.leb_le in H32, H126. apply N.eqb_neq in H34, H92.
  unfold escape_code.
  repeat match goal with
         | |- context [ (c =? ?n)%N ] =>
             destruct (N.eqb_spec c n); [lia|]
         end.
  destruct (N.leb_spec 32 c); [|lia]. destruct (N.leb_spec c 126); [|lia].
  done.
Qed.

Lemma json_dumps_request (competition_id round_number : Z) (code : pystr) :
  json_dumps (submit_request competition_id round_number code)
  = Ok (canonical_text competition_id round_number code).
Proof.
  unfold json_dumps, submit_request. rewrite items_request.
  cbn [json_encode map fst snd]. rewrite sort_request_keys.
  cbn [map sequence mbind result_bind fst snd].
  rewrite !encode_key by (vm_compute; reflexivity).
  reflexivity.
Qed.

Lemma lit_ascii (k : string) :
  forallb (λ c, (c <? 128)%N) (lit k) = true → Forall is_ascii (lit k).
Proof.
  intros H. apply Forall_forall. intros c Hc.
  apply list_elem_of_In in Hc.
  eapply forallb_forall in H; [|done]. by apply N.ltb_lt in H.
Qed.

Lemma lower_hex_ascii s :
  Forall (λ c, is_lower_hex c = true) s → Forall is_ascii s.
Proof.
  intros H. eapply Forall_impl; [exact H|].
  intros c Hc. unfold is_lower_hex, is_ascii in *.
  apply orb_true_iff in Hc as [Hc|Hc]; apply andb_true_iff in Hc as [_ Hc];
    apply N.leb_le in Hc; lia.
Qed.

Lemma unicode_escape_ascii n : Forall is_ascii (unicode_escape n).
Proof.
  unfold unicode_escape. apply Forall_app. split.
  - apply lit_ascii. vm_compute. reflexivity.
  - apply lower_hex_ascii, hex_width_lower.
Qed.

Lemma escape_code_ascii c : Forall is_ascii (escape_code c).
Proof.
  unfold escape_code.
  repeat match goal with
         | |- context [ (c =? ?n)%N ] =>
             destruct (N.eqb_spec c n);
             [repeat constructor; unfold is_ascii; simpl; lia|]
         end.
  destruct (N.leb_spec 32 c); cbn [andb].
  - destruct (N.leb_spec c 126); cbn [andb].
    + repeat constructor. unfold is_ascii. lia.
    + destruct (c <? 65536)%N; [apply unicode_escape_ascii|].
      apply Forall_app. split; apply unicode_escape_ascii.
  - destruct (c <? 65536)%N; [apply unicode_escape_ascii|].
    apply Forall_app. split; apply unicode_escape_ascii.
Qed.

Lemma encode_basestring_ascii_is_ascii s :
  Forall is_ascii (encode_basestring_ascii s).
Proof.
  unfold encode_basestring_ascii.
  apply Forall_app. split; [repeat constructor; unfold is_ascii; lia|].
  apply Forall_app. split; [|repeat constructor; unfold is_ascii; lia].
  induction s as [|c s IH]; simpl; [constructor|].
  apply Forall_app. split; [apply escape_code_ascii|done].
Qed.

Lemma str_of_Z_ascii z : Forall is_ascii (str_of_Z z).
Proof.
  eapply Forall_impl; [apply str_of_Z_chars|].
  intros c Hc. unfold is_ascii. cbv beta in Hc. lia.
Qed.

Lemma member_ascii k v :
  forallb (λ c, (c <? 128)%N) (lit k) = true →
  Forall is_ascii v → Forall is_ascii (member k v).
Proof.
  intros Hk Hv. unfold member, quoted.
  repeat (apply Forall_app; split);
    first [ done
          | by apply lit_ascii
          | by repeat constructor
          | apply lit_ascii; vm_compute; reflexivity ].
Qed.

Lemma canonical_text_ascii competition_id round_number code :
  Forall is_ascii (canonical_text competition_id round_number code).
Proof.
  assert (Hlit : ∀ k, forallb (λ c, (c <? 128)%N) (lit k) = true →
                      Forall is_ascii (lit k)) by apply lit_ascii.
  unfold canonical_text. cbn [join].
  apply Forall_app; split; [apply Hlit; vm_compute; reflexivity|].
  apply Forall_app; split; [|apply Hlit; vm_compute; reflexivity].
  apply Forall_app; split.
  { apply member_ascii; [vm_compute; reflexivity|apply str_of_Z_ascii]. }
  apply Forall_app; split; [apply Hlit; vm_compute; reflexivity|].
  apply Forall_app; split.
  { apply member_ascii;
      [vm_compute; reflexivity|apply encode_basestring_ascii_is_ascii]. }
  apply Forall_app; split; [apply Hlit; vm_compute; reflexivity|].
  apply member_ascii; [vm_compute; reflexivity|apply str_of_Z_ascii].
Qed.

(** ASCII text is encoded one byte for each character. *)
Lemma encode_utf8_ascii s :
  Forall is_ascii s → encode_utf8 s = Ok (map byte_of_N s).
Proof.
  induction 1 as [|c s Hc _ IH]; [done|].
  cbn [encode_utf8]. rewrite IH. unfold utf8_of_code.
  unfold is_ascii in Hc. apply N.ltb_lt in Hc. by rewrite Hc.
Qed.

(** The canonical body.  The signed bytes of a request are the
    ASCII bytes of its JSON text with the keys in lexicographic order
    ([competition_id], [raw_code], [round_number]); the code is rendered
    as a JSON string, and the two integers as bare JSON numbers, not as
    strings. *)
Theorem create_message_body_canonical
    (competition_id round_number : Z) (code : pystr) :
  create_message_body (submit_request competition_id round_number code)
  = Ok (map byte_of_N (canonical_text competition_id round_number code)) ∧
  pystr_leb (lit "competition_id") (lit "raw_code") = true ∧
  pystr_leb (lit "raw_code") (lit "round_number") = true.
Proof.
  split; [|split; vm_compute; reflexivity].
  unfold create_message_body. rewrite json_dumps_request.
  cbn [mbind result_bind]. apply encode_utf8_ascii, canonical_text_ascii.
Qed.

(** C5, as the specification states it, fails: the bytes signed for
    the code [x] in competition 1 and round -1 hold the integers as the
    numbers [1] and [-1], with no quotation marks around them, and are
    not the bytes of the request with its integers rendered as
    strings. *)
Lemma integers_are_not_rendered_as_strings :
  let request := submit_request 1 (-1) (lit "x") in
  create_message_body request
  = Ok (map byte_of_N
          (lit "{" ++ quoted "competition_id" ++ lit ": 1, " ++
           quoted "raw_code" ++ lit ": " ++ quoted "x" ++ lit ", " ++
           quoted "round_number" ++ lit ": -1}")) ∧
  create_message_body (stringified <$> request)
  = Ok (map byte_of_N
          (lit "{" ++ quoted "competition_id" ++ lit ": " ++ quoted "1" ++
           lit ", " ++
           quoted "raw_code" ++ lit ": " ++ quoted "x" ++ lit ", " ++
           quoted "round_number" ++ lit ": " ++ quoted "-1" ++ lit "}")) ∧
  create_message_body request ≠ create_message_body (stringified <$> request).
Proof.
  cbv zeta. split; [vm_compute; reflexivity|].
  split; [vm_compute; reflexivity|].
  intros H. vm_compute in H. discriminate H.
Qed.

Lemma byte_of_N_inj (c d : N) :
  (c < 256)%N → (d < 256)%N → byte_of_N c = byte_of_N d → c = d.
Proof.
  intros Hc Hd. unfold byte_of_N. rewrite !N.mod_small by done.
  destruct (Byte.of_N c) as [b|] eqn:Hb.
  2: { apply Byte.of_N_None_iff in Hb. lia. }
  destruct (Byte.of_N d) as [b'|] eqn:Hb'.
  2: { apply Byte.of_N_None_iff in Hb'. lia. }
  intros <-. apply Byte.to_of_N in Hb, Hb'. congruence.
Qed.

Lemma map_byte_of_N_inj (s t : pystr) :
  Forall is_ascii s → Forall is_ascii t →
  map byte_of_N s = map byte_of_N t → s = t.
Proof.
  intros Hs. revert t. induction Hs as [|c s Hc _ IH]; intros t Ht H.
  - by destruct t.
  - destruct Ht as [|d t Hd Ht]; [done|].
    cbn [map] in H. injection H as Hcd Hst.
    unfold is_ascii in Hc, Hd.
    f_equal; [apply byte_of_N_inj; [lia..|done]|by apply IH].
Qed.

(** The JSON text of a request whose integers have been turned into
    strings: they stand between quotation marks. *)
Lemma json_dumps_stringified_request (competition_id round_number : Z) (code : pystr) :
  json_dumps (stringified <$> submit_request competition_id round_number code)
  = Ok (lit "{" ++
        join (lit ", ")
          [member "competition_id"
                  (encode_basestring_ascii (str_of_Z competition_id));
           member "raw_code" (encode_basestring_ascii code);
           member "round_number"
                  (encode_basestring_ascii (str_of_Z round_number))] ++
        lit "}").
Proof.
  unfold json_dumps, submit_request.
  rewrite !fmap_insert, map_fmap_singleton. cbn [stringified].
  rewrite items_request.
  cbn [json_encode map fst snd]. rewrite sort_request_keys.
  cbn [map sequence mbind result_bind fst snd].
  rewrite !encode_key by (vm_compute; reflexivity).
  reflexivity.
Qed.

Lemma canonical_text_quotes_no_integer (competition_id round_number : Z)
    (code : pystr) :
  canonical_text competition_id round_number code
  ≠ lit "{" ++
    join (lit ", ")
      [member "competition_id"
              (encode_basestring_ascii (str_of_Z competition_id));
       member "raw_code" (encode_basestring_ascii code);
       member "round_number"
              (encode_basestring_ascii (str_of_Z round_number))] ++
    lit "}".
Proof.
  unfold canonical_text, member. cbn [join]. intros H.
  apply app_inv_head in H. rewrite <- !app_assoc in H.
  do 2 apply app_inv_head in H.
  unfold encode_basestring_ascii in H. cbn [app] in H.
  pose proof (str_of_Z_chars competition_id) as Hc.
  destruct (str_of_Z competition_id) as [|c s].
  - change (lit ", ") with [44; 32]%N in H. cbn [app] in H. discriminate H.
  - cbn [app] in H. injection H as -> _. apply Forall_inv in Hc. lia.
Qed.

(** C5.  The bytes that the signature covers, for a request.  They are
    the ASCII bytes of the JSON text of the request with its keys in
    lexicographic order ([competition_id], [raw_code], [round_number]).
    The code is written as a JSON string; the two integers are written as
    bare decimal numbers, a sign and digits without quotation marks, and
    for no request are the bytes those of the request with its integers
    turned into strings. *)
Theorem create_message_body_sorts_keys_and_keeps_integers
    (competition_id round_number : Z) (code : pystr) :
  let request := submit_request competition_id round_number code in
  create_message_body request
  = Ok (map byte_of_N
          (lit "{" ++
           quoted "competition_id" ++ lit ": " ++ str_of_Z competition_id ++
           lit ", " ++
           quoted "raw_code" ++ lit ": " ++ encode_basestring_ascii code ++
           lit ", " ++
           quoted "round_number" ++ lit ": " ++ str_of_Z round_number ++
           lit "}")) ∧
  pystr_leb (lit "competition_id") (lit "raw_code") = true ∧
  pystr_leb (lit "raw_code") (lit "round_number") = true ∧
  Forall (λ c, (c = 45 ∨ 48 ≤ c ≤ 57)%N) (str_of_Z competition_id) ∧
  Forall (λ c, (c = 45 ∨ 48 ≤ c ≤ 57)%N) (str_of_Z round_number) ∧
  create_message_body request ≠ create_message_body (stringified <$> request).
Proof.
  intros request. subst request.
  assert (create_message_body (submit_request competition_id round_number code)
          = Ok (map byte_of_N (canonical_text competition_id round_number code)))
    as Hbody.
  { unfold create_message_body. rewrite json_dumps_request.
    cbn [mbind result_bind]. apply encode_utf8_ascii, canonical_text_ascii. }
  split.
  { rewrite Hbody. do 2 f_equal. unfold canonical_text, member. cbn [join].
    by rewrite <- !app_assoc. }
  do 2 (split; [vm_compute; reflexivity|]).
  do 2 (split; [apply str_of_Z_chars|]).
  rewrite Hbody. unfold create_message_body.
  rewrite json_dumps_stringified_request. cbn [mbind result_bind].
  assert (Forall is_ascii
            (lit "{" ++
             join (lit ", ")
               [member "competition_id"
                       (encode_basestring_ascii (str_of_Z competition_id));
                member "raw_code" (encode_basestring_ascii code);
                member "round_number"
                       (encode_basestring_ascii (str_of_Z round_number))] ++
             lit "}")) as Hascii.
  {    cbn [join].
       assert (Hlit : ∀ k, forallb (λ c, (c <? 128)%N) (lit k) = true →
                           Forall is_ascii (lit k)) by apply lit_ascii.
       apply Forall_app; split; [apply Hlit; vm_compute; reflexivity|].
       apply Forall_app; split; [|apply Hlit; vm_compute; reflexivity].
       apply Forall_app; split.
       { apply member_ascii;
           [vm_compute; reflexivity|apply encode_basestring_ascii_is_ascii]. }
       apply Forall_app; split; [apply Hlit; vm_compute; reflexivity|].
       apply Forall_app; split.
       { apply member_ascii;
           [vm_compute; reflexivity|apply encode_basestring_ascii_is_ascii]. }
       apply Forall_app; split; [apply Hlit; vm_compute; reflexivity|].
       apply member_ascii;
         [vm_compute; reflexivity|apply encode_basestring_ascii_is_ascii]. }
  rewrite (encode_utf8_ascii _ Hascii).
  intros H. apply (f_equal (ok_or [])) in H. cbn [ok_or] in H.
  apply map_byte_of_N_inj in H; [by apply canonical_text_quotes_no_integer in H|..].
  - apply canonical_text_ascii.
  - exact Hascii.
Qed.

(** ** The transport client *)

Lemma fields_initial (success hotkey short wallet name response error duration : value) :
  fields {[ "success" := success;
            "hotkey" := hotkey;
            "hotkey_short" := short;
            "wallet_name" := wallet;
            "hotkey_name" := name;
            "response" := response;
            "error" := error;
            "duration" := duration ]}
  = {| f_success := Some success;
       f_hotkey := Some hotkey;
       f_hotkey_short := Some short;
       f_wallet_name := Some wallet;
       f_hotkey_name := Some name;
       f_response := Some response;
       f_error := Some error;
       f_duration := Some duration;
       f_repeat_num := None |}.
Proof. vm_compute. reflexivity. Qed.

Ltac fields_after_insert :=
  intros; unfold fields; cbn [f_success f_hotkey f_hotkey_short f_wallet_name
    f_hotkey_name f_response f_error f_duration f_repeat_num];
  f_equal; solve [ apply lookup_insert_eq | by rewrite lookup_insert_ne ].

Lemma fields_set_success (res : dict) v :
  fields (<["success" := v]> res)
  = {| f_success := Some v;
       f_hotkey := f_hotkey (fields res);
       f_hotkey_short := f_hotkey_short (fields res);
       f_wallet_name := f_wallet_name (fields res);
       f_hotkey_name := f_hotkey_name (fields res);
       f_response := f_response (fields res);
       f_error := f_error (fields res);
       f_duration := f_duration (fields res);
       f_repeat_num := f_repeat_num (fields res) |}.
Proof. fields_after_insert. Qed.

Lemma fields_set_response (res : dict) v :
  fields (<["response" := v]> res)
  = {| f_success := f_success (fields res);
       f_hotkey := f_hotkey (fields res);
       f_hotkey_short := f_hotkey_short (fields res);
       f_wallet_name := f_wallet_name (fields res);
       f_hotkey_name := f_hotkey_name (fields res);
       f_response := Some v;
       f_error := f_error (fields res);
       f_duration := f_duration (fields res);
       f_repeat_num := f_repeat_num (fields res) |}.
Proof. fields_after_insert. Qed.

Lemma fields_set_error (res : dict) v :
  fields (<["error" := v]> res)
  = {| f_success := f_success (fields res);
       f_hotkey := f_hotkey (fields res);
       f_hotkey_short := f_hotkey_short (fields res);
       f_wallet_name := f_wallet_name (fields res);
       f_hotkey_name := f_hotkey_name (fields res);
       f_response := f_response (fields res);
       f_error := Some v;
       f_duration := f_duration (fields res);
       f_repeat_num := f_repeat_num (fields res) |}.
Proof. fields_after_insert. Qed.

Lemma fields_set_duration (res : dict) v :
  fields (<["duration" := v]> res)
  = {| f_success := f_success (fields res);
       f_hotkey := f_hotkey (fields res);
       f_hotkey_short := f_hotkey_short (fields res);
       f_wallet_name := f_wallet_name (fields res);
       f_hotkey_name := f_hotkey_name (fields res);
       f_response := f_response (fields res);
       f_error := f_error (fields res);
       f_duration := Some v;
       f_repeat_num := f_repeat_num (fields res) |}.
Proof. fields_after_insert. Qed.

Lemma fields_set_repeat_num (res : dict) v :
  fields (<["repeat_num" := v]> res)
  = {| f_success := f_success (fields res);
       f_hotkey := f_hotkey (fields res);
       f_hotkey_short := f_hotkey_short (fields res);
       f_wallet_name := f_wallet_name (fields res);
       f_hotkey_name := f_hotkey_name (fields res);
       f_response := f_response (fields res);
       f_error := f_error (fields res);
       f_duration := f_duration (fields res);
       f_repeat_num := Some v |}.
Proof. fields_after_insert. Qed.

Lemma well_formed_keys (hotkey_info : dict) :
  well_formed hotkey_info = true →
  ∃ path address wallet name short,
    hotkey_info !! "hotkey_path" = Some path ∧
    hotkey_info !! "ss58_address" = Some address ∧
    hotkey_info !! "wallet_name" = Some wallet ∧
    hotkey_info !! "hotkey_name" = Some name ∧
    slice_to address 8 = Ok short.
Proof.
  unfold well_formed. intros H.
  destruct (hotkey_info !! "hotkey_path") as [path|]; [|done].
  destruct (hotkey_info !! "ss58_address") as [address|]; [|done].
  destruct (hotkey_info !! "wallet_name") as [wallet|]; [|done].
  destruct (hotkey_info !! "hotkey_name") as [name|]; [|done].
  destruct address; try discriminate H; eauto 10.
Qed.

(** The record returned for an identity whose entries are as given. *)
Lemma submit_single_fields (self : BatchSubmitter) (hotkey_info : dict)
    (code : pystr) (competition_id round_number : Z) (a : attempt)
    (path address wallet name short : value) :
  hotkey_info !! "hotkey_path" = Some path →
  hotkey_info !! "ss58_address" = Some address →
  hotkey_info !! "wallet_name" = Some wallet →
  hotkey_info !! "hotkey_name" = Some name →
  slice_to address 8 = Ok short →
  ∃ res,
    submit_single self hotkey_info code competition_id round_number a = Ok res ∧
    fields res
    = outcome_fields address short wallet name a
        (send_request self a path code competition_id round_number).
Proof.
  intros Hpath Haddress Hwallet Hname Hshort.
  unfold submit_single, getitem.
  rewrite Hpath, Haddress, Hwallet, Hname. cbn [mbind result_bind].
  rewrite Hshort. cbn [mbind result_bind].
  unfold try_submit, outcome_fields.
  destruct (send_request _ _ _ _ _ _) as [response|e].
  - destruct (status_code response =? 200).
    + destruct (json response) as [body|e]; eexists; (split; [done|]).
      * by rewrite fields_set_response, fields_set_success,
          fields_set_duration, fields_initial.
      * by rewrite fields_set_error, fields_set_duration, fields_set_success,
          fields_set_duration, fields_initial.
    + eexists. split; [done|].
      by rewrite fields_set_error, fields_set_duration, fields_initial.
  - eexists. split; [done|].
    by rewrite fields_set_error, fields_set_duration, fields_initial.
Qed.

Lemma submit_single_well_formed (self : BatchSubmitter) (hotkey_info : dict)
    (code : pystr) (competition_id round_number : Z) (a : attempt) :
  well_formed hotkey_info = true →
  ∃ res path address wallet name short,
    hotkey_info !! "hotkey_path" = Some path ∧
    hotkey_info !! "ss58_address" = Some address ∧
    submit_single self hotkey_info code competition_id round_number a = Ok res ∧
    fields res
    = outcome_fields address short wallet name a
        (send_request self a path code competition_id round_number).
Proof.
  intros (path & address & wallet & name & short & Hp & Ha & Hw & Hn & Hs)
    %well_formed_keys.
  destruct (submit_single_fields self hotkey_info code competition_id
              round_number a path address wallet name short)
    as (res & Hres & Hf); try done.
  exists res, path, address, wallet, name, short. done.
Qed.



(** The three cases on the sample service: status 200 with a JSON body,
    status 500, and a connection that is refused. *)
Example submit_single_outcome_samples :
  let outcome a :=
    match submit_single sample_submitter sample_identity (lit "x = 1") 1 (-1) a
    with
    | Ok res => Some (res !! "success", res !! "response", res !! "error")
    | Raise _ => None
    end in
  outcome (sample_attempt 200 0)
  = Some (Some (VBool true), Some (VDict [(lit "accepted", VBool true)]),
          Some VNone) ∧
  outcome (sample_attempt 500 0)
  = Some (Some (VBool false), Some VNone,
          Some (VStr (lit "HTTP 500: rejected"))) ∧
  outcome sample_attempt_refused
  = Some (Some (VBool false), Some VNone,
          Some (VStr (lit "All connection attempts failed"))).
Proof. repeat split; vm_compute; reflexivity. Qed.





(** An exception raised while the key is loaded, the request signed or
    the POST made does not leave [submit_single]: the outcome is a failure
    whose error is the text of the exception. *)
Theorem submit_single_catches_exceptions
    (self : BatchSubmitter) (hotkey_info : dict) (code : pystr)
    (competition_id round_number : Z) (a : attempt) (path : value) (e : exn) :
  well_formed hotkey_info = true →
  hotkey_info !! "hotkey_path" = Some path →
  send_request self a path code competition_id round_number = Raise e →
  ∃ res,
    submit_single self hotkey_info code competition_id round_number a = Ok res ∧
    res !! "success" = Some (VBool false) ∧
    res !! "error" = Some (VStr (exn_str e)) ∧
    res !! "response" = Some VNone ∧
    res !! "duration" = Some (VFloat (t_except a - t_start a)%float).
Proof.
  intros Hwf Hpath Hsent.
  destruct (submit_single_well_formed self hotkey_info code competition_id
              round_number a Hwf)
    as (res & path' & address & wallet & name & short & Hp & _ & Hres & Hf).
  assert (path' = path) as -> by congruence.
  exists res. split; [done|].
  rewrite Hsent in Hf. unfold outcome_fields in Hf.
  pose proof (f_equal f_success Hf). pose proof (f_equal f_error Hf).
  pose proof (f_equal f_response Hf). pose proof (f_equal f_duration Hf).
  done.
Qed.

Lemma submit_single_catches_exceptions_witness :
  ∃ res,
    submit_single sample_submitter sample_identity (lit "x = 1") 1 (-1)
      sample_attempt_refused = Ok res ∧
    res !! "success" = Some (VBool false) ∧
    res !! "error" = Some (VStr (lit "All connection attempts failed")) ∧
    res !! "response" = Some VNone ∧
    res !! "duration"
    = Some (VFloat (t_except sample_attempt_refused
                    - t_start sample_attempt_refused)%float).
Proof.
  apply (submit_single_catches_exceptions
           sample_submitter sample_identity (lit "x = 1") 1 (-1)
           sample_attempt_refused sample_path
           (Exn (OtherError "ConnectError") (lit "All connection attempts failed"))).
  - vm_compute. reflexivity.
  - vm_compute. reflexivity.
  - vm_compute. reflexivity.
Defined.

(** An answer with status 200 whose body is not JSON: the outcome is
    marked as a success, since the mark is set before the body is parsed,
    and it carries the text of the parse error and no response. *)
Theorem submit_single_unparsable_body
    (self : BatchSubmitter) (hotkey_info : dict) (code : pystr)
    (competition_id round_number : Z) (a : attempt)
    (path : value) (response : Response) (e : exn) :
  well_formed hotkey_info = true →
  hotkey_info !! "hotkey_path" = Some path →
  send_request self a path code competition_id round_number = Ok response →
  status_code response = 200 →
  json response = Raise e →
  ∃ res,
    submit_single self hotkey_info code competition_id round_number a = Ok res ∧
    res !! "success" = Some (VBool true) ∧
    res !! "error" = Some (VStr (exn_str e)) ∧
    res !! "response" = Some VNone.
Proof.
  intros Hwf Hpath Hsent H200 Hjson.
  destruct (submit_single_well_formed self hotkey_info code competition_id
              round_number a Hwf)
    as (res & path' & address & wallet & name & short & Hp & _ & Hres & Hf).
  assert (path' = path) as -> by congruence.
  exists res. split; [done|].
  rewrite Hsent in Hf. unfold outcome_fields in Hf.
  rewrite H200, Hjson in Hf. cbn [Z.eqb Pos.eqb] in Hf.
  pose proof (f_equal f_success Hf). pose proof (f_equal f_error Hf).
  pose proof (f_equal f_response Hf).
  done.
Qed.

Lemma submit_single_unparsable_body_witness :
  ∃ res,
    submit_single sample_submitter sample_identity (lit "x = 1") 1 (-1)
      sample_attempt_bad_body = Ok res ∧
    res !! "success" = Some (VBool true) ∧
    res !! "error"
    = Some (VStr (lit "Expecting value: line 1 column 1 (char 0)")) ∧
    res !! "response" = Some VNone.
Proof.
  apply (submit_single_unparsable_body
           sample_submitter sample_identity (lit "x = 1") 1 (-1)
           sample_attempt_bad_body sample_path
           {| status_code := 200;
              text := lit "<html>";
              json := Raise (Exn (OtherError "JSONDecodeError")
                                 (lit "Expecting value: line 1 column 1 (char 0)")) |}
           (Exn (OtherError "JSONDecodeError")
                (lit "Expecting value: line 1 column 1 (char 0)"))).
  - vm_compute. reflexivity.
  - vm_compute. reflexivity.
  - vm_compute. reflexivity.
  - reflexivity.
  - reflexivity.
Defined.

(** What is read before the [try] block is not protected: an identity
    record whose address is a scalar (a number, a boolean, [None]) makes
    [submit_single] raise a [TypeError], whatever the outside does. *)
Theorem submit_single_raises_on_scalar_address
    (self : BatchSubmitter) (hotkey_info : dict) (code : pystr)
    (competition_id round_number : Z) (a : attempt)
    (path address wallet name : value) :
  hotkey_info !! "hotkey_path" = Some path →
  hotkey_info !! "ss58_address" = Some address →
  hotkey_info !! "wallet_name" = Some wallet →
  hotkey_info !! "hotkey_name" = Some name →
  sliceable address = false →
  ∃ e,
    submit_single self hotkey_info code competition_id round_number a = Raise e ∧
    exn_type e = TypeError.
Proof.
  intros Hpath Haddress Hwallet Hname Hslice.
  unfold submit_single, getitem.
  rewrite Hpath, Haddress, Hwallet, Hname. cbn [mbind result_bind].
  destruct address; try discriminate Hslice; eexists; split; reflexivity.
Qed.

Lemma submit_single_raises_on_scalar_address_witness :
  ∃ e,
    submit_single sample_submitter (sample_hotkey "apex7" (VInt 12345))
      (lit "x = 1") 1 (-1) (sample_attempt 200 0) = Raise e ∧
    exn_type e = TypeError.
Proof.
  apply (submit_single_raises_on_scalar_address
           sample_submitter (sample_hotkey "apex7" (VInt 12345))
           (lit "x = 1") 1 (-1) (sample_attempt 200 0)
           (VStr (lit "/wallets/mama/hotkeys/apex7")) (VInt 12345)
           (VStr (lit "mama")) (VStr (lit "apex7")));
    vm_compute; reflexivity.
Defined.

(** ** Slices and ranges *)

Lemma py_slice_nonneg {A} (l : list A) (lo hi : Z) :
  0 ≤ lo → 0 ≤ hi →
  py_slice l lo hi = take (Z.to_nat hi - Z.to_nat lo) (drop (Z.to_nat lo) l).
Proof.
  intros Hlo Hhi. unfold py_slice, slice_index. cbv zeta.
  destruct (Z.ltb_spec lo 0); [lia|]. destruct (Z.ltb_spec hi 0); [lia|].
  destruct (decide (lo ≤ Z.of_nat (length l))) as [Hin|Hout].
  - rewrite (Z.min_l lo) by done.
    destruct (decide (hi ≤ Z.of_nat (length l))) as [Hin'|Hout'].
    + by rewrite (Z.min_l hi) by done.
    + rewrite (Z.min_r hi) by lia. rewrite Nat2Z.id.
      rewrite !take_ge; [done|rewrite length_drop; lia..].
  - rewrite (Z.min_r lo) by lia. rewrite Nat2Z.id.
    rewrite !drop_ge by lia. by rewrite !take_nil.
Qed.

Lemma py_range_step (n c : Z) :
  1 ≤ c →
  py_range 0 n c
  = Ok (map (λ k, Z.of_nat k * c) (seq 0 (total_batches n c))).
Proof.
  intros Hc. unfold py_range, total_batches.
  destruct (Z.eqb_spec c 0); [lia|]. destruct (Z.ltb_spec 0 c); [|lia].
  by rewrite Z.sub_0_r.
Qed.

Lemma py_range_from_one (n : Z) :
  py_range 1 (n + 1) 1 = Ok (map (λ k, 1 + Z.of_nat k) (seq 0 (Z.to_nat n))).
Proof.
  unfold py_range. cbn [Z.eqb Z.ltb Z.compare].
  replace ((n + 1 - 1 + 1 - 1) / 1) with n by (rewrite Z.div_1_r; lia).
  f_equal. apply map_ext. intros k. lia.
Qed.

(** The count of groups is the quotient rounded up. *)
Lemma total_batches_ceil (n c : Z) :
  0 ≤ n → 1 ≤ c → Z.of_nat (total_batches n c) = ceil_div n c.
Proof.
  intros Hn Hc. unfold total_batches, ceil_div.
  rewrite Z2Nat.id by (apply Z.div_pos; lia).
  pose proof (Z.mod_pos_bound n c ltac:(lia)) as Hmod.
  pose proof (Z.div_mod n c ltac:(lia)) as Hdiv.
  destruct (Z.eqb_spec (n mod c) 0) as [H0|H0].
  - replace (n + c - 1) with (n / c * c + (c - 1)) by lia.
    rewrite Z.div_add_l by lia. rewrite (Z.div_small (c - 1) c) by lia. lia.
  - replace (n + c - 1) with ((n / c + 1) * c + (n mod c - 1)) by lia.
    rewrite Z.div_add_l by lia.
    rewrite (Z.div_small (n mod c - 1) c) by lia. lia.
Qed.

(** ** The batch scheduler *)

Lemma sequence_ok {A} (rs : list (result A)) (xs : list A) :
  Forall2 (λ r x, r = Ok x) rs xs → sequence rs = Ok xs.
Proof.
  induction 1 as [|r x rs xs -> _ IH]; [done|].
  cbn [sequence mbind result_bind]. by rewrite IH.
Qed.

(** The line printed for a record that [submit_single] returned, once
    stamped, reads keys that the record has. *)
Lemma print_result_stamped (res : dict) address short wallet name a sent v :
  fields res = outcome_fields address short wallet name a sent →
  print_result (<["repeat_num" := v]> res) = Ok ().
Proof.
  intros Hf. unfold print_result, getitem.
  rewrite !lookup_insert_ne by done.
  change (res !! "success") with (f_success (fields res)).
  change (res !! "hotkey_short") with (f_hotkey_short (fields res)).
  change (res !! "wallet_name") with (f_wallet_name (fields res)).
  change (res !! "hotkey_name") with (f_hotkey_name (fields res)).
  change (res !! "duration") with (f_duration (fields res)).
  change (res !! "error") with (f_error (fields res)).
  rewrite Hf. unfold outcome_fields.
  destruct sent as [response|e]; [|done].
  destruct (status_code response =? 200); [|done].
  by destruct (json response).
Qed.

Lemma collect_task (self : BatchSubmitter) (hotkey_info : dict) (code : pystr)
    (competition_id : Z) (a : attempt) (batch : list dict) (r : Z) (idx : nat) :
  well_formed hotkey_info = true →
  collect batch r idx (submit_single self hotkey_info code competition_id (-1) a)
  = Ok (<["repeat_num" := VInt r]>
          (ok_or ∅ (submit_single self hotkey_info code competition_id (-1) a))).
Proof.
  intros Hwf.
  destruct (submit_single_well_formed self hotkey_info code competition_id
              (-1) a Hwf)
    as (res & path & address & wallet & name & short & _ & _ & Hres & Hf).
  rewrite Hres. unfold collect. cbn [mbind result_bind ok_or].
  by erewrite print_result_stamped.
Qed.

Lemma asyncio_sleep_passes (delay : float) :
  passes delay = true → asyncio_sleep delay = tell [Slept delay].
Proof.
  unfold passes, asyncio_sleep. by destruct (delay =? infinity)%float.
Qed.

Section SchedulerFacts.

Variable self : BatchSubmitter.
Variable w : world.
Variable hotkeys : list dict.
Variable code : pystr.
Variable competition_id : Z.
Variable max_workers : Z.
Variable delay_between_batches : float.

Hypothesis at_least_one_worker : 1 ≤ max_workers.
Hypothesis batch_delay_passes : passes delay_between_batches = true.

Let c := Z.to_nat max_workers.
Let records := cycle_records self w hotkeys code competition_id.

Lemma group_start (k : nat) : Z.to_nat (Z.of_nat k * max_workers) = (k * c)%nat.
Proof. unfold c. rewrite Z2Nat.inj_mul by lia. by rewrite Nat2Z.id. Qed.

Lemma batch_is_group (k : nat) :
  py_slice hotkeys (Z.of_nat k * max_workers)
           (Z.of_nat k * max_workers + max_workers)
  = group hotkeys max_workers k.
Proof.
  rewrite py_slice_nonneg by lia. unfold group. fold c.
  rewrite group_start. f_equal.
  rewrite Z2Nat.inj_add by lia. rewrite group_start. fold c. lia.
Qed.

Lemma group_lookup (k j : nat) :
  group hotkeys max_workers k !! j
  = if decide (j < c)%nat then hotkeys !! (k * c + j)%nat else None.
Proof.
  unfold group. fold c. case_decide.
  - rewrite lookup_take_lt by done. by rewrite lookup_drop.
  - by rewrite lookup_take_ge by lia.
Qed.

(** The outcomes that the event loop returns for the [k]-th group. *)
Lemma group_outcomes (r : Z) (k : nat) :
  gather (tasks_of self w code competition_id r (Z.of_nat k * max_workers)
                   (group hotkeys max_workers k))
  = imap (λ j hotkey_info,
            submit_single self hotkey_info code competition_id (-1)
                          (w r (k * c + j)%nat))
         (group hotkeys max_workers k).
Proof.
  rewrite gather_positional. unfold tasks_of. rewrite fmap_imap.
  apply imap_ext. intros j info _. cbn. by rewrite group_start.
Qed.

(** The records collected from the [k]-th group. *)
Lemma group_records (r : Z) (k : nat) :
  Forall (λ h, well_formed h = true) (group hotkeys max_workers k) →
  sequence
    (imap (collect (group hotkeys max_workers k) r)
          (gather (tasks_of self w code competition_id r
                            (Z.of_nat k * max_workers)
                            (group hotkeys max_workers k))))
  = Ok (take c (drop (k * c) (records r))).
Proof.
  intros Hwf. apply sequence_ok. rewrite group_outcomes.
  apply Forall2_same_length_lookup. split.
  - rewrite !length_imap.
    unfold records, cycle_records, group. fold c.
    rewrite !length_take, !length_drop, length_imap. done.
  - intros j res x Hres Hx.
    rewrite !list_lookup_imap in Hres.
    destruct (group hotkeys max_workers k !! j) as [info|] eqn:Hinfo; [|done].
    eapply Forall_lookup_1 in Hwf; [|done].
    rewrite group_lookup in Hinfo.
    destruct (decide (j < c)%nat) as [Hj|Hj]; [|done].
    rewrite lookup_take_lt, lookup_drop in Hx by done.
    unfold records, cycle_records in Hx. rewrite list_lookup_imap in Hx.
    rewrite Hinfo in Hx.
    cbn in Hres, Hx. injection Hres as <-. injection Hx as <-.
    unfold record_of. by apply collect_task.
Qed.

Lemma submit_group_ok (r : Z) (k : nat) :
  Forall (λ h, well_formed h = true) (group hotkeys max_workers k) →
  submit_group self w hotkeys code competition_id max_workers
               delay_between_batches r (Z.of_nat k * max_workers)
  = (Launched r (group hotkeys max_workers k)
       :: pause_after hotkeys max_workers delay_between_batches k,
     Returned (Ok (take c (drop (k * c) (records r))))).
Proof.
  intros Hwf. unfold submit_group. rewrite batch_is_group, group_records by done.
  unfold pause_after, len_hotkeys. rewrite (asyncio_sleep_passes _ batch_delay_passes).
  destruct (_ && _); reflexivity.
Qed.

Lemma groups_cover (l : list dict) (m : nat) : ∀ j,
  flat_map (λ k, take c (drop (k * c) l)) (seq j m)
  = take (m * c) (drop (j * c) l).
Proof.
  induction m as [|m IH]; intros j; [done|].
  cbn [seq flat_map]. rewrite IH.
  replace (S j * c)%nat with (j * c + c)%nat by lia.
  rewrite <- drop_drop, take_take_drop. f_equal.
Qed.

Lemma batches_reach_the_end :
  (length hotkeys ≤ total_batches (Z.of_nat (length hotkeys)) max_workers * c)%nat.
Proof.
  pose proof (total_batches_ceil (Z.of_nat (length hotkeys)) max_workers
                ltac:(lia) at_least_one_worker) as Hm.
  unfold ceil_div in Hm.
  set (n := Z.of_nat (length hotkeys)) in *.
  pose proof (Z.mod_pos_bound n max_workers ltac:(lia)).
  pose proof (Z.div_mod n max_workers ltac:(lia)).
  assert (n ≤ Z.of_nat (total_batches n max_workers) * max_workers).
  { rewrite Hm. destruct (Z.eqb_spec (n mod max_workers) 0); nia. }
  unfold c. nia.
Qed.

Lemma for_groups_ok (r : Z) (m : nat) : ∀ j acc,
  (∀ k, (j ≤ k < j + m)%nat →
        Forall (λ h, well_formed h = true) (group hotkeys max_workers k)) →
  for_groups self w hotkeys code competition_id max_workers
             delay_between_batches r
             (map (λ k, Z.of_nat k * max_workers) (seq j m)) acc
  = (flat_map (λ k, Launched r (group hotkeys max_workers k)
                      :: pause_after hotkeys max_workers delay_between_batches k)
              (seq j m),
     Returned (Ok (acc ++ take (m * c) (drop (j * c) (records r))))).
Proof.
  induction m as [|m IH]; intros j acc Hwf.
  - cbn. by rewrite app_nil_r.
  - cbn [seq map for_groups flat_map].
    rewrite submit_group_ok by (apply Hwf; lia).
    cbn [mbind io_bind]. rewrite IH by (intros k Hk; apply Hwf; lia).
    f_equal. f_equal.
    rewrite <- app_assoc. f_equal.
    replace (S j * c)%nat with (j * c + c)%nat by lia.
    rewrite <- drop_drop, take_take_drop. f_equal.
Qed.

Lemma group_well_formed (k : nat) :
  Forall (λ h, well_formed h = true) hotkeys →
  Forall (λ h, well_formed h = true) (group hotkeys max_workers k).
Proof.
  intros Hwf. unfold group. by apply Forall_take, Forall_drop.
Qed.

(** One repeat cycle: what it does and what it returns. *)
Lemma submit_cycle_ok (r : Z) :
  Forall (λ h, well_formed h = true) hotkeys →
  submit_cycle self w hotkeys code competition_id max_workers
               delay_between_batches r
  = (cycle_trace hotkeys max_workers delay_between_batches r,
     Returned (Ok (records r))).
Proof.
  intros Hwf. unfold submit_cycle, len_hotkeys.
  rewrite py_range_step by done. unfold lift. cbn [mbind io_bind].
  rewrite for_groups_ok by (intros; by apply group_well_formed).
  unfold cycle_trace. cbn [app]. do 3 f_equal.
  rewrite drop_0. apply take_ge.
  unfold records, cycle_records. rewrite length_imap.
  apply batches_reach_the_end.
Qed.

Variable repeat : Z.
Variable delay_between_repeats : float.

Hypothesis repeat_delay_passes : passes delay_between_repeats = true.

Lemma for_repeats_ok (m : nat) : ∀ j acc,
  Forall (λ h, well_formed h = true) hotkeys →
  for_repeats self w hotkeys code competition_id max_workers
              delay_between_batches repeat delay_between_repeats
              (map (λ k, 1 + Z.of_nat k) (seq j m)) acc
  = (flat_map (λ r, cycle_trace hotkeys max_workers delay_between_batches r
                    ++ repeat_pause repeat delay_between_repeats r)
              (map (λ k, 1 + Z.of_nat k) (seq j m)),
     Returned (Ok (acc ++ flat_map records (map (λ k, 1 + Z.of_nat k) (seq j m))))).
Proof.
  induction m as [|m IH]; intros j acc Hwf.
  - cbn. by rewrite app_nil_r.
  - cbn [seq map for_repeats flat_map]. rewrite submit_cycle_ok by done.
    cbn [mbind io_bind]. unfold repeat_pause at 1.
    rewrite (asyncio_sleep_passes _ repeat_delay_passes).
    destruct (_ && _); cbn [tell mret io_ret mbind io_bind];
      rewrite IH by done; by rewrite <- !app_assoc.
Qed.

(** A whole run: what it does and what it returns. *)
Lemma batch_submit_ok :
  Forall (λ h, well_formed h = true) hotkeys →
  batch_submit self w hotkeys code competition_id max_workers
               delay_between_batches repeat delay_between_repeats
  = (batch_trace hotkeys max_workers delay_between_batches repeat
                 delay_between_repeats,
     Returned (Ok (batch_records self w hotkeys code competition_id repeat))).
Proof.
  intros Hwf. unfold batch_submit. rewrite py_range_from_one.
  unfold lift. cbn [mbind io_bind]. rewrite for_repeats_ok by done. done.
Qed.

End SchedulerFacts.

Lemma launched_pause hotkeys c delay k :
  launched (pause_after hotkeys c delay k) = [].
Proof. unfold pause_after. by destruct (_ && _). Qed.

Lemma launched_app t1 t2 : launched (t1 ++ t2) = launched t1 ++ launched t2.
Proof. apply omap_app. Qed.

Lemma launched_cycle_trace hotkeys c delay r :
  launched (cycle_trace hotkeys c delay r)
  = map (λ k, (r, group hotkeys c k))
        (seq 0 (total_batches (Z.of_nat (length hotkeys)) c)).
Proof.
  unfold cycle_trace.
  induction (seq 0 _) as [|k l IH]; [done|].
  cbn [flat_map map]. rewrite launched_app, IH.
  change (launched (Launched r (group hotkeys c k)
                      :: pause_after hotkeys c delay k))
    with ((r, group hotkeys c k) :: launched (pause_after hotkeys c delay k)).
  by rewrite launched_pause.
Qed.

(** C1.  One repeat cycle over [N] well-formed identities, with
    [max_workers >= 1] and a delay between the groups that is not
    infinite, returns [N] records, having handed every identity to the
    event loop once, in the order of the list, in consecutive groups of
    [max_workers] identities; only the last group may be smaller, and
    the number of groups is [N] divided by [max_workers], rounded up. *)
Theorem submit_cycle_groups_identities
    (self : BatchSubmitter) (w : world) (hotkeys : list dict) (code : pystr)
    (competition_id max_workers : Z) (delay_between_batches : float) (r : Z) :
  Forall (λ h, well_formed h = true) hotkeys →
  1 ≤ max_workers →
  passes delay_between_batches = true →
  let run := submit_cycle self w hotkeys code competition_id max_workers
                          delay_between_batches r in
  let groups := (launched run.1).*2 in
  (∃ results, run.2 = Returned (Ok results) ∧ length results = length hotkeys) ∧
  concat groups = hotkeys ∧
  Z.of_nat (length groups) = ceil_div (Z.of_nat (length hotkeys)) max_workers ∧
  Forall (λ g, Z.of_nat (length g) ≤ max_workers) groups ∧
  (∀ k g, (S k < length groups)%nat → groups !! k = Some g →
          Z.of_nat (length g) = max_workers).
Proof.
  intros Hwf Hc Hdelay run groups. subst run groups.
  rewrite submit_cycle_ok by done. cbn [fst snd].
  rewrite launched_cycle_trace.
  rewrite <- list_fmap_compose.
  set (n := Z.of_nat (length hotkeys)).
  set (m := total_batches n max_workers).
  pose proof (total_batches_ceil n max_workers ltac:(lia) Hc) as Hm. fold m in Hm.
  assert (Hgroups : snd ∘ (λ k, (r, group hotkeys max_workers k))
                    = group hotkeys max_workers) by done.
  rewrite Hgroups. clear Hgroups.
  split; [eexists; split; [done|apply length_imap]|]. split; [|split; [|split]].
  - rewrite <- flat_map_concat_map. unfold group.
    rewrite (groups_cover max_workers). rewrite drop_0.
    apply take_ge. by apply batches_reach_the_end.
  - by rewrite length_fmap, length_seq.
  - apply Forall_fmap, Forall_forall. intros k _. cbn. unfold group.
    rewrite length_take. lia.
  - intros k g Hk Hg. rewrite length_fmap, length_seq in Hk.
    rewrite list_lookup_fmap, lookup_seq_lt in Hg by lia.
    cbn in Hg. injection Hg as <-. unfold group.
    rewrite length_take, length_drop.
    unfold ceil_div in Hm.
    pose proof (Z.mod_pos_bound n max_workers ltac:(lia)).
    pose proof (Z.div_mod n max_workers ltac:(lia)).
    assert ((Z.of_nat m - 1) * max_workers < n).
    { rewrite Hm. destruct (Z.eqb_spec (n mod max_workers) 0); nia. }
    subst n. nia.
Qed.

Lemma submit_cycle_groups_identities_witness :
  let run := submit_cycle sample_submitter sample_world sample_hotkeys
                          (lit "x = 1") 1 2 0.5%float 1 in
  let groups := (launched run.1).*2 in
  (∃ results, run.2 = Returned (Ok results) ∧
              length results = length sample_hotkeys) ∧
  concat groups = sample_hotkeys ∧
  Z.of_nat (length groups) = ceil_div (Z.of_nat (length sample_hotkeys)) 2 ∧
  Forall (λ g, Z.of_nat (length g) ≤ 2) groups ∧
  (∀ k g, (S k < length groups)%nat → groups !! k = Some g →
          Z.of_nat (length g) = 2).
Proof.
  apply (submit_cycle_groups_identities
           sample_submitter sample_world sample_hotkeys (lit "x = 1") 1 2
           0.5%float 1).
  - repeat constructor.
  - lia.
  - reflexivity.
Defined.

Lemma record_of_repeat_num self w code competition_id r k hotkey_info r' :
  has_repeat_num r' (record_of self w code competition_id r k hotkey_info)
  = (r =? r').
Proof.
  unfold has_repeat_num, record_of. by rewrite lookup_insert_eq.
Qed.

Lemma cycle_records_length self w hotkeys code competition_id r :
  length (cycle_records self w hotkeys code competition_id r) = length hotkeys.
Proof. apply length_imap. Qed.

Lemma filter_imap_all_or_nothing (b : bool) (P : dict → bool) (l : list dict) :
  ∀ g : nat → dict → dict,
    (∀ k h, P (g k h) = b) →
    filter (λ res, P res = true) (imap g l) = if b then imap g l else [].
Proof.
  induction l as [|h l IH]; intros g Hg; [by destruct b|].
  rewrite imap_cons, filter_cons, Hg, IH by (intros; apply Hg).
  destruct b; by case_decide.
Qed.

(** The records of cycle [r] that carry the repeat number [r']: all of
    them if [r'] is [r], none otherwise. *)
Lemma cycle_records_with_repeat_num self w hotkeys code competition_id r r' :
  filter (λ res, has_repeat_num r' res = true)
         (cycle_records self w hotkeys code competition_id r)
  = if r =? r' then cycle_records self w hotkeys code competition_id r else [].
Proof.
  apply filter_imap_all_or_nothing. intros. apply record_of_repeat_num.
Qed.

Lemma cycles_count (f : Z → list dict) (n : nat) (r' : Z) (m : nat) : ∀ j,
  (∀ r, length (filter (λ res, has_repeat_num r' res = true) (f r))
        = if r =? r' then n else 0%nat) →
  length (filter (λ res, has_repeat_num r' res = true)
                 (flat_map f (map (λ k, 1 + Z.of_nat k) (seq j m))))
  = if decide (Z.of_nat j < r' ≤ Z.of_nat j + Z.of_nat m) then n else 0%nat.
Proof.
  induction m as [|m IH]; intros j Hf.
  - cbn. case_decide; [lia|done].
  - cbn [seq map flat_map]. rewrite filter_app, length_app, Hf, IH by done.
    destruct (Z.eqb_spec (1 + Z.of_nat j) r'); repeat case_decide; lia.
Qed.

(** C2.  A run over well-formed identities, with [max_workers >= 1] and
    delays that are not infinite, returns one record for each identity
    and each repeat cycle: the list has [len(hotkeys) * repeat] records,
    [len(hotkeys)] of them for each repeat number from 1 to [repeat],
    and none for any other number. *)
Theorem batch_submit_one_record_per_identity_and_cycle
    (self : BatchSubmitter) (w : world) (hotkeys : list dict) (code : pystr)
    (competition_id max_workers : Z) (delay_between_batches : float)
    (repeat : Z) (delay_between_repeats : float) :
  Forall (λ h, well_formed h = true) hotkeys →
  1 ≤ max_workers →
  passes delay_between_batches = true →
  passes delay_between_repeats = true →
  ∃ results,
    (batch_submit self w hotkeys code competition_id max_workers
                  delay_between_batches repeat delay_between_repeats).2
    = Returned (Ok results) ∧
    length results = (length hotkeys * Z.to_nat repeat)%nat ∧
    ∀ r, length (filter (λ res, has_repeat_num r res = true) results)
         = if decide (1 ≤ r ≤ repeat) then length hotkeys else 0%nat.
Proof.
  intros Hwf Hc Hdelay Hrepeat_delay.
  eexists. split; [by rewrite batch_submit_ok|].
  unfold batch_records, cycles. split.
  - rewrite (flat_map_length_const _ (length hotkeys))
      by (intros; apply cycle_records_length).
    by rewrite length_fmap, length_seq.
  - intros r.
    rewrite (cycles_count _ (length hotkeys)).
    + repeat case_decide; lia.
    + intros r0. rewrite cycle_records_with_repeat_num.
      destruct (r0 =? r); [apply cycle_records_length|done].
Qed.

Lemma batch_submit_one_record_per_identity_and_cycle_witness :
  ∃ results,
    (batch_submit sample_submitter sample_world sample_hotkeys (lit "x = 1")
                  1 2 0.5%float 2 0.25%float).2
    = Returned (Ok results) ∧
    length results = (length sample_hotkeys * Z.to_nat 2)%nat ∧
    ∀ r, length (filter (λ res, has_repeat_num r res = true) results)
         = if decide (1 ≤ r ≤ 2) then length sample_hotkeys else 0%nat.
Proof.
  apply (batch_submit_one_record_per_identity_and_cycle
           sample_submitter sample_world sample_hotkeys (lit "x = 1") 1 2
           0.5%float 2 0.25%float).
  - repeat constructor.
  - lia.
  - reflexivity.
  - reflexivity.
Defined.

Lemma record_of_tags self w code competition_id r k hotkey_info :
  well_formed hotkey_info = true →
  record_of self w code competition_id r k hotkey_info !! "hotkey"
  = hotkey_info !! "ss58_address" ∧
  record_of self w code competition_id r k hotkey_info !! "repeat_num"
  = Some (VInt r).
Proof.
  intros Hwf. unfold record_of. split; [|by rewrite lookup_insert_eq].
  rewrite lookup_insert_ne by done.
  destruct (submit_single_well_formed self hotkey_info code competition_id
              (-1) (w r k) Hwf)
    as (res & path & address & wallet & name & short & _ & Ha & Hres & Hf).
  rewrite Hres, Ha. cbn [ok_or].
  apply (f_equal f_hotkey) in Hf. cbn [fields f_hotkey] in Hf. rewrite Hf.
  unfold outcome_fields.
  destruct (send_request _ _ _ _ _ _) as [response|]; [|done].
  destruct (status_code response =? 200); [|done].
  by destruct (json response).
Qed.

Lemma submit_single_completing_at (self : BatchSubmitter) (hotkey_info : dict)
    (code : pystr) (competition_id round_number : Z) (instant : N) (a : attempt) :
  submit_single self hotkey_info code competition_id round_number
                (completing_at instant a)
  = submit_single self hotkey_info code competition_id round_number a.
Proof. reflexivity. Qed.

Lemma batch_records_retimed self w hotkeys code competition_id repeat instants :
  batch_records self (retimed instants w) hotkeys code competition_id repeat
  = batch_records self w hotkeys code competition_id repeat.
Proof.
  unfold batch_records. apply flat_map_ext. intros r.
  unfold cycle_records. apply imap_ext. intros k h _.
  unfold record_of, retimed. by rewrite submit_single_completing_at.
Qed.

(** C10.  The records of a run (well-formed identities,
    [max_workers >= 1], delays that are not infinite) come in the order
    of the identities, cycle after cycle, and not in the order in which
    the submissions complete: the run returns the same list of records
    whatever the instants at which the submissions complete, and the
    sequence of their addresses and repeat numbers depends on the list
    of identities and on the number of repeats only. *)
Theorem batch_submit_keeps_the_order_of_identities
    (self : BatchSubmitter) (w : world) (hotkeys : list dict) (code : pystr)
    (competition_id max_workers : Z) (delay_between_batches : float)
    (repeat : Z) (delay_between_repeats : float) :
  Forall (λ h, well_formed h = true) hotkeys →
  1 ≤ max_workers →
  passes delay_between_batches = true →
  passes delay_between_repeats = true →
  ∃ results,
    (batch_submit self w hotkeys code competition_id max_workers
                  delay_between_batches repeat delay_between_repeats).2
    = Returned (Ok results) ∧
    (∀ instants,
       (batch_submit self (retimed instants w) hotkeys code competition_id
                     max_workers delay_between_batches repeat
                     delay_between_repeats).2
       = Returned (Ok results)) ∧
    map (λ res : dict, (res !! "hotkey", res !! "repeat_num")) results
    = flat_map (λ r, map (λ h : dict, (h !! "ss58_address", Some (VInt r))) hotkeys)
               (cycles repeat).
Proof.
  intros Hwf Hc Hdelay Hrepeat_delay.
  eexists. split; [by rewrite batch_submit_ok|].
  split; [intros instants; by rewrite batch_submit_ok, batch_records_retimed|].
  unfold batch_records.
  induction (cycles repeat) as [|r rs IH]; [done|].
  cbn [flat_map]. rewrite map_app, IH. f_equal.
  unfold cycle_records.
  change (map ?f (imap ?g ?l)) with (f <$> imap g l).
  rewrite fmap_imap.
  rewrite <- (imap_const (λ h : dict, (h !! "ss58_address", Some (VInt r)))).
  apply imap_ext. intros k h Hh. cbn.
  eapply Forall_lookup_1 in Hwf; [|done].
  by destruct (record_of_tags self w code competition_id r k h Hwf) as [-> ->].
Qed.

Lemma batch_submit_keeps_the_order_of_identities_witness :
  ∃ results,
    (batch_submit sample_submitter sample_world sample_hotkeys (lit "x = 1")
                  1 2 0.5%float 2 0.25%float).2
    = Returned (Ok results) ∧
    (∀ instants,
       (batch_submit sample_submitter (retimed instants sample_world)
                     sample_hotkeys (lit "x = 1") 1 2 0.5%float 2 0.25%float).2
       = Returned (Ok results)) ∧
    map (λ res : dict, (res !! "hotkey", res !! "repeat_num")) results
    = flat_map (λ r, map (λ h : dict, (h !! "ss58_address", Some (VInt r)))
                         sample_hotkeys)
               (cycles 2).
Proof.
  apply (batch_submit_keeps_the_order_of_identities
           sample_submitter sample_world sample_hotkeys (lit "x = 1") 1 2
           0.5%float 2 0.25%float).
  - repeat constructor.
  - lia.
  - reflexivity.
  - reflexivity.
Defined.

Lemma slept_app t1 t2 : slept (t1 ++ t2) = slept t1 ++ slept t2.
Proof. apply omap_app. Qed.

(** A further group remains after the [k]-th exactly when [k] is not the
    last group. *)
Lemma more_groups_remain (n c : Z) (k : nat) :
  0 ≤ n → 1 ≤ c →
  (Z.of_nat k * c + c <? n) = bool_decide (S k < total_batches n c)%nat.
Proof.
  intros Hn Hc.
  pose proof (total_batches_ceil n c Hn Hc) as Hm. unfold ceil_div in Hm.
  pose proof (Z.mod_pos_bound n c ltac:(lia)).
  pose proof (Z.div_mod n c ltac:(lia)).
  set (m := total_batches n c) in *.
  assert (n ≤ Z.of_nat m * c ∧ (Z.of_nat m - 1) * c < n ∨ n = 0 ∧ m = 0%nat)
    as Hbounds.
  { destruct (Z.eqb_spec (n mod c) 0); [|left; nia].
    destruct (decide (n = 0)) as [->|]; [right|left; nia].
    rewrite Z.div_0_l in Hm by lia. lia. }
  destruct (Z.ltb_spec (Z.of_nat k * c + c) n); case_bool_decide; try done; nia.
Qed.

Lemma slept_groups hotkeys c delay r (m : nat) : ∀ j,
  1 ≤ c →
  (j + m)%nat = total_batches (Z.of_nat (length hotkeys)) c →
  slept (flat_map (λ k, Launched r (group hotkeys c k)
                          :: pause_after hotkeys c delay k)
                  (seq j m))
  = if (0 <? delay)%float then replicate (m - 1) delay else [].
Proof.
  induction m as [|m IH]; intros j Hc Hm.
  - cbn. by destruct (0 <? delay)%float.
  - cbn [seq flat_map]. rewrite slept_app, IH by (done || lia).
    change (slept (Launched r (group hotkeys c j) :: pause_after hotkeys c delay j))
      with (slept (pause_after hotkeys c delay j)).
    unfold pause_after.
    rewrite more_groups_remain by lia. rewrite <- Hm.
    destruct (0 <? delay)%float.
    + case_bool_decide; cbn [andb slept omap].
      * destruct m; [lia|]. cbn. by rewrite Nat.sub_0_r.
      * by replace m with 0%nat by lia.
    + by rewrite andb_false_r.
Qed.

(** Where the scheduler pauses.  The trace of a run whose delays are
    not infinite is, cycle after cycle, the groups in their order, each
    followed by a pause of [delay_between_batches] unless it is the last
    group of its cycle, and then a pause of [delay_between_repeats]
    unless the cycle is the last; a pause is taken only for a delay
    above zero.  So each cycle has one pause fewer than it has groups,
    and the run one pause fewer between cycles than it has cycles. *)
Theorem batch_submit_pauses
    (self : BatchSubmitter) (w : world) (hotkeys : list dict) (code : pystr)
    (competition_id max_workers : Z) (delay_between_batches : float)
    (repeat : Z) (delay_between_repeats : float) :
  Forall (λ h, well_formed h = true) hotkeys →
  1 ≤ max_workers →
  passes delay_between_batches = true →
  passes delay_between_repeats = true →
  let groups := total_batches (Z.of_nat (length hotkeys)) max_workers in
  let run := batch_submit self w hotkeys code competition_id max_workers
                          delay_between_batches repeat delay_between_repeats in
  run.1
  = flat_map
      (λ r,
         flat_map
           (λ k, Launched r (group hotkeys max_workers k)
                 :: (if bool_decide (S k < groups)%nat &&
                        (0 <? delay_between_batches)%float
                     then [Slept delay_between_batches] else []))
           (seq 0 groups) ++
         (if (r <? repeat) && (0 <? delay_between_repeats)%float
          then [Slept delay_between_repeats] else []))
      (cycles repeat) ∧
  slept run.1
  = flat_map
      (λ r,
         (if (0 <? delay_between_batches)%float
          then replicate (groups - 1) delay_between_batches
          else []) ++
         (if (r <? repeat) && (0 <? delay_between_repeats)%float
          then [delay_between_repeats] else []))
      (cycles repeat).
Proof.
  intros Hwf Hc Hdelay Hrepeat_delay groups run. subst groups run.
  rewrite batch_submit_ok by done. cbn [fst].
  unfold batch_trace. split.
  - apply flat_map_ext. intros r. f_equal.
    unfold cycle_trace. apply flat_map_ext. intros k. f_equal.
    unfold pause_after. by rewrite more_groups_remain by lia.
  - induction (cycles repeat) as [|r rs IH]; [done|].
    cbn [flat_map]. rewrite !slept_app, IH. f_equal. f_equal.
    + unfold cycle_trace. by rewrite slept_groups.
    + unfold repeat_pause. by destruct (_ && _).
Qed.

Lemma batch_submit_pauses_witness :
  let groups := total_batches (Z.of_nat (length sample_hotkeys)) 2 in
  let run := batch_submit sample_submitter sample_world sample_hotkeys
                          (lit "x = 1") 1 2 0.5%float 2 3%float in
  run.1
  = flat_map
      (λ r,
         flat_map
           (λ k, Launched r (group sample_hotkeys 2 k)
                 :: (if bool_decide (S k < groups)%nat && (0 <? 0.5)%float
                     then [Slept 0.5%float] else []))
           (seq 0 groups) ++
         (if (r <? 2) && (0 <? 3)%float then [Slept 3%float] else []))
      (cycles 2) ∧
  slept run.1
  = flat_map
      (λ r,
         (if (0 <? 0.5)%float then replicate (groups - 1) 0.5%float else []) ++
         (if (r <? 2) && (0 <? 3)%float then [3%float] else []))
      (cycles 2).
Proof.
  apply (batch_submit_pauses
           sample_submitter sample_world sample_hotkeys (lit "x = 1") 1 2
           0.5%float 2 3%float).
  - repeat constructor.
  - lia.
  - reflexivity.
  - reflexivity.
Defined.

(** In the sample run of three identities in groups of two, repeated
    twice: a pause stands between the two groups of each cycle and
    between the two cycles, and nowhere else. *)
Example batch_submit_pauses_sample :
  map (λ e, match e with
            | Launched r batch => inl (r, length batch)
            | Slept d => inr d
            end)
      (batch_submit sample_submitter sample_world sample_hotkeys
                    (lit "x = 1") 1 2 0.5%float 2 3%float).1
  = [inl (1, 2%nat); inr 0.5%float; inl (1, 1%nat); inr 3%float;
     inl (2, 2%nat); inr 0.5%float; inl (2, 1%nat)].
Proof. vm_compute. reflexivity. Qed.

(** ** Runs that stop or do nothing *)

(** With [max_workers = 0] the first repeat cycle stops at its [range]:
    [batch_submit] raises a [ValueError] before any submission. *)
Theorem batch_submit_zero_workers
    (self : BatchSubmitter) (w : world) (hotkeys : list dict) (code : pystr)
    (competition_id : Z) (delay_between_batches : float)
    (repeat : Z) (delay_between_repeats : float) :
  1 ≤ repeat →
  batch_submit self w hotkeys code competition_id 0
               delay_between_batches repeat delay_between_repeats
  = ([], Returned (Raise (Exn ValueError (lit "range() arg 3 must not be zero")))).
Proof.
  intros Hr. unfold batch_submit. rewrite py_range_from_one.
  destruct (Z.to_nat repeat) as [|m] eqn:Hm; [lia|]. reflexivity.
Qed.

Lemma batch_submit_zero_workers_witness :
  batch_submit sample_submitter sample_world sample_hotkeys (lit "x = 1") 1 0
               0%float 1 0%float
  = ([], Returned (Raise (Exn ValueError (lit "range() arg 3 must not be zero")))).
Proof.
  apply (batch_submit_zero_workers
           sample_submitter sample_world sample_hotkeys (lit "x = 1") 1
           0%float 1 0%float).
  lia.
Defined.

Lemma py_range_negative_step (n c : Z) :
  0 ≤ n → c < 0 → py_range 0 n c = Ok [].
Proof.
  intros Hn Hc. unfold py_range.
  destruct (Z.eqb_spec c 0); [lia|]. destruct (Z.ltb_spec 0 c); [lia|].
  assert ((0 - n - c - 1) / - c ≤ 0) as Hq.
  { destruct (decide (0 - n - c - 1 < 0)).
    - assert ((0 - n - c - 1) / - c < 0); [|lia].
      apply Z.div_lt_upper_bound; lia.
    - rewrite Z.div_small; lia. }
  by replace (Z.to_nat ((0 - n - c - 1) / - c)) with 0%nat by lia.
Qed.

Lemma launched_repeat_pause repeat delay r :
  launched (repeat_pause repeat delay r) = [].
Proof. unfold repeat_pause. by destruct (_ && _). Qed.

Lemma batch_submit_without_groups
    (self : BatchSubmitter) (w : world) (hotkeys : list dict) (code : pystr)
    (competition_id max_workers : Z) (delay_between_batches : float)
    (repeat : Z) (delay_between_repeats : float) :
  max_workers < 0 →
  passes delay_between_repeats = true →
  let run := batch_submit self w hotkeys code competition_id max_workers
                          delay_between_batches repeat delay_between_repeats in
  run.2 = Returned (Ok []) ∧ launched run.1 = [].
Proof.
  intros Hc Hrepeat_delay run. subst run. unfold batch_submit.
  rewrite py_range_from_one. unfold lift. cbn [mbind io_bind app].
  assert (Hcycle : ∀ r, submit_cycle self w hotkeys code competition_id
                                     max_workers delay_between_batches r
                        = ([], Returned (Ok []))).
  { intros r. unfold submit_cycle, len_hotkeys.
    by rewrite py_range_negative_step by lia. }
  generalize 0%nat as j.
  induction (Z.to_nat repeat) as [|m IH]; intros j; [done|].
  cbn [seq map for_repeats]. rewrite Hcycle. cbn [mbind io_bind app].
  rewrite (asyncio_sleep_passes _ Hrepeat_delay).
  specialize (IH (S j)).
  destruct (for_repeats _ _ _ _ _ _ _ _ _ _ _) as [t res].
  cbn [fst snd] in IH. destruct IH as [-> Ht].
  destruct (_ && _); cbn [tell mret io_ret mbind io_bind fst snd app]; done.
Qed.

(** With a negative [max_workers] no group is formed: every cycle is
    empty and nothing is submitted; the pauses between the cycles are
    still taken, and when their delay is not infinite the run returns
    no record. *)
Theorem batch_submit_negative_workers
    (self : BatchSubmitter) (w : world) (hotkeys : list dict) (code : pystr)
    (competition_id max_workers : Z) (delay_between_batches : float)
    (repeat : Z) (delay_between_repeats : float) :
  max_workers < 0 →
  passes delay_between_repeats = true →
  let run := batch_submit self w hotkeys code competition_id max_workers
                          delay_between_batches repeat delay_between_repeats in
  run.2 = Returned (Ok []) ∧ launched run.1 = [].
Proof. apply batch_submit_without_groups. Qed.

Lemma batch_submit_negative_workers_witness :
  let run := batch_submit sample_submitter sample_world sample_hotkeys
                          (lit "x = 1") 1 (-5) 0%float 2 0.25%float in
  run.2 = Returned (Ok []) ∧ launched run.1 = [].
Proof.
  apply (batch_submit_negative_workers
           sample_submitter sample_world sample_hotkeys (lit "x = 1") 1 (-5)
           0%float 2 0.25%float).
  - lia.
  - reflexivity.
Defined.

(** ** A task that raises *)

Lemma print_fault_record (hotkey error repeat_num : value) :
  print_result (<["repeat_num" := repeat_num]>
                  ({[ "success" := VBool false;
                      "hotkey" := hotkey;
                      "error" := error ]} : dict))
  = Raise (key_error "hotkey_short").
Proof. vm_compute. reflexivity. Qed.

(** The turn of the collecting loop for an outcome that is an exception:
    the record built for it lacks the keys that the next line prints. *)
Lemma collect_fault (batch : list dict) (r : Z) (idx : nat)
    (hotkey_info : dict) (address : value) (e : exn) :
  batch !! idx = Some hotkey_info →
  hotkey_info !! "ss58_address" = Some address →
  collect batch r idx (Raise e) = Raise (key_error "hotkey_short").
Proof.
  intros Hidx Haddress. unfold collect, fault_record, index, getitem.
  rewrite Hidx. cbn [mbind result_bind]. rewrite Haddress.
  cbn [mbind result_bind]. by rewrite print_fault_record.
Qed.

Lemma sequence_first_raise {A} (rs : list (result A)) (e : exn) : ∀ i,
  rs !! i = Some (Raise e) →
  (∀ j, (j < i)%nat → ∃ x, rs !! j = Some (Ok x)) →
  sequence rs = Raise e.
Proof.
  induction rs as [|r rs IH]; intros i Hi Hbefore; [done|].
  destruct i as [|i].
  - cbn in Hi. by injection Hi as ->.
  - destruct (Hbefore 0%nat ltac:(lia)) as [x Hx].
    cbn in Hx. injection Hx as ->.
    cbn [sequence mbind result_bind].
    rewrite (IH i); [done|done|].
    intros j Hj. apply (Hbefore (S j)). lia.
Qed.

Lemma faulty_raises (self : BatchSubmitter) (hotkey_info : dict) (code : pystr)
    (competition_id : Z) (a : attempt) :
  faulty hotkey_info = true →
  ∃ address e,
    hotkey_info !! "ss58_address" = Some address ∧
    submit_single self hotkey_info code competition_id (-1) a = Raise e.
Proof.
  unfold faulty. intros H.
  destruct (hotkey_info !! "hotkey_path") as [path|] eqn:Hp; [|done].
  destruct (hotkey_info !! "ss58_address") as [address|] eqn:Ha; [|done].
  destruct (hotkey_info !! "wallet_name") as [wallet|] eqn:Hw; [|done].
  destruct (hotkey_info !! "hotkey_name") as [name|] eqn:Hn; [|done].
  apply negb_true_iff in H.
  exists address. unfold submit_single, getitem.
  rewrite Hp, Ha, Hw, Hn. cbn [mbind result_bind].
  destruct address; try discriminate H; eexists; split; reflexivity.
Qed.

Section TaskFault.

Variable self : BatchSubmitter.
Variable w : world.
Variable hotkeys : list dict.
Variable code : pystr.
Variable competition_id : Z.
Variable max_workers : Z.
Variable delay_between_batches : float.

Hypothesis at_least_one_worker : 1 ≤ max_workers.
Hypothesis batch_delay_passes : passes delay_between_batches = true.

Let c := Z.to_nat max_workers.

(** The group in which a task raises: the group is launched and the
    collecting loop stops with a [KeyError]. *)
Lemma submit_group_fault (r : Z) (g i0 : nat) (bad : dict) :
  group hotkeys max_workers g !! i0 = Some bad →
  faulty bad = true →
  (∀ j h, (j < i0)%nat → group hotkeys max_workers g !! j = Some h →
          well_formed h = true) →
  submit_group self w hotkeys code competition_id max_workers
               delay_between_batches r (Z.of_nat g * max_workers)
  = ([Launched r (group hotkeys max_workers g)],
     Returned (Raise (key_error "hotkey_short"))).
Proof.
  intros Hbad Hfaulty Hbefore. unfold submit_group.
  rewrite batch_is_group, group_outcomes by done.
  rewrite (sequence_first_raise _ (key_error "hotkey_short") i0); [done| |].
  - rewrite !list_lookup_imap, Hbad. cbn. f_equal.
    destruct (faulty_raises self bad code competition_id
                (w r (g * Z.to_nat max_workers + i0)%nat) Hfaulty)
      as (address & e & Haddress & ->).
    by eapply collect_fault.
  - intros j Hj.
    destruct (group hotkeys max_workers g !! j) as [h|] eqn:Hh.
    + eexists. rewrite !list_lookup_imap, Hh. cbn. f_equal.
      apply collect_task. by eapply Hbefore.
    + apply lookup_ge_None in Hh. apply lookup_lt_Some in Hbad. lia.
Qed.

Lemma for_groups_fault (r : Z) (g i0 : nat) (bad : dict) (m : nat) : ∀ j acc,
  group hotkeys max_workers g !! i0 = Some bad →
  faulty bad = true →
  (∀ j h, (j < i0)%nat → group hotkeys max_workers g !! j = Some h →
          well_formed h = true) →
  (∀ k, (j ≤ k < g)%nat →
        Forall (λ h, well_formed h = true) (group hotkeys max_workers k)) →
  (j ≤ g < j + m)%nat →
  let run := for_groups self w hotkeys code competition_id max_workers
                        delay_between_batches r
                        (map (λ k, Z.of_nat k * max_workers) (seq j m)) acc in
  run.2 = Returned (Raise (key_error "hotkey_short")) ∧
  launched run.1 = map (λ k, (r, group hotkeys max_workers k)) (seq j (S g - j)).
Proof.
  induction m as [|m IH]; intros j acc Hbad Hfaulty Hbefore Hgroups Hg;
    [lia|].
  cbn [seq map for_groups]. cbv zeta.
  destruct (decide (j = g)) as [->|Hne].
  - rewrite (submit_group_fault r g i0 bad) by done.
    cbn [mbind io_bind fst snd]. split; [done|].
    by replace (S g - g)%nat with 1%nat by lia.
  - rewrite submit_group_ok by (done || apply Hgroups; lia).
    cbn [mbind io_bind].
    specialize (IH (S j) (acc ++ take (Z.to_nat max_workers)
                                   (drop (j * Z.to_nat max_workers)
                                         (cycle_records self w hotkeys code
                                                        competition_id r)))
                   Hbad Hfaulty Hbefore).
    cbv zeta in IH.
    destruct (for_groups _ _ _ _ _ _ _ _ _ _) as [t res].
    cbn [fst snd] in *.
    destruct IH as [-> Ht]; [intros k Hk; apply Hgroups; lia|lia|].
    split; [done|].
    change (Launched r (group hotkeys max_workers j)
              :: pause_after hotkeys max_workers delay_between_batches j)
      with ([Launched r (group hotkeys max_workers j)]
              ++ pause_after hotkeys max_workers delay_between_batches j).
    rewrite !launched_app, launched_pause, Ht.
    replace (S g - j)%nat with (S (S g - S j)) by lia. done.
Qed.

End TaskFault.

(** The first cycle of a run that meets a submission that raises, when
    the identities before it are well formed. *)
Lemma batch_submit_stops_at_fault
    (self : BatchSubmitter) (w : world) (hotkeys : list dict) (code : pystr)
    (competition_id max_workers : Z) (delay_between_batches : float)
    (repeat : Z) (delay_between_repeats : float) (i : nat) (bad : dict) :
  1 ≤ max_workers →
  1 ≤ repeat →
  passes delay_between_batches = true →
  hotkeys !! i = Some bad →
  faulty bad = true →
  (∀ j h, (j < i)%nat → hotkeys !! j = Some h → well_formed h = true) →
  let run := batch_submit self w hotkeys code competition_id max_workers
                          delay_between_batches repeat delay_between_repeats in
  run.2 = Returned (Raise (key_error "hotkey_short")) ∧
  launched run.1
  = map (λ k, (1, group hotkeys max_workers k))
        (seq 0 (S (i / Z.to_nat max_workers))).
Proof.
  intros Hc Hr Hdelay Hbad Hfaulty Hbefore run. subst run.
  set (c := Z.to_nat max_workers).
  assert (Hcpos : (0 < c)%nat) by (unfold c; lia).
  set (g := (i / c)%nat). set (i0 := (i mod c)%nat).
  assert (Hi : i = (g * c + i0)%nat).
  { unfold g, i0. rewrite (Nat.div_mod_eq i c) at 1. lia. }
  assert (Hi0 : (i0 < c)%nat) by (apply Nat.mod_upper_bound; lia).
  assert (Hgroup : ∀ k j, group hotkeys max_workers k !! j
                          = if decide (j < c)%nat
                            then hotkeys !! (k * c + j)%nat else None).
  { intros. by apply group_lookup. }
  assert (Hm : (g < total_batches (Z.of_nat (length hotkeys)) max_workers)%nat).
  { pose proof (batches_reach_the_end hotkeys max_workers Hc) as Hend.
    fold c in Hend. apply lookup_lt_Some in Hbad. nia. }
  unfold batch_submit. rewrite py_range_from_one.
  destruct (Z.to_nat repeat) as [|n] eqn:Hn; [lia|].
  unfold lift. cbn [mbind io_bind app seq map for_repeats].
  unfold submit_cycle, len_hotkeys. rewrite py_range_step by done.
  unfold lift. cbn [mbind io_bind app].
  destruct (for_groups_fault self w hotkeys code competition_id max_workers
              delay_between_batches Hc Hdelay 1 g i0 bad
              (total_batches (Z.of_nat (length hotkeys)) max_workers) 0 [])
    as [Hres Htrace].
  - rewrite Hgroup. case_decide; [|lia]. by rewrite <- Hi.
  - done.
  - intros j h Hj. rewrite Hgroup. case_decide; [|done].
    apply Hbefore. lia.
  - intros k Hk. apply Forall_lookup. intros j h. rewrite Hgroup.
    case_decide; [|done]. apply Hbefore. nia.
  - lia.
  - destruct (for_groups _ _ _ _ _ _ _ _ _ _) as [t res].
    cbn [fst snd] in *. subst res. cbn [mbind io_bind fst snd].
    split; [done|]. rewrite Htrace. by rewrite Nat.sub_0_r.
Qed.

(** A submission that raises stops the whole run.  When the identity at
    position [i] makes [submit_single] raise, the identities before it
    are well formed and the delay between the groups is not infinite,
    [batch_submit] raises [KeyError('hotkey_short')] in the first cycle:
    the groups up to the one of that identity are launched, the later
    groups never are, and no record is returned. *)
Theorem batch_submit_task_fault_stops_the_run
    (self : BatchSubmitter) (w : world) (hotkeys : list dict) (code : pystr)
    (competition_id max_workers : Z) (delay_between_batches : float)
    (repeat : Z) (delay_between_repeats : float) (i : nat) (bad : dict) :
  1 ≤ max_workers →
  1 ≤ repeat →
  passes delay_between_batches = true →
  hotkeys !! i = Some bad →
  faulty bad = true →
  (∀ j h, (j < i)%nat → hotkeys !! j = Some h → well_formed h = true) →
  let run := batch_submit self w hotkeys code competition_id max_workers
                          delay_between_batches repeat delay_between_repeats in
  run.2 = Returned (Raise (key_error "hotkey_short")) ∧
  launched run.1
  = map (λ k, (1, group hotkeys max_workers k))
        (seq 0 (S (i / Z.to_nat max_workers))).
Proof.
  apply batch_submit_stops_at_fault.
Qed.

Lemma batch_submit_task_fault_stops_the_run_witness :
  let hotkeys := [sample_identity; sample_hotkey "apex7" (VInt 12345);
                  sample_identity; sample_identity] in
  let run := batch_submit sample_submitter sample_world hotkeys (lit "x = 1")
                          1 1 0.5%float 2 0%float in
  run.2 = Returned (Raise (key_error "hotkey_short")) ∧
  launched run.1
  = map (λ k, (1, group hotkeys 1 k)) (seq 0 (S (1 / Z.to_nat 1))).
Proof.
  apply (batch_submit_task_fault_stops_the_run
           sample_submitter sample_world
           [sample_identity; sample_hotkey "apex7" (VInt 12345);
            sample_identity; sample_identity]
           (lit "x = 1") 1 1 0.5%float 2 0%float 1
           (sample_hotkey "apex7" (VInt 12345))).
  - lia.
  - lia.
  - reflexivity.
  - reflexivity.
  - vm_compute. reflexivity.
  - intros j h Hj Hh. destruct j as [|j]; [|lia].
    injection Hh as <-. vm_compute. reflexivity.
Defined.

(** C6.  A task that raises is not turned into a failure outcome that
    the run survives.  Among three identities submitted as one group,
    the second has the number 12345 as its address: [submit_single]
    raises a [TypeError] for it, the record that [batch_submit] builds
    in place of the exception has the keys [success], [hotkey] and
    [error] only, and the line printed for it reads [hotkey_short]: the
    run ends with [KeyError('hotkey_short')] and returns no outcome,
    for the faulty identity or for its siblings. *)
Theorem task_fault_crashes_the_batch :
  let bad := sample_hotkey "apex7" (VInt 12345) in
  let hotkeys := [sample_identity; bad; sample_identity] in
  let fault := Exn TypeError (lit "'int' object is not subscriptable") in
  let run := batch_submit sample_submitter sample_world hotkeys (lit "x = 1")
                          1 5 0%float 1 0%float in
  submit_single sample_submitter bad (lit "x = 1") 1 (-1) (sample_world 1 1%nat)
  = Raise fault ∧
  fault_record hotkeys 1%nat fault
  = Ok {[ "success" := VBool false;
          "hotkey" := VInt 12345;
          "error" := VStr (lit "'int' object is not subscriptable") ]} ∧
  collect hotkeys 1 1%nat (Raise fault) = Raise (key_error "hotkey_short") ∧
  run.2 = Returned (Raise (key_error "hotkey_short")) ∧
  launched run.1 = [(1, hotkeys)].
Proof.
  cbv zeta. split; [vm_compute; reflexivity|].
  split; [vm_compute; reflexivity|].
  split; [vm_compute; reflexivity|].
  destruct (batch_submit_stops_at_fault
              sample_submitter sample_world
              [sample_identity; sample_hotkey "apex7" (VInt 12345);
               sample_identity]
              (lit "x = 1") 1 5 0%float 1 0%float 1
              (sample_hotkey "apex7" (VInt 12345)))
    as [Hraise Hlaunched].
  - lia.
  - lia.
  - reflexivity.
  - reflexivity.
  - vm_compute. reflexivity.
  - intros j h Hj Hh. destruct j as [|j]; [|lia].
    injection Hh as <-. vm_compute. reflexivity.
  - split; [exact Hraise|]. rewrite Hlaunched. reflexivity.
Qed.

(** ** The result aggregator *)

Lemma count_success_counts (results : list dict) (n : Z) :
  count_success results = Ok n →
  n = Z.of_nat (length (filter (λ res, succeeded res = true) results)).
Proof.
  revert n. induction results as [|r results IH]; intros n H.
  - by injection H as <-.
  - cbn [count_success] in H. unfold getitem in H.
    assert (Hs : succeeded r = default false (truthy <$> r !! "success"))
      by (unfold succeeded; by destruct (r !! "success")).
    destruct (r !! "success") as [v|]; [|done].
    cbn [mbind result_bind] in H.
    destruct (count_success results) as [n'|]; [|done].
    cbn [mbind result_bind] in H. injection H as <-.
    specialize (IH n' eq_refl). subst n'. cbn in Hs.
    destruct (truthy v).
    + rewrite filter_cons_True by done. cbn [length]. lia.
    + rewrite filter_cons_False by (rewrite Hs; done). done.
Qed.

Lemma sum_durations_sums (results : list dict) : ∀ acc total,
  sum_durations acc results = Ok total →
  sum_values acc
    (omap (λ res : dict, res !! "duration")
          (filter (λ res, succeeded res = true) results))
  = Ok total.
Proof.
  induction results as [|r results IH]; intros acc total H; [done|].
  cbn [sum_durations] in H. unfold getitem in H.
  assert (Hs : succeeded r = default false (truthy <$> r !! "success"))
    by (unfold succeeded; by destruct (r !! "success")).
  destruct (r !! "success") as [v|]; [|done].
  cbn [mbind result_bind] in H. cbn in Hs.
  destruct (truthy v);
    [rewrite filter_cons_True by done
    |rewrite filter_cons_False by (rewrite Hs; done); by apply IH].
  destruct (r !! "duration") as [d|] eqn:Hd; [|done].
  cbn [mbind result_bind] in H. cbn [omap list_omap]. rewrite Hd.
  cbn [sum_values].
  destruct (py_add acc d) as [acc'|]; [|done].
  cbn [mbind result_bind] in *. by apply IH.
Qed.

Lemma no_zero_division_ok {A} (a : A) : no_zero_division (Ok a).
Proof. intros e H. discriminate H. Qed.

Lemma no_zero_division_bind {A B} (m : result A) (f : A → result B) :
  no_zero_division m → (∀ a, m = Ok a → no_zero_division (f a)) →
  no_zero_division (m ≫= f).
Proof.
  intros Hm Hf e H. destruct m as [a|e'].
  - by eapply Hf.
  - cbn in H. injection H as <-. by apply Hm.
Qed.

Lemma getitem_no_zero_division (d : dict) k : no_zero_division (getitem d k).
Proof.
  unfold getitem. intros e H. destruct (d !! k); [done|].
  by injection H as <-.
Qed.

Lemma count_success_no_zero_division results :
  no_zero_division (count_success results).
Proof.
  induction results as [|r results IH]; [apply no_zero_division_ok|].
  cbn [count_success].
  apply no_zero_division_bind; [apply getitem_no_zero_division|]. intros v _.
  apply no_zero_division_bind; [done|]. intros n _.
  apply no_zero_division_ok.
Qed.

Lemma sequence_no_zero_division {A} (rs : list (result A)) :
  Forall no_zero_division rs → no_zero_division (sequence rs).
Proof.
  induction 1 as [|r rs Hr _ IH]; [apply no_zero_division_ok|].
  cbn [sequence].
  apply no_zero_division_bind; [done|]. intros a _.
  apply no_zero_division_bind; [done|]. intros l _.
  apply no_zero_division_ok.
Qed.

Lemma repeat_nums_no_zero_division results :
  no_zero_division (repeat_nums results).
Proof.
  induction results as [|r results IH]; [apply no_zero_division_ok|].
  cbn [repeat_nums].
  apply no_zero_division_bind; [done|]. intros rest _.
  destruct (r !! "repeat_num") as [[]|]; try apply no_zero_division_ok;
    by intros e [= <-].
Qed.

Lemma repeat_breakdown_no_zero_division results :
  no_zero_division (repeat_breakdown results).
Proof.
  unfold repeat_breakdown.
  apply no_zero_division_bind; [apply repeat_nums_no_zero_division|].
  intros repeats _. destruct (1 <? _); [|apply no_zero_division_ok].
  apply no_zero_division_bind; [|intros; apply no_zero_division_ok].
  apply sequence_no_zero_division, Forall_fmap, Forall_forall.
  intros n _. unfold repeat_line. cbn.
  apply no_zero_division_bind; [apply count_success_no_zero_division|].
  intros; apply no_zero_division_ok.
Qed.

Lemma to_float_no_zero_division z : no_zero_division (to_float z).
Proof.
  unfold to_float. destruct (_ <? _); [apply no_zero_division_ok|].
  by intros e [= <-].
Qed.

Lemma py_add_no_zero_division acc v : no_zero_division (py_add acc v).
Proof.
  unfold py_add.
  destruct acc, (as_number v) as [[]|];
    try apply no_zero_division_ok; try (by intros e [= <-]);
    (apply no_zero_division_bind; [apply to_float_no_zero_division|]);
    intros; apply no_zero_division_ok.
Qed.

Lemma sum_durations_no_zero_division results : ∀ acc,
  no_zero_division (sum_durations acc results).
Proof.
  induction results as [|r results IH]; intros acc;
    [apply no_zero_division_ok|].
  cbn [sum_durations].
  apply no_zero_division_bind; [apply getitem_no_zero_division|]. intros v _.
  destruct (truthy v); [|done].
  apply no_zero_division_bind; [apply getitem_no_zero_division|]. intros d _.
  apply no_zero_division_bind; [apply py_add_no_zero_division|]. done.
Qed.

Lemma py_truediv_no_zero_division x n :
  n ≠ 0 → no_zero_division (py_truediv x n).
Proof.
  intros Hn. unfold py_truediv. destruct (Z.eqb_spec n 0); [done|].
  destruct x as [z|f].
  - destruct (_ && _); [|by intros e [= <-]].
    apply no_zero_division_bind; [apply to_float_no_zero_division|]. intros.
    apply no_zero_division_bind; [apply to_float_no_zero_division|]. intros.
    apply no_zero_division_ok.
  - apply no_zero_division_bind; [apply to_float_no_zero_division|]. intros.
    apply no_zero_division_ok.
Qed.

Lemma average_line_no_zero_division results successful :
  no_zero_division (average_line results successful).
Proof.
  unfold average_line. destruct (Z.ltb_spec 0 successful);
    [|apply no_zero_division_ok].
  apply no_zero_division_bind; [apply sum_durations_no_zero_division|].
  intros total _.
  apply no_zero_division_bind; [apply py_truediv_no_zero_division; lia|].
  intros; apply no_zero_division_ok.
Qed.

Lemma failed_items_no_zero_division results :
  no_zero_division (failed_items results).
Proof.
  induction results as [|r results IH]; [apply no_zero_division_ok|].
  cbn [failed_items].
  apply no_zero_division_bind; [apply getitem_no_zero_division|]. intros v _.
  apply no_zero_division_bind; [done|]. intros rest _.
  destruct (truthy v); apply no_zero_division_ok.
Qed.

Lemma print_summary_no_zero_division results :
  no_zero_division (print_summary results).
Proof.
  unfold print_summary.
  apply no_zero_division_bind; [apply count_success_no_zero_division|].
  intros successful _.
  apply no_zero_division_bind; [apply repeat_breakdown_no_zero_division|].
  intros breakdown _.
  apply no_zero_division_bind; [apply average_line_no_zero_division|].
  intros average _.
  apply no_zero_division_bind; [|intros; apply no_zero_division_ok].
  destruct (0 <? _); [|apply no_zero_division_ok].
  apply no_zero_division_bind; [apply failed_items_no_zero_division|].
  intros; apply no_zero_division_ok.
Qed.

Lemma repeat_breakdown_lines results breakdown :
  repeat_breakdown results = Ok breakdown →
  averages breakdown = [] ∧ failures breakdown = [] ∧ FailedHeader ∉ breakdown.
Proof.
  unfold repeat_breakdown. intros H.
  destruct (repeat_nums results) as [repeats|]; [|done].
  cbn [mbind result_bind] in H.
  destruct (1 <? _); [|by injection H as <-; repeat split; apply not_elem_of_nil].
  revert H. generalize (sort_by Z.leb id repeats). intros l H.
  destruct (sequence _) as [ls|] eqn:Hls; [|done].
  cbn [mbind result_bind] in H. injection H as <-.
  assert (Forall (λ l, ∃ r s t, l = RepeatLine r s t) ls) as Hall.
  { revert ls Hls. induction l as [|n l IH]; intros ls Hls.
    - injection Hls as <-. constructor.
    - cbn [map sequence] in Hls.
      destruct (repeat_line results n) as [a|] eqn:Hr; [|done].
      cbn [mbind result_bind] in Hls.
      destruct (sequence _) as [ls'|]; [|done].
      cbn [mbind result_bind] in Hls. injection Hls as <-.
      constructor; [|by apply IH].
      unfold repeat_line in Hr. destruct (count_success _) as [c|]; [|done].
      injection Hr as <-. by eauto. }
  clear Hls. unfold averages, failures. cbn [omap list_omap].
  induction Hall as [|x ls (r & s & t & ->) _ (IH1 & IH2 & IH3)].
  - repeat split; [done..|]. by intros [=]%list_elem_of_singleton.
  - cbn [omap list_omap] in *. repeat split; [done..|].
    intros Hin. apply IH3.
    apply elem_of_cons in Hin as [[=]|[[=]|Hin]%elem_of_cons].
    by apply elem_of_cons; right.
Qed.

Lemma failed_items_lists results items :
  failed_items results = Ok items →
  items = (λ res, let '(h, r, e) := failure_of res in FailedItem h r e)
          <$> filter (λ res, succeeded res = false) results.
Proof.
  revert items. induction results as [|r results IH]; intros items H.
  - by injection H as <-.
  - cbn [failed_items] in H. unfold getitem in H.
    assert (Hs : succeeded r = default false (truthy <$> r !! "success"))
      by (unfold succeeded; by destruct (r !! "success")).
    destruct (r !! "success") as [v|]; [|done].
    cbn [mbind result_bind] in H.
    destruct (failed_items results) as [rest|]; [|done].
    cbn [mbind result_bind] in H. specialize (IH rest eq_refl). cbn in Hs.
    destruct (truthy v); injection H as <-.
    + by rewrite filter_cons_False by (rewrite Hs; done).
    + by rewrite filter_cons_True, fmap_cons, <- IH by done.
Qed.

Lemma failures_items (l : list dict) :
  failures ((λ res, let '(h, r, e) := failure_of res in FailedItem h r e) <$> l)
  = failure_of <$> l.
Proof.
  unfold failures. induction l as [|res l IH]; [done|].
  rewrite !fmap_cons. cbn [omap list_omap].
  destruct (failure_of res) as [[h r] e]. cbn. by f_equal.
Qed.

Lemma averages_items (l : list dict) :
  averages ((λ res, let '(h, r, e) := failure_of res in FailedItem h r e) <$> l)
  = [].
Proof.
  unfold averages. induction l as [|res l IH]; [done|].
  rewrite !fmap_cons. cbn [omap list_omap].
  by destruct (failure_of res) as [[h r] e].
Qed.

Lemma averages_app l1 l2 : averages (l1 ++ l2) = averages l1 ++ averages l2.
Proof. apply omap_app. Qed.

Lemma failures_app l1 l2 : failures (l1 ++ l2) = failures l1 ++ failures l2.
Proof. apply omap_app. Qed.

Lemma filter_succeeded_split (results : list dict) :
  length results
  = (length (filter (λ res, succeeded res = true) results)
     + length (filter (λ res, succeeded res = false) results))%nat.
Proof.
  induction results as [|r results IH]; [done|].
  destruct (succeeded r) eqn:Hs.
  - rewrite filter_cons_True, filter_cons_False by (rewrite ?Hs; done).
    cbn [length]. lia.
  - rewrite filter_cons_False, filter_cons_True by (rewrite ?Hs; done).
    cbn [length]. lia.
Qed.

(** What [print_summary] prints when it returns, part by part. *)
Lemma print_summary_ok results lines :
  print_summary results = Ok lines →
  ∃ breakdown average details,
    repeat_breakdown results = Ok breakdown ∧
    average_line results
      (Z.of_nat (length (filter (λ res, succeeded res = true) results)))
    = Ok average ∧
    details
    = (if decide (filter (λ res, succeeded res = false) results = []) then []
       else FailedHeader ::
            ((λ res, let '(h, r, e) := failure_of res in FailedItem h r e)
             <$> filter (λ res, succeeded res = false) results)) ∧
    lines
    = [Rule; Title; Rule; Total (Z.of_nat (length results));
       Successful (Z.of_nat (length (filter (λ res, succeeded res = true) results)));
       Failed (Z.of_nat (length (filter (λ res, succeeded res = false) results)))]
      ++ breakdown ++ average ++ [Rule] ++ details.
Proof.
  unfold print_summary. intros H.
  destruct (count_success results) as [successful|] eqn:Hc; [|done].
  apply count_success_counts in Hc. cbn [mbind result_bind] in H.
  destruct (repeat_breakdown results) as [breakdown|]; [|done].
  cbn [mbind result_bind] in H.
  destruct (average_line results successful) as [average|] eqn:Ha; [|done].
  cbn [mbind result_bind] in H.
  pose proof (filter_succeeded_split results) as Hsplit.
  assert (Z.of_nat (length results) - successful
          = Z.of_nat (length (filter (λ res, succeeded res = false) results)))
    as Hfailed by lia.
  rewrite Hfailed in H. subst successful.
  exists breakdown, average. eexists.
  split; [done|]. split; [done|]. split; [reflexivity|].
  destruct (filter (λ res, succeeded res = false) results) as [|bad l] eqn:Hbad.
  - cbn in H. injection H as <-. done.
  - change (0 <? Z.of_nat (length (bad :: l))) with true in H.
    cbv iota in H.
    destruct (failed_items results) as [items|] eqn:Hitems; [|done].
    apply failed_items_lists in Hitems. rewrite Hbad in Hitems.
    cbn [mbind result_bind] in H. injection H as <-.
    case_decide; [done|]. by rewrite Hitems.
Qed.

(** [print_summary] never ends in a [ZeroDivisionError]: the
    average is computed only when at least one record is successful.
    Whatever exception it raises, on any list of records, is of another
    type. *)
Theorem print_summary_never_divides_by_zero (results : list dict) (e : exn) :
  print_summary results = Raise e → exn_type e ≠ ZeroDivisionError.
Proof. apply print_summary_no_zero_division. Qed.

Lemma print_summary_never_divides_by_zero_witness :
  print_summary [∅] = Raise (key_error "success") ∧
  exn_type (key_error "success") ≠ ZeroDivisionError.
Proof.
  split; [vm_compute; reflexivity|].
  apply (print_summary_never_divides_by_zero [∅] (key_error "success")).
  vm_compute. reflexivity.
Defined.

(** The averages among the lines of a summary. *)
Lemma print_summary_averages (results : list dict) (lines : list line) :
  print_summary results = Ok lines →
  (filter (λ res, succeeded res = true) results = [] ∧ averages lines = []) ∨
  (filter (λ res, succeeded res = true) results ≠ [] ∧
   ∃ avg, mean_duration results = Ok avg ∧ averages lines = [avg]).
Proof.
  intros (breakdown & average & details & Hb & Ha & -> & ->)%print_summary_ok.
  apply repeat_breakdown_lines in Hb as (Hb & _ & _).
  assert (averages
            (if decide (filter (λ res, succeeded res = false) results = [])
             then []
             else FailedHeader ::
                  ((λ res, let '(h, r, e) := failure_of res in FailedItem h r e)
                   <$> filter (λ res, succeeded res = false) results)) = [])
    as Hd.
  { case_decide; [done|]. apply (averages_items _). }
  rewrite !averages_app, Hb, Hd.
  change (averages [Rule]) with (@nil float).
  change (averages [Rule; Title; Rule; Total _; Successful _; Failed _])
    with (@nil float).
  rewrite app_nil_r. cbn [app].
  unfold average_line in Ha.
  destruct (filter (λ res, succeeded res = true) results) as [|good l] eqn:Hgood.
  - left. cbn in Ha. by injection Ha as <-.
  - right. split; [done|].
    change (0 <? Z.of_nat (length (good :: l))) with true in Ha. cbv iota in Ha.
    destruct (sum_durations (NInt 0) results) as [total|] eqn:Hsum; [|done].
    apply sum_durations_sums in Hsum. cbn [mbind result_bind] in Ha.
    destruct (py_truediv total _) as [avg|] eqn:Hdiv; [|done].
    cbn [mbind result_bind] in Ha. injection Ha as <-.
    exists avg. split; [|done].
    unfold mean_duration. rewrite Hgood in *. rewrite Hsum.
    cbn [mbind result_bind]. exact Hdiv.
Qed.

(** When [print_summary] returns, it reports no average if no
    record is successful, and otherwise exactly one: the sum of the
    durations of the successful records divided by their number. *)
Theorem print_summary_average (results : list dict) (lines : list line) :
  print_summary results = Ok lines →
  (filter (λ res, succeeded res = true) results = [] ∧ averages lines = []) ∨
  (filter (λ res, succeeded res = true) results ≠ [] ∧
   ∃ avg, mean_duration results = Ok avg ∧ averages lines = [avg]).
Proof. apply print_summary_averages. Qed.

(** When [print_summary] returns, the totals it prints are the
    number of records, of successful records and of the others, which
    add up; the failed submissions it lists are the records that are
    not successful, in their order, under a header that is printed
    exactly when there is one. *)
Theorem print_summary_counts (results : list dict) (lines : list line) :
  print_summary results = Ok lines →
  let good := filter (λ res, succeeded res = true) results in
  let bad := filter (λ res, succeeded res = false) results in
  take 6 lines
  = [Rule; Title; Rule; Total (Z.of_nat (length results));
     Successful (Z.of_nat (length good)); Failed (Z.of_nat (length bad))] ∧
  (length good + length bad = length results)%nat ∧
  failures lines = failure_of <$> bad ∧
  (FailedHeader ∈ lines ↔ bad ≠ []).
Proof.
  intros (breakdown & average & details & Hb & Ha & -> & ->)%print_summary_ok.
  cbv zeta. split; [done|]. split; [by rewrite <- filter_succeeded_split|].
  apply repeat_breakdown_lines in Hb as (_ & Hb & Hh).
  assert (failures average = [] ∧ FailedHeader ∉ average) as [Hfa Hha].
  { unfold average_line in Ha. destruct (0 <? _).
    - destruct (sum_durations _ _); [|done]. cbn [mbind result_bind] in Ha.
      destruct (py_truediv _ _); [|done]. injection Ha as <-.
      split; [done|]. by intros [=]%list_elem_of_singleton.
    - injection Ha as <-. split; [done|]. apply not_elem_of_nil. }
  split.
  - rewrite !failures_app, Hb, Hfa.
    change (failures [Rule]) with (@nil (value * option value * value)).
    change (failures [Rule; Title; Rule; Total _; Successful _; Failed _])
      with (@nil (value * option value * value)).
    cbn [app]. case_decide as Hbad; [by rewrite Hbad|].
    change (failures (FailedHeader :: ?l)) with (failures l).
    apply failures_items.
  - rewrite !elem_of_app. case_decide as Hbad.
    + split; [|done].
      intros [Hin|[Hin|[Hin|[Hin|Hin]]]]; try done.
      * repeat (apply elem_of_cons in Hin as [[=]|Hin]).
        by apply elem_of_nil in Hin.
      * by apply list_elem_of_singleton in Hin.
      * by apply elem_of_nil in Hin.
    + split; [done|]. intros _. do 4 right. by apply elem_of_cons; left.
Qed.

Lemma print_summary_average_witness :
  (filter (λ res, succeeded res = true) sample_results = [] ∧
   averages (ok_or [] (print_summary sample_results)) = []) ∨
  (filter (λ res, succeeded res = true) sample_results ≠ [] ∧
   ∃ avg, mean_duration sample_results = Ok avg ∧
          averages (ok_or [] (print_summary sample_results)) = [avg]).
Proof.
  apply (print_summary_average sample_results
           (ok_or [] (print_summary sample_results))).
  vm_compute. reflexivity.
Defined.

Lemma print_summary_counts_witness :
  let lines := ok_or [] (print_summary sample_results) in
  let good := filter (λ res, succeeded res = true) sample_results in
  let bad := filter (λ res, succeeded res = false) sample_results in
  take 6 lines
  = [Rule; Title; Rule; Total (Z.of_nat (length sample_results));
     Successful (Z.of_nat (length good)); Failed (Z.of_nat (length bad))] ∧
  (length good + length bad = length sample_results)%nat ∧
  failures lines = failure_of <$> bad ∧
  (FailedHeader ∈ lines ↔ bad ≠ []).
Proof.
  apply (print_summary_counts sample_results
           (ok_or [] (print_summary sample_results))).
  vm_compute. reflexivity.
Defined.

(** C8.  The average duration of a summary.  Whatever the records are,
    [print_summary] does not end in a [ZeroDivisionError]; when it
    returns and no record is successful, no line of the summary gives an
    average; when it returns and some record is successful, exactly one
    line does, and the average it gives is the sum of the durations of
    the successful records divided by their number. *)
Theorem print_summary_average_of_successes (results : list dict) :
  match print_summary results with
  | Ok lines =>
      match filter (λ res, succeeded res = true) results with
      | [] => averages lines = []
      | _ :: _ => ∃ avg, mean_duration results = Ok avg ∧ averages lines = [avg]
      end
  | Raise e => exn_type e ≠ ZeroDivisionError
  end.
Proof.
  destruct (print_summary results) as [lines|e] eqn:Hsummary.
  - destruct (print_summary_averages results lines Hsummary)
      as [[-> Hnone]|[Hsome Havg]]; [done|].
    by destruct (filter (λ res, succeeded res = true) results).
  - by apply (print_summary_no_zero_division results).
Qed.

(** A summary of failed submissions only: no average is reported. *)
Example print_summary_without_success :
  print_summary [sample_record false "5Fapex01" (VStr (lit "HTTP 500: busy"))
                               1.5%float 1]
  = Ok [Rule; Title; Rule; Total 1; Successful 0; Failed 1; Rule;
        FailedHeader;
        FailedItem (VStr (lit "5Fapex01")) (Some (VInt 1))
                   (VStr (lit "HTTP 500: busy"))].
Proof. vm_compute. reflexivity. Qed.

Example print_summary_sample :
  print_summary sample_results
  = Ok [Rule; Title; Rule; Total 3; Successful 2; Failed 1;
        AverageDuration 0.375%float; Rule; FailedHeader;
        FailedItem (VStr (lit "5Fapex01")) (Some (VInt 1))
                   (VStr (lit "HTTP 500: busy"))].
Proof. vm_compute. reflexivity. Qed.

(** ** From the run to the exit status *)

Lemma reported_succeeded (res : dict) :
  reported res → res !! "success" = Some (VBool (succeeded res)).
Proof. intros (b & d & r & Hs & _ & _). unfold succeeded. by rewrite Hs. Qed.

Lemma count_success_reported (results : list dict) :
  Forall reported results →
  count_success results
  = Ok (Z.of_nat (length (filter (λ res, succeeded res = true) results))).
Proof.
  intros H.
  assert (∃ n, count_success results = Ok n) as [n Hn].
  { induction H as [|r results Hr _ [n IH]]; [by eexists|].
    cbn [count_success]. unfold getitem.
    rewrite (reported_succeeded r Hr), IH. by eexists. }
  by rewrite Hn, (count_success_counts results n Hn).
Qed.

Lemma repeat_nums_reported (results : list dict) :
  Forall reported results → ∃ repeats, repeat_nums results = Ok repeats.
Proof.
  induction 1 as [|r results (b & d & n & _ & _ & Hr) _ [rest IH]]; [by eexists|].
  cbn [repeat_nums]. rewrite IH, Hr. by eexists.
Qed.

Lemma repeat_breakdown_reported (results : list dict) :
  Forall reported results → ∃ breakdown, repeat_breakdown results = Ok breakdown.
Proof.
  intros H. unfold repeat_breakdown.
  destruct (repeat_nums_reported results H) as [repeats ->].
  cbn [mbind result_bind]. destruct (1 <? _); [|by eexists].
  rewrite (sequence_ok _
             ((λ n, RepeatLine n
                      (Z.of_nat (length (filter (λ res, succeeded res = true)
                         (filter (λ r, has_repeat_num n r = true) results))))
                      (Z.of_nat (length (filter (λ r, has_repeat_num n r = true)
                                                results))))
              <$> sort_by Z.leb id repeats)).
  - by eexists.
  - apply Forall2_fmap, Forall_Forall2_diag, Forall_forall. intros n _.
    unfold repeat_line.
    rewrite count_success_reported; [done|].
    apply Forall_forall. intros r [_ Hr]%list_elem_of_filter.
    by eapply Forall_forall in H.
Qed.

Lemma sum_durations_from_float (results : list dict) :
  Forall reported results →
  ∀ f, ∃ f', sum_durations (NFloat f) results = Ok (NFloat f').
Proof.
  induction 1 as [|r results Hr _ IH]; intros f; [by eexists|].
  cbn [sum_durations]. unfold getitem.
  rewrite (reported_succeeded r Hr). destruct Hr as (b & d & n & _ & -> & _).
  cbn [mbind result_bind truthy].
  destruct (succeeded r); [|apply IH].
  cbn [py_add as_number mbind result_bind]. apply IH.
Qed.

Lemma sum_durations_from_zero (results : list dict) :
  Forall reported results →
  filter (λ res, succeeded res = true) results ≠ [] →
  ∃ f, sum_durations (NInt 0) results = Ok (NFloat f).
Proof.
  induction 1 as [|r results Hr Hall IH]; intros Hgood; [done|].
  cbn [sum_durations]. unfold getitem.
  rewrite (reported_succeeded r Hr). destruct Hr as (b & d & n & _ & -> & _).
  cbn [mbind result_bind truthy].
  destruct (succeeded r) eqn:Hs.
  - cbn [py_add as_number].
    change (to_float 0) with (Ok 0%float). cbn [mbind result_bind].
    by apply sum_durations_from_float.
  - apply IH. by rewrite filter_cons_False in Hgood by (rewrite Hs; done).
Qed.

Lemma to_float_word (n : Z) :
  Z.abs n < 2 ^ 63 → ∃ f, to_float n = Ok f.
Proof.
  intros Hn. unfold to_float.
  assert (2 ^ 63 < 2 ^ 1024 - 2 ^ 970) as Hbig by (vm_compute; reflexivity).
  revert Hbig. generalize (2 ^ 1024 - 2 ^ 970). intros bound Hbig.
  destruct (Z.ltb_spec (Z.abs n) bound); [by eexists|lia].
Qed.

Lemma py_truediv_float (f : float) (n : Z) :
  0 < n < 2 ^ 63 → ∃ avg, py_truediv (NFloat f) n = Ok avg.
Proof.
  intros Hn. unfold py_truediv. destruct (Z.eqb_spec n 0); [lia|].
  destruct (to_float_word n) as [d ->]; [lia|by eexists].
Qed.

Lemma average_line_reported (results : list dict) :
  Forall reported results →
  Z.of_nat (length results) < 2 ^ 63 →
  ∃ average,
    average_line results
      (Z.of_nat (length (filter (λ res, succeeded res = true) results)))
    = Ok average.
Proof.
  intros H Hlen. unfold average_line.
  pose proof (filter_succeeded_split results) as Hsplit.
  set (good := filter (λ res, succeeded res = true) results) in *.
  destruct (Z.ltb_spec 0 (Z.of_nat (length good))) as [Hpos|];
    [|by exists []].
  destruct (sum_durations_from_zero results H) as [f Hf].
  { fold good. intros Hnil. rewrite Hnil in Hpos. cbn in Hpos. lia. }
  destruct (py_truediv_float f (Z.of_nat (length good))) as [avg Havg]; [lia|].
  exists [AverageDuration avg]. rewrite Hf. cbn [mbind result_bind].
  rewrite Havg. done.
Qed.

Lemma failed_items_reported (results : list dict) :
  Forall reported results → ∃ items, failed_items results = Ok items.
Proof.
  induction 1 as [|r results Hr _ [rest IH]]; [by eexists|].
  cbn [failed_items]. unfold getitem.
  rewrite (reported_succeeded r Hr), IH. cbn [mbind result_bind truthy].
  destruct (succeeded r); by eexists.
Qed.

Lemma print_summary_reported (results : list dict) :
  Forall reported results →
  Z.of_nat (length results) < 2 ^ 63 →
  ∃ lines, print_summary results = Ok lines.
Proof.
  intros H Hlen. unfold print_summary.
  rewrite (count_success_reported results H). cbn [mbind result_bind].
  destruct (repeat_breakdown_reported results H) as [breakdown ->].
  cbn [mbind result_bind].
  destruct (average_line_reported results H Hlen) as [average ->].
  cbn [mbind result_bind].
  destruct (failed_items_reported results H) as [items ->].
  destruct (0 <? _); by eexists.
Qed.

Lemma all_success_reported (results : list dict) :
  Forall reported results →
  all_success results = Ok (forallb succeeded results).
Proof.
  induction 1 as [|r results Hr _ IH]; [done|].
  cbn [all_success forallb]. unfold getitem.
  rewrite (reported_succeeded r Hr). cbn [mbind result_bind truthy].
  by destruct (succeeded r).
Qed.

Lemma record_of_reported self w code competition_id r k hotkey_info :
  well_formed hotkey_info = true →
  reported (record_of self w code competition_id r k hotkey_info).
Proof.
  intros Hwf.
  destruct (submit_single_well_formed self hotkey_info code competition_id
              (-1) (w r k) Hwf)
    as (res & path & address & wallet & name & short & _ & _ & Hres & Hf).
  unfold reported, record_of. rewrite Hres. cbn [ok_or].
  rewrite lookup_insert_eq, !lookup_insert_ne by done.
  pose proof (f_equal f_success Hf) as Hs.
  pose proof (f_equal f_duration Hf) as Hd.
  cbn [fields f_success f_duration] in Hs, Hd. rewrite Hs, Hd.
  unfold outcome_fields.
  destruct (send_request _ _ _ _ _ _) as [response|]; [|by eexists _, _, _].
  destruct (status_code response =? 200); [|by eexists _, _, _].
  destruct (json response); by eexists _, _, _.
Qed.

Lemma batch_records_reported self w hotkeys code competition_id repeat :
  Forall (λ h, well_formed h = true) hotkeys →
  Forall reported (batch_records self w hotkeys code competition_id repeat).
Proof.
  intros Hwf. unfold batch_records.
  apply Forall_flat_map, Forall_forall. intros r _.
  unfold cycle_records. apply Forall_forall.
  intros res (k & h & -> & Hk)%elem_of_lookup_imap.
  apply record_of_reported.
  by eapply Forall_forall in Hwf; [|eapply list_elem_of_lookup_2].
Qed.

Lemma batch_records_length self w hotkeys code competition_id repeat :
  length (batch_records self w hotkeys code competition_id repeat)
  = (length hotkeys * Z.to_nat repeat)%nat.
Proof.
  unfold batch_records, cycles.
  rewrite (flat_map_length_const _ (length hotkeys))
    by (intros; apply cycle_records_length).
  by rewrite length_fmap, length_seq.
Qed.

(** [print_summary] accepts what [batch_submit] returns: a run over
    well-formed identities whose delays are not infinite returns its
    records, and on them [print_summary] raises nothing, whatever the
    outcomes of the submissions were. *)
Theorem print_summary_accepts_the_records_of_a_run
    (self : BatchSubmitter) (w : world) (hotkeys : list dict) (code : pystr)
    (competition_id max_workers : Z) (delay_between_batches : float)
    (repeat : Z) (delay_between_repeats : float) :
  Forall (λ h, well_formed h = true) hotkeys →
  1 ≤ max_workers →
  passes delay_between_batches = true →
  passes delay_between_repeats = true →
  Z.of_nat (length hotkeys * Z.to_nat repeat) < 2 ^ 63 →
  ∃ results lines,
    (batch_submit self w hotkeys code competition_id max_workers
                  delay_between_batches repeat delay_between_repeats).2
    = Returned (Ok results) ∧
    print_summary results = Ok lines.
Proof.
  intros Hwf Hc Hdelay Hrepeat_delay Hlen.
  destruct (print_summary_reported
              (batch_records self w hotkeys code competition_id repeat))
    as [lines Hlines].
  - by apply batch_records_reported.
  - by rewrite batch_records_length.
  - eexists _, lines. split; [by rewrite batch_submit_ok|done].
Qed.

Lemma print_summary_accepts_the_records_of_a_run_witness :
  ∃ results lines,
    (batch_submit sample_submitter sample_world sample_hotkeys (lit "x = 1")
                  1 2 0.5%float 2 0.25%float).2
    = Returned (Ok results) ∧
    print_summary results = Ok lines.
Proof.
  apply (print_summary_accepts_the_records_of_a_run
           sample_submitter sample_world sample_hotkeys (lit "x = 1") 1 2
           0.5%float 2 0.25%float).
  - repeat constructor.
  - lia.
  - reflexivity.
  - reflexivity.
  - vm_compute. reflexivity.
Defined.

Lemma print_hotkey_well_formed (hk : dict) :
  well_formed hk = true → print_hotkey hk = Ok ().
Proof.
  unfold well_formed, print_hotkey, getitem. intros H.
  destruct (hk !! "hotkey_path"); [|done].
  destruct (hk !! "ss58_address") as [address|]; [|done].
  destruct (hk !! "wallet_name"); [|done].
  destruct (hk !! "hotkey_name"); [|done].
  by destruct address.
Qed.

Lemma listing_well_formed (hotkeys : list dict) :
  Forall (λ h, well_formed h = true) hotkeys →
  sequence (map print_hotkey hotkeys) = Ok (map (λ _, ()) hotkeys).
Proof.
  intros H. apply sequence_ok.
  induction H as [|h hotkeys Hh _ IH]; constructor; [|done].
  by apply print_hotkey_well_formed.
Qed.

Lemma forallb_false_Exists {A} (f : A → bool) (l : list A) :
  forallb f l = false ↔ Exists (λ x, f x = false) l.
Proof.
  induction l as [|x l IH]; cbn [forallb].
  - split; [done|]. by intros ?%Exists_nil.
  - rewrite Exists_cons, <- IH. destruct (f x); cbn [andb]; intuition congruence.
Qed.

Lemma forallb_true_Forall {A} (f : A → bool) (l : list A) :
  forallb f l = true ↔ Forall (λ x, f x = true) l.
Proof.
  induction l as [|x l IH]; cbn [forallb].
  - split; [constructor|done].
  - rewrite Forall_cons, <- IH. destruct (f x); cbn [andb]; intuition congruence.
Qed.

(** C7.  The exit status of the program.  A configuration that cannot
    be used (a solution file that is missing, cannot be read or is empty
    once stripped, or no identity found) makes [main] return 1 with
    nothing submitted.  Otherwise, with identities that are well formed,
    at least one worker and delays that are not infinite, [main] submits
    as [batch_submit] does, prints the summary, and its status is 0
    exactly when every record of every repeat cycle is successful, and
    1 exactly when some record is not. *)
Theorem main_exit_status (args : Args) (sys : System) :
  (solution_exists sys = false ∨
   (∃ e, solution_read sys = Raise e) ∨
   (∃ content, solution_read sys = Ok content ∧ strip content = []) ∨
   found_hotkeys sys = [] →
   main args sys = ([], Returned (Ok 1)) ∧
   exit_code (main args sys) = Some 1) ∧
  (∀ content,
   solution_exists sys = true →
   solution_read sys = Ok content →
   strip content ≠ [] →
   found_hotkeys sys ≠ [] →
   Forall (λ h, well_formed h = true) (found_hotkeys sys) →
   dry_run args = false →
   1 ≤ arg_max_workers args →
   passes (delay args) = true →
   passes (repeat_delay args) = true →
   Z.of_nat (length (found_hotkeys sys) * Z.to_nat (arg_repeat args)) < 2 ^ 63 →
   let results :=
     batch_records
       (BatchSubmitter_init (arg_orchestrator_url args) 100000 (arg_timeout args))
       (attempts sys) (found_hotkeys sys) (strip content)
       (arg_competition_id args) (arg_repeat args) in
   main args sys
   = (batch_trace (found_hotkeys sys) (arg_max_workers args) (delay args)
                  (arg_repeat args) (repeat_delay args),
      Returned (Ok (if forallb succeeded results then 0 else 1))) ∧
   (exit_code (main args sys) = Some 0
    ↔ Forall (λ res, succeeded res = true) results) ∧
   (exit_code (main args sys) = Some 1
    ↔ Exists (λ res, succeeded res = false) results)).
Proof.
  split.
  - assert (main args sys = ([], Returned (Ok 1))
            → main args sys = ([], Returned (Ok 1)) ∧
              exit_code (main args sys) = Some 1) as Hexit
      by (by intros ->).
    intros Hbad. apply Hexit. unfold main.
    destruct Hbad as [->|[[e ->]|[(content & -> & ->)|Hnone]]]; [done| | |].
    + by destruct (solution_exists sys).
    + by destruct (solution_exists sys).
    + rewrite Hnone. destruct (solution_exists sys); [|done]. cbn [negb].
      destruct (solution_read sys) as [content|]; [|done].
      by destruct (strip content).
  - intros content Hex Hread Hcode Hfound Hwf Hdry Hc Hdelay Hrepeat_delay Hlen
           results.
    assert (main args sys
            = (batch_trace (found_hotkeys sys) (arg_max_workers args)
                           (delay args) (arg_repeat args) (repeat_delay args),
               Returned (Ok (if forallb succeeded results then 0 else 1))))
      as Hmain.
    { unfold main. rewrite Hex, Hread, Hdry. cbn [negb].
      fold results.
      destruct (strip content) as [|c code] eqn:Hstrip; [done|].
      destruct (found_hotkeys sys) as [|h hotkeys] eqn:Hhot; [done|].
      rewrite (listing_well_formed _ Hwf).
      rewrite batch_submit_ok by done. fold results.
      unfold lift. cbn [mbind io_bind].
      destruct (print_summary_reported results) as [lines Hlines].
      { by apply batch_records_reported. }
      { unfold results. by rewrite batch_records_length. }
      rewrite Hlines, all_success_reported by by apply batch_records_reported.
      unfold done. cbn [mret io_ret app]. by rewrite app_nil_r. }
    split; [done|].
    rewrite Hmain. unfold exit_code. cbn [snd].
    rewrite <- forallb_true_Forall, <- forallb_false_Exists.
    by destruct (forallb succeeded results).
Qed.

Lemma main_exit_status_witness :
  (main (sample_args 2 1 false) (sample_system "   " sample_hotkeys)
   = ([], Returned (Ok 1)) ∧
   exit_code (main (sample_args 2 1 false)
                   (sample_system "   " sample_hotkeys)) = Some 1) ∧
  (let args := sample_args 2 2 false in
   let sys := sample_system "  x = 1 " sample_hotkeys in
   let results :=
     batch_records
       (BatchSubmitter_init (arg_orchestrator_url args) 100000 (arg_timeout args))
       (attempts sys) (found_hotkeys sys) (strip (lit "  x = 1 "))
       (arg_competition_id args) (arg_repeat args) in
   main args sys
   = (batch_trace (found_hotkeys sys) (arg_max_workers args) (delay args)
                  (arg_repeat args) (repeat_delay args),
      Returned (Ok (if forallb succeeded results then 0 else 1))) ∧
   (exit_code (main args sys) = Some 0
    ↔ Forall (λ res, succeeded res = true) results) ∧
   (exit_code (main args sys) = Some 1
    ↔ Exists (λ res, succeeded res = false) results)).
Proof.
  split.
  - apply (proj1 (main_exit_status
                    (sample_args 2 1 false)
                    (sample_system "   " sample_hotkeys))).
    right. right. left. exists (lit "   ").
    split; [reflexivity|]. vm_compute. reflexivity.
  - apply (proj2 (main_exit_status
                    (sample_args 2 2 false)
                    (sample_system "  x = 1 " sample_hotkeys))
                 (lit "  x = 1 ")).
    + reflexivity.
    + reflexivity.
    + vm_compute. discriminate.
    + discriminate.
    + repeat constructor.
    + reflexivity.
    + simpl. lia.
    + reflexivity.
    + reflexivity.
    + vm_compute. reflexivity.
Defined.

(** The sample run ends with status 1: the second identity is refused. *)
Example main_sample_exit_code :
  exit_code (main (sample_args 2 2 false)
                  (sample_system "  x = 1 " sample_hotkeys)) = Some 1.
Proof. vm_compute. reflexivity. Qed.

Lemma lstrip_spaces (s : pystr) :
  Forall (λ c, py_isspace c = true) s → lstrip s = [].
Proof. induction 1 as [|c s Hc _ IH]; [done|]. cbn [lstrip]. by rewrite Hc. Qed.

Lemma lstrip_nil_spaces (s : pystr) :
  lstrip s = [] → Forall (λ c, py_isspace c = true) s.
Proof.
  induction s as [|c s IH]; [constructor|]. cbn [lstrip].
  destruct (py_isspace c) eqn:Hc; [|done]. intros H. constructor; auto.
Qed.

Lemma lstrip_suffix (s : pystr) :
  ∃ spaces, Forall (λ c, py_isspace c = true) spaces ∧ s = spaces ++ lstrip s.
Proof.
  induction s as [|c s (spaces & Hs & IH)]; [by exists []|].
  cbn [lstrip]. destruct (py_isspace c) eqn:Hc.
  - exists (c :: spaces). split; [by constructor|]. cbn. by f_equal.
  - by exists [].
Qed.

(** [code.strip()] is empty exactly for a text of white space only. *)
Lemma strip_empty (s : pystr) :
  strip s = [] ↔ Forall (λ c, py_isspace c = true) s.
Proof.
  unfold strip. split.
  - intros H. apply (f_equal (λ l, rev l)) in H. rewrite rev_involutive in H.
    cbn in H. apply lstrip_nil_spaces in H.
    destruct (lstrip_suffix s) as (spaces & Hs & Heq). rewrite Heq.
    apply Forall_app. split; [done|].
    apply Forall_forall. intros c Hc.
    eapply Forall_forall in H; [exact H|].
    apply list_elem_of_In. apply -> in_rev. by apply list_elem_of_In.
  - intros H. by rewrite (lstrip_spaces s H).
Qed.

(** A configuration that cannot be used ends the program with status 1
    before anything is submitted: a solution file that is missing,
    cannot be read or holds white space only, or no identity found. *)
Theorem main_refuses_a_bad_configuration (args : Args) (sys : System) :
  solution_exists sys = false ∨
  (∃ e, solution_read sys = Raise e) ∨
  (∃ content, solution_read sys = Ok content ∧
              Forall (λ c, py_isspace c = true) content) ∨
  found_hotkeys sys = [] →
  main args sys = ([], Returned (Ok 1)).
Proof.
  unfold main.
  intros [->|[[e ->]|[(content & -> & Hs%strip_empty)|Hnone]]]; [done| |  |].
  - by destruct (solution_exists sys).
  - rewrite Hs. by destruct (solution_exists sys).
  - rewrite Hnone. destruct (solution_exists sys); [|done]. cbn [negb].
    destruct (solution_read sys) as [content|]; [|done].
    by destruct (strip content).
Qed.

Lemma main_refuses_a_bad_configuration_witness :
  main (sample_args 2 1 false) (sample_system "   " sample_hotkeys)
  = ([], Returned (Ok 1)).
Proof.
  apply (main_refuses_a_bad_configuration
           (sample_args 2 1 false) (sample_system "   " sample_hotkeys)).
  right. right. left. exists (lit "   ").
  split; [reflexivity|]. repeat constructor.
Defined.

(** A dry run submits nothing and waits for nothing, whatever it
    finds, and whatever the other options are.  It ends with status 0
    exactly when there is a solution that is not blank and at least one
    identity, and every identity can be listed. *)
Theorem main_dry_run_submits_nothing (args : Args) (sys : System) :
  dry_run args = true →
  (main args sys).1 = [] ∧
  (exit_code (main args sys) = Some 0 ↔
   solution_exists sys = true ∧
   (∃ content, solution_read sys = Ok content ∧ strip content ≠ []) ∧
   found_hotkeys sys ≠ [] ∧
   is_ok (sequence (map print_hotkey (found_hotkeys sys))) = true).
Proof.
  intros Hdry. unfold exit_code, main. rewrite Hdry.
  destruct (solution_exists sys); cbn [negb].
  2: { split; [done|]. split; [done|]. by intros [[=] _]. }
  destruct (solution_read sys) as [content|e].
  2: { split; [done|]. split; [done|]. by intros (_ & (c & [=] & _) & _). }
  destruct (strip content) as [|c code] eqn:Hstrip.
  { split; [done|]. split; [done|].
    intros (_ & (c & [= <-] & Hc) & _). by rewrite Hstrip in Hc. }
  destruct (found_hotkeys sys) as [|h hotkeys].
  { split; [done|]. split; [done|]. by intros (_ & _ & ? & _). }
  unfold lift. cbn [mbind io_bind].
  destruct (sequence _) as [units|e]; cbn [fst snd is_ok done mret io_ret app].
  - split; [done|]. split; [intros _|done].
    split; [done|]. split; [|done]. exists content. by rewrite Hstrip.
  - split; [done|]. split; [done|]. by intros (_ & _ & _ & [=]).
Qed.

Lemma main_dry_run_submits_nothing_witness :
  let args := sample_args 2 3 true in
  let sys := sample_system "x = 1" sample_hotkeys in
  (main args sys).1 = [] ∧
  (exit_code (main args sys) = Some 0 ↔
   solution_exists sys = true ∧
   (∃ content, solution_read sys = Ok content ∧ strip content ≠ []) ∧
   found_hotkeys sys ≠ [] ∧
   is_ok (sequence (map print_hotkey (found_hotkeys sys))) = true).
Proof.
  apply (main_dry_run_submits_nothing
           (sample_args 2 3 true) (sample_system "x = 1" sample_hotkeys)).
  reflexivity.
Defined.

Lemma print_hotkey_faulty (hk : dict) :
  faulty hk = true → ∃ e, print_hotkey hk = Raise e ∧ exn_type e = TypeError.
Proof.
  unfold faulty, print_hotkey, getitem. intros H.
  destruct (hk !! "hotkey_path"); [|done].
  destruct (hk !! "ss58_address") as [address|]; [|done].
  destruct (hk !! "wallet_name"); [|done].
  destruct (hk !! "hotkey_name"); [|done].
  destruct address; try discriminate H; by eexists.
Qed.

(** The listing of the identities is not protected.  An identity whose
    address cannot be sliced makes [main] end in a [TypeError] while it
    lists what it found, dry run or not: nothing has been submitted. *)
Theorem main_stops_at_an_address_that_cannot_be_sliced
    (args : Args) (sys : System) (content : pystr) (i : nat) (bad : dict) :
  solution_exists sys = true →
  solution_read sys = Ok content →
  strip content ≠ [] →
  found_hotkeys sys !! i = Some bad →
  faulty bad = true →
  (∀ j h, (j < i)%nat → found_hotkeys sys !! j = Some h → well_formed h = true) →
  ∃ e, main args sys = ([], Returned (Raise e)) ∧ exn_type e = TypeError ∧
       exit_code (main args sys) = Some 1.
Proof.
  intros Hex Hread Hcode Hi Hbad Hbefore.
  destruct (print_hotkey_faulty bad Hbad) as (e & He & Htype).
  exists e.
  assert (main args sys = ([], Returned (Raise e))) as Hmain.
  { unfold main. rewrite Hex, Hread. cbn [negb].
    destruct (strip content); [done|].
    destruct (found_hotkeys sys) as [|h hotkeys] eqn:Hfound; [done|].
    rewrite (sequence_first_raise _ e i); [done| |].
    - by rewrite list_lookup_fmap, Hi, <- He.
    - intros j Hj.
      destruct (lookup_lt_is_Some_2 (h :: hotkeys) j) as [hj Hhj].
      { apply lookup_lt_Some in Hi. lia. }
      exists (). rewrite list_lookup_fmap, Hhj. cbn.
      by rewrite (print_hotkey_well_formed hj (Hbefore j hj Hj Hhj)). }
  by rewrite Hmain.
Qed.

Lemma main_stops_at_an_address_that_cannot_be_sliced_witness :
  let sys := sample_system "x = 1"
               [sample_identity; sample_hotkey "apex7" (VInt 12345);
                sample_identity] in
  ∃ e, main (sample_args 2 1 false) sys = ([], Returned (Raise e)) ∧
       exn_type e = TypeError ∧
       exit_code (main (sample_args 2 1 false) sys) = Some 1.
Proof.
  apply (main_stops_at_an_address_that_cannot_be_sliced
           (sample_args 2 1 false)
           (sample_system "x = 1"
              [sample_identity; sample_hotkey "apex7" (VInt 12345);
               sample_identity])
           (lit "x = 1") 1 (sample_hotkey "apex7" (VInt 12345))).
  - reflexivity.
  - reflexivity.
  - vm_compute. discriminate.
  - reflexivity.
  - vm_compute. reflexivity.
  - intros j h Hj Hh. destruct j as [|j]; [|lia].
    change (Some sample_identity = Some h) in Hh.
    injection Hh as <-. vm_compute. reflexivity.
Defined.

Lemma batch_submit_without_cycles
    (self : BatchSubmitter) (w : world) (hotkeys : list dict) (code : pystr)
    (competition_id max_workers : Z) (delay_between_batches : float)
    (repeat : Z) (delay_between_repeats : float) :
  repeat ≤ 0 →
  batch_submit self w hotkeys code competition_id max_workers
               delay_between_batches repeat delay_between_repeats
  = ([], Returned (Ok [])).
Proof.
  intros Hr. unfold batch_submit. rewrite py_range_from_one.
  by replace (Z.to_nat repeat) with 0%nat by lia.
Qed.

Lemma print_summary_nil :
  print_summary []
  = Ok [Rule; Title; Rule; Total 0; Successful 0; Failed 0; Rule].
Proof. vm_compute. reflexivity. Qed.

(** A run that submits nothing reports success.  With no repeat
    ([repeat <= 0]), or with a negative [max_workers] and a delay
    between the repeats that is not infinite, [batch_submit] returns no
    record; the summary of no record is printed and, no record having
    failed, [main] ends with status 0. *)
Theorem main_reports_success_when_nothing_is_submitted
    (args : Args) (sys : System) (content : pystr) :
  solution_exists sys = true →
  solution_read sys = Ok content →
  strip content ≠ [] →
  found_hotkeys sys ≠ [] →
  Forall (λ h, well_formed h = true) (found_hotkeys sys) →
  dry_run args = false →
  arg_repeat args ≤ 0 ∨
  (arg_max_workers args < 0 ∧ passes (repeat_delay args) = true) →
  launched (main args sys).1 = [] ∧ (main args sys).2 = Returned (Ok 0) ∧
  exit_code (main args sys) = Some 0.
Proof.
  intros Hex Hread Hcode Hfound Hwf Hdry Hnone.
  assert (∃ t, batch_submit
                 (BatchSubmitter_init (arg_orchestrator_url args) 100000
                                      (arg_timeout args))
                 (attempts sys) (found_hotkeys sys) (strip content)
                 (arg_competition_id args) (arg_max_workers args) (delay args)
                 (arg_repeat args) (repeat_delay args)
               = (t, Returned (Ok [])) ∧
               launched t = []) as (t & Hrun & Ht).
  { destruct Hnone as [Hr|[Hc Hrepeat_delay]].
    - exists []. by rewrite batch_submit_without_cycles.
    - pose proof (batch_submit_without_groups
                    (BatchSubmitter_init (arg_orchestrator_url args) 100000
                                         (arg_timeout args))
                    (attempts sys) (found_hotkeys sys) (strip content)
                    (arg_competition_id args) (arg_max_workers args)
                    (delay args) (arg_repeat args) (repeat_delay args) Hc
                    Hrepeat_delay)
        as Hrun.
      cbv zeta in Hrun. destruct (batch_submit _ _ _ _ _ _ _ _ _) as [t r].
      cbn [fst snd] in Hrun. destruct Hrun as [-> Ht]. by exists t. }
  assert (main args sys = (t, Returned (Ok 0))) as Hmain.
  { unfold main. rewrite Hex, Hread, Hdry. cbn [negb].
    destruct (strip content) as [|c code]; [done|].
    destruct (found_hotkeys sys) as [|h hotkeys]; [done|].
    rewrite (listing_well_formed _ Hwf), Hrun.
    unfold lift, done. cbn [mbind io_bind]. rewrite print_summary_nil.
    cbn [all_success mret io_ret app]. by rewrite app_nil_r. }
  rewrite Hmain. unfold exit_code. done.
Qed.

Lemma main_reports_success_when_nothing_is_submitted_witness :
  let args := sample_args (-5) 2 false in
  let sys := sample_system "x = 1" sample_hotkeys in
  launched (main args sys).1 = [] ∧ (main args sys).2 = Returned (Ok 0) ∧
  exit_code (main args sys) = Some 0.
Proof.
  apply (main_reports_success_when_nothing_is_submitted
           (sample_args (-5) 2 false) (sample_system "x = 1" sample_hotkeys)
           (lit "x = 1")).
  - reflexivity.
  - reflexivity.
  - vm_compute. discriminate.
  - discriminate.
  - repeat constructor.
  - reflexivity.
  - right. split; [simpl; lia|reflexivity].
Defined.

(** ** The discovery of the identities *)

Lemma read_hotkey_usable (wallet_name : pystr) (hotkey_file : HotkeyFile) :
  file_is_file hotkey_file = true →
  endswith (file_name hotkey_file) (lit ".txt") = false →
  endswith (file_name hotkey_file) (lit "pub") = false →
  usable wallet_name hotkey_file
  = match read_hotkey wallet_name hotkey_file with
    | Ok found => found
    | Raise _ => None
    end.
Proof.
  intros Hfile Htxt Hpub. unfold usable, read_hotkey.
  rewrite Hfile, Htxt, Hpub. cbn [andb negb].
  destruct (file_json hotkey_file) as [key_data|]; [|done].
  cbn [mbind result_bind]. destruct key_data; try done.
  cbn [py_get mbind result_bind].
  destruct (assoc _ _) as [address|]; [|done].
  change (default VNone (Some address)) with address.
  destruct (truthy address); reflexivity.
Qed.

Lemma scan_hotkeys_lists (wallet_name : pystr) (files : list HotkeyFile) :
  ∀ hotkeys,
    scan_hotkeys wallet_name files hotkeys
    = hotkeys ++ omap (usable wallet_name) files.
Proof.
  induction files as [|f files IH]; intros hotkeys; [by rewrite app_nil_r|].
  cbn [scan_hotkeys omap list_omap].
  destruct (file_is_file f) eqn:Hfile; cbn [negb].
  2: { unfold usable at 1. rewrite Hfile. apply IH. }
  destruct (endswith (file_name f) (lit ".txt")) eqn:Htxt.
  { unfold usable at 1. rewrite Hfile, Htxt. apply IH. }
  destruct (endswith (file_name f) (lit "pub")) eqn:Hpub.
  { unfold usable at 1. rewrite Hfile, Htxt, Hpub. apply IH. }
  cbn [orb]. rewrite (read_hotkey_usable wallet_name f Hfile Htxt Hpub).
  destruct (read_hotkey wallet_name f) as [[record|]|]; rewrite IH; [|done..].
  by rewrite <- app_assoc.
Qed.

Lemma scan_wallets_returns (wallet_dirs : list WalletPath) :
  ∀ hotkeys found,
    scan_wallets wallet_dirs hotkeys = Ok found →
    found = hotkeys ++ flat_map identities_of wallet_dirs.
Proof.
  induction wallet_dirs as [|wp wallet_dirs IH]; intros hotkeys found H.
  - injection H as <-. by rewrite app_nil_r.
  - cbn [scan_wallets flat_map] in *. unfold identities_of at 1.
    destruct (path_is_dir wp); cbn [negb] in H; [|by apply IH].
    destruct (hotkeys_dir wp) as [[files|]|]; [|done|by apply IH].
    cbn [mbind result_bind] in H. apply IH in H.
    by rewrite H, scan_hotkeys_lists, <- app_assoc.
Qed.



Lemma identities_of_usable (wp : WalletPath) (h : dict) :
  h ∈ identities_of wp →
  ∃ files f,
    path_is_dir wp = true ∧
    hotkeys_dir wp = Some (Ok files) ∧ f ∈ files ∧
    usable (path_name wp) f = Some h.
Proof.
  unfold identities_of. destruct (path_is_dir wp); [|by intros ?%elem_of_nil].
  destruct (hotkeys_dir wp) as [[files|]|]; try by intros ?%elem_of_nil.
  intros (f & Hf & Hu)%list_elem_of_omap. by exists files, f.
Qed.

Lemma usable_identity (wallet_name : pystr) (f : HotkeyFile) (h : dict) :
  usable wallet_name f = Some h →
  ∃ address,
    h = identity wallet_name f address ∧
    truthy address = true ∧
    file_is_file f = true ∧
    endswith (file_name f) (lit ".txt") = false ∧
    endswith (file_name f) (lit "pub") = false ∧
    ∃ l, file_json f = Ok (VDict l) ∧ assoc (lit "ss58Address") l = Some address.
Proof.
  unfold usable. intros H.
  destruct (file_is_file f); [|done].
  destruct (endswith (file_name f) (lit ".txt")); [done|].
  destruct (endswith (file_name f) (lit "pub")); [done|].
  cbn [andb negb] in H.
  destruct (file_json f) as [[]|]; try done.
  destruct (assoc _ _) as [address|] eqn:Ha; [|done].
  destruct (truthy address) eqn:Ht; [|done].
  injection H as <-. exists address. repeat split; try done. by eexists.
Qed.



(** In the sample directory two of the five files are identities. *)
Example find_all_hotkeys_sample :
  (λ h : dict, (h !! "wallet_name", h !! "hotkey_name", h !! "ss58_address"))
    <$> ok_or [] (find_all_hotkeys sample_wallet_dir None)
  = [ (Some (VStr (lit "mama")), Some (VStr (lit "apex0")),
       Some (VStr (lit "5FHneW46xGXgs5mUiveU4sbTyGBzmstUspZC92UhjJM694ty")));
      (Some (VStr (lit "papa")), Some (VStr (lit "apex2")), Some (VInt 12345)) ].
Proof. vm_compute. reflexivity. Qed.

(** What [find_all_hotkeys] returns, and from where.  Every record
    comes from a key file [f] listed in the [hotkeys] directory of a
    wallet path [wp] that the scan visits and that is a directory; [f]
    is a regular file whose name does not end in [.txt] or [pub], its
    content is a JSON object, and the record has exactly four keys: the
    name of [wp], the name of [f], the path of [f] as text, and the
    [ss58Address] of that object, which is truthy and is stored as it
    was parsed, whatever its type. *)
Theorem find_all_hotkeys_records
    (fs : WalletDir) (wallet_name : option pystr) (hotkeys : list dict) :
  find_all_hotkeys fs wallet_name = Ok hotkeys →
  Forall (λ h, ∃ wallet_dirs wp files f key_data address,
            visited fs wallet_name = Ok wallet_dirs ∧
            wp ∈ wallet_dirs ∧
            path_is_dir wp = true ∧
            hotkeys_dir wp = Some (Ok files) ∧
            f ∈ files ∧
            file_is_file f = true ∧
            endswith (file_name f) (lit ".txt") = false ∧
            endswith (file_name f) (lit "pub") = false ∧
            file_json f = Ok (VDict key_data) ∧
            assoc (lit "ss58Address") key_data = Some address ∧
            truthy address = true ∧
            h = {[ "wallet_name" := VStr (path_name wp);
                   "hotkey_name" := VStr (file_name f);
                   "hotkey_path" := VStr (file_str f);
                   "ss58_address" := address ]})
         hotkeys.
Proof.
  unfold find_all_hotkeys, visited.
  destruct (wallet_dir_exists fs); cbn [negb]; [|by intros [= <-]].
  destruct (match wallet_name with Some (c :: name) => _ | _ => _ end)
    as [wallet_dirs|]; [|done].
  cbn [mbind result_bind].
  intros ->%scan_wallets_returns. cbn [app].
  apply Forall_forall. intros h (wp & Hwp & Hh)%list_elem_of_In%in_flat_map.
  apply list_elem_of_In, identities_of_usable in Hh
    as (files & f & Hdir & Hfiles & Hf & Hu).
  apply usable_identity in Hu
    as (address & -> & Ht & Hfile & Htxt & Hpub & key_data & Hjson & Haddress).
  exists wallet_dirs, wp, files, f, key_data, address.
  apply list_elem_of_In in Hwp. done.
Qed.

Lemma find_all_hotkeys_records_witness :
  Forall (λ h, ∃ wallet_dirs wp files f key_data address,
            visited sample_wallet_dir None = Ok wallet_dirs ∧
            wp ∈ wallet_dirs ∧
            path_is_dir wp = true ∧
            hotkeys_dir wp = Some (Ok files) ∧
            f ∈ files ∧
            file_is_file f = true ∧
            endswith (file_name f) (lit ".txt") = false ∧
            endswith (file_name f) (lit "pub") = false ∧
            file_json f = Ok (VDict key_data) ∧
            assoc (lit "ss58Address") key_data = Some address ∧
            truthy address = true ∧
            h = {[ "wallet_name" := VStr (path_name wp);
                   "hotkey_name" := VStr (file_name f);
                   "hotkey_path" := VStr (file_str f);
                   "ss58_address" := address ]})
         (flat_map identities_of sample_wallets).
Proof.
  apply (find_all_hotkeys_records sample_wallet_dir None
           (flat_map identities_of sample_wallets)).
  apply (is_ok_eq []). vm_compute. reflexivity.
Defined.



(** ** Key files *)

Lemma fromhex_byte (b : byte) (rest : pystr) (pos : Z) :
  fromhex_from pos (hex_of_byte b ++ rest)
  = (decoded ← fromhex_from (pos + 2) rest; Ok (b :: decoded)).
Proof. destruct b; reflexivity. Qed.

Lemma fromhex_hex (bs : list byte) : ∀ pos, fromhex_from pos (hex bs) = Ok bs.
Proof.
  induction bs as [|b bs IH]; intros pos; [done|].
  by rewrite hex_cons, fromhex_byte, IH.
Qed.

Lemma first_non_ascii_lower_hex (s : pystr) :
  Forall (λ c, is_lower_hex c = true) s → ∀ pos, first_non_ascii pos s = None.
Proof.
  induction 1 as [|c s Hc _ IH]; intros pos; [done|].
  cbn [first_non_ascii].
  assert ((c <? 128)%N = true) as ->; [|apply IH].
  apply N.ltb_lt. unfold is_lower_hex in Hc.
  apply orb_true_iff in Hc as [Hc|Hc];
    apply andb_true_iff in Hc as [_ Hc%N.leb_le]; lia.
Qed.

Lemma bytes_fromhex_hex (bs : list byte) : bytes_fromhex (hex bs) = Ok bs.
Proof.
  unfold bytes_fromhex.
  by rewrite (first_non_ascii_lower_hex _ (hex_lower bs)), fromhex_hex.
Qed.

(** The key that reaches the wallet library.  Whatever text of the key
    file [load_keypair] accepts (with or without the prefix [0x], in
    upper or lower case, with white space between the bytes) it hands
    over the same bytes written as lowercase hexadecimal digits, two
    per byte and without prefix: a text that it would itself accept and
    read as the same bytes. *)
Theorem load_keypair_hands_over_lowercase_hex
    (a : attempt) (path key_data : value) (text : pystr) (bs : list byte) :
  read_key_file a path = Ok key_data →
  py_get key_data "privateKey" = Ok (VStr text) →
  text ≠ [] →
  bytes_fromhex (match text with
                 | 48%N :: 120%N :: rest => rest
                 | _ => text
                 end) = Ok bs →
  load_keypair a path = create_from_private_key a (hex bs) ∧
  Forall (λ c, is_lower_hex c = true) (hex bs) ∧
  length (hex bs) = (2 * length bs)%nat ∧
  bytes_fromhex (hex bs) = Ok bs.
Proof.
  intros Hread Hget Htext Hbytes.
  split; [|split; [apply hex_lower|split; [apply hex_length|apply bytes_fromhex_hex]]].
  unfold load_keypair. rewrite Hread. cbn [mbind result_bind].
  rewrite Hget. cbn [mbind result_bind].
  destruct text as [|c text]; [done|]. cbn [truthy negb].
  by rewrite Hbytes.
Qed.

Lemma load_keypair_hands_over_lowercase_hex_witness :
  load_keypair (sample_attempt 200 0) sample_path
  = create_from_private_key (sample_attempt 200 0) (hex [x0a; xff; x10]) ∧
  Forall (λ c, is_lower_hex c = true) (hex [x0a; xff; x10]) ∧
  length (hex [x0a; xff; x10]) = (2 * length [x0a; xff; x10])%nat ∧
  bytes_fromhex (hex [x0a; xff; x10]) = Ok [x0a; xff; x10].
Proof.
  apply (load_keypair_hands_over_lowercase_hex
           (sample_attempt 200 0) sample_path sample_key_file
           (lit "0x0aFF10") [x0a; xff; x10]).
  - vm_compute. reflexivity.
  - vm_compute. reflexivity.
  - vm_compute. discriminate.
  - vm_compute. reflexivity.
Defined.

(** A key file without a private key.  When the key file is read but
    its [privateKey] is missing or empty, the [ValueError] of
    [load_keypair] is caught by [submit_single]: the outcome is a
    failure whose error is the text of that exception. *)
Theorem submit_single_without_private_key
    (self : BatchSubmitter) (hotkey_info : dict) (code : pystr)
    (competition_id round_number : Z) (a : attempt)
    (path key_data private_key : value) :
  well_formed hotkey_info = true →
  hotkey_info !! "hotkey_path" = Some path →
  read_key_file a path = Ok key_data →
  py_get key_data "privateKey" = Ok private_key →
  truthy private_key = false →
  ∃ res,
    submit_single self hotkey_info code competition_id round_number a = Ok res ∧
    res !! "success" = Some (VBool false) ∧
    res !! "response" = Some VNone ∧
    res !! "error" = Some (VStr (lit "No private key found in key file")).
Proof.
  intros Hwf Hpath Hread Hget Hfalsy.
  destruct (submit_single_well_formed self hotkey_info code competition_id
              round_number a Hwf)
    as (res & path' & address & wallet & name & short & Hp & _ & Hres & Hf).
  assert (path' = path) as -> by congruence.
  assert (send_request self a path code competition_id round_number
          = Raise (Exn ValueError (lit "No private key found in key file")))
    as Hsent.
  { unfold send_request, load_keypair. rewrite Hread. cbn [mbind result_bind].
    rewrite Hget. cbn [mbind result_bind]. by rewrite Hfalsy. }
  exists res. split; [done|].
  rewrite Hsent in Hf. unfold outcome_fields in Hf.
  pose proof (f_equal f_success Hf). pose proof (f_equal f_error Hf).
  pose proof (f_equal f_response Hf).
  done.
Qed.

Lemma submit_single_without_private_key_witness :
  ∃ res,
    submit_single sample_submitter sample_identity (lit "x = 1") 1 (-1)
      sample_attempt_no_key = Ok res ∧
    res !! "success" = Some (VBool false) ∧
    res !! "response" = Some VNone ∧
    res !! "error" = Some (VStr (lit "No private key found in key file")).
Proof.
  apply (submit_single_without_private_key
           sample_submitter sample_identity (lit "x = 1") 1 (-1)
           sample_attempt_no_key sample_path
           (VDict [(lit "ss58Address",
                    VStr (lit "5FHneW46xGXgs5mUiveU4sbTyGBzmstUspZC92UhjJM694ty"))])
           VNone).
  - vm_compute. reflexivity.
  - vm_compute. reflexivity.
  - vm_compute. reflexivity.
  - vm_compute. reflexivity.
  - reflexivity.
Defined.

(** ** The breakdown by repeat *)

Lemma repeat_nums_distinct (results : list dict) (l : list Z) :
  repeat_nums results = Ok l →
  NoDup l ∧ ∀ n, n ∈ l ↔ n ∈ repeat_numbers results.
Proof.
  revert l. induction results as [|r results IH]; intros l H.
  - injection H as <-. split; [constructor|done].
  - cbn [repeat_nums] in H. unfold repeat_numbers. cbn [omap list_omap].
    fold (repeat_numbers results).
    destruct (repeat_nums results) as [rest|]; [|done].
    destruct (IH rest eq_refl) as [Hnd Hin]. cbn [mbind result_bind] in H.
    destruct (r !! "repeat_num") as [[]|]; try done.
    + injection H as <-. case_decide as Hz.
      * split; [done|]. intros n. rewrite elem_of_cons, <- Hin.
        split; [by right|]. by intros [->|].
      * split; [by constructor|]. intros n. by rewrite !elem_of_cons, Hin.
    + by injection H as <-.
Qed.

Lemma insert_by_sorted (x : Z) (l : list Z) :
  StronglySorted Z.le l → StronglySorted Z.le (insert_by Z.leb id x l).
Proof.
  induction 1 as [|y l Hl IH Hy]; cbn [insert_by]; [by repeat constructor|].
  unfold id at 1 2. destruct (Z.leb_spec y x).
  - constructor; [done|]. rewrite insert_by_perm. by constructor.
  - constructor; [by constructor|]. constructor; [lia|].
    eapply Forall_impl; [exact Hy|]. intros z Hz. cbv beta in Hz. lia.
Qed.

Lemma sort_by_sorted (l : list Z) : StronglySorted Z.le (sort_by Z.leb id l).
Proof.
  induction l as [|x l IH]; [constructor|]. by apply insert_by_sorted.
Qed.

Lemma sorted_distinct (l : list Z) :
  StronglySorted Z.le l → NoDup l → StronglySorted Z.lt l.
Proof.
  induction 1 as [|x l Hl IH Hx]; intros Hnd; [constructor|].
  apply NoDup_cons in Hnd as [Hnotin Hnd]. constructor; [by apply IH|].
  apply Forall_forall. intros y Hy.
  pose proof (proj1 (Forall_forall _ _) Hx y Hy) as Hle. cbv beta in Hle.
  assert (x ≠ y) by (by intros ->). lia.
Qed.

Lemma max_of_greatest (l : list Z) :
  l ≠ [] → max_of l ∈ l ∧ ∀ n, n ∈ l → n ≤ max_of l.
Proof.
  destruct l as [|x l]; [done|]. intros _. cbn [max_of].
  induction l as [|y l [IHin IHle]]; cbn [foldr].
  - split; [by left|]. intros n ->%list_elem_of_singleton. lia.
  - split.
    + destruct (Z.max_spec y (foldr Z.max x l)) as [[_ ->]|[_ ->]].
      * apply elem_of_cons in IHin as [->|?]; [by left|by do 2 right].
      * by right; left.
    + intros n [->|[->|Hn]%elem_of_cons]%elem_of_cons.
      * specialize (IHle x ltac:(by left)). lia.
      * lia.
      * specialize (IHle n ltac:(by right)). lia.
Qed.

Lemma last_greatest (s : list Z) :
  StronglySorted Z.lt s → s ≠ [] →
  ∃ m, last s = Some m ∧ m ∈ s ∧ ∀ n, n ∈ s → n ≤ m.
Proof.
  induction 1 as [|x s Hs IH Hx]; intros Hne; [done|].
  destruct s as [|y s].
  - exists x. split; [done|]. split; [by left|].
    intros n ->%list_elem_of_singleton. lia.
  - destruct IH as (m & Hlast & Hm & Hle); [done|].
    exists m. split; [done|]. split; [by right|].
    intros n [->|Hn]%elem_of_cons; [|by apply Hle].
    pose proof (proj1 (Forall_forall _ _) Hx m Hm) as Hlt. cbv beta in Hlt. lia.
Qed.

Lemma repeat_lines (results : list dict) (repeats : list Z) (ls : list line) :
  sequence (map (repeat_line results) repeats) = Ok ls →
  ls = map (repeat_totals results) repeats.
Proof.
  revert ls. induction repeats as [|n repeats IH]; intros ls H.
  - by injection H as <-.
  - cbn [map sequence] in H.
    destruct (repeat_line results n) as [l|] eqn:Hl; [|done].
    cbn [mbind result_bind] in H.
    destruct (sequence _) as [ls'|]; [|done].
    cbn [mbind result_bind] in H. injection H as <-.
    cbn [map]. rewrite <- (IH ls' eq_refl). f_equal.
    unfold repeat_line in Hl.
    destruct (count_success _) as [c|] eqn:Hc; [|done].
    apply count_success_counts in Hc. injection Hl as <-. by subst c.
Qed.

Lemma breakdown_lines_app l1 l2 :
  breakdown_lines (l1 ++ l2) = breakdown_lines l1 ++ breakdown_lines l2.
Proof. apply filter_app. Qed.

Lemma breakdown_lines_all (ls : list line) :
  Forall (λ l, is_breakdown l = true) ls → breakdown_lines ls = ls.
Proof.
  induction 1 as [|l ls Hl _ IH]; [done|].
  unfold breakdown_lines in *. by rewrite filter_cons_True, IH.
Qed.

Lemma breakdown_lines_none (ls : list line) :
  Forall (λ l, is_breakdown l = false) ls → breakdown_lines ls = [].
Proof.
  induction 1 as [|l ls Hl _ IH]; [done|].
  unfold breakdown_lines in *. rewrite filter_cons_False; [done|].
  by rewrite Hl.
Qed.

(** The breakdown by repeat.  When [print_summary] returns, it breaks
    the totals down exactly when the records carry at least two
    different repeat numbers: it then prints the greatest of them and,
    for each repeat number in increasing order, how many of the records
    of that number are successful and how many there are. *)
Theorem print_summary_breakdown (results : list dict) (lines : list line) :
  print_summary results = Ok lines →
  ∃ repeats,
    StronglySorted Z.lt repeats ∧
    (∀ n, n ∈ repeats ↔ n ∈ repeat_numbers results) ∧
    breakdown_lines lines
    = if decide (2 ≤ length repeats)%nat then
        NumberOfRepeats (default 0 (last repeats))
        :: map (repeat_totals results) repeats
      else [].
Proof.
  intros (breakdown & average & details & Hb & Ha & -> & ->)%print_summary_ok.
  unfold repeat_breakdown in Hb.
  destruct (repeat_nums results) as [l|] eqn:Hl; [|done].
  apply repeat_nums_distinct in Hl as [Hnd Hin].
  cbn [mbind result_bind] in Hb.
  pose proof (sort_by_perm Z.leb id l) as Hperm.
  pose proof (sort_by_sorted l) as Hsorted.
  exists (sort_by Z.leb id l).
  assert (StronglySorted Z.lt (sort_by Z.leb id l)) as Hstrict.
  { apply sorted_distinct; [done|]. by rewrite Hperm. }
  split; [done|]. split; [intros n; by rewrite Hperm|].
  assert (breakdown_lines average = []) as Hav.
  { unfold average_line in Ha. destruct (0 <? _); [|by injection Ha as <-].
    destruct (sum_durations _ _); [|done]. cbn [mbind result_bind] in Ha.
    destruct (py_truediv _ _); [|done]. by injection Ha as <-. }
  assert (breakdown_lines
            (if decide (filter (λ res, succeeded res = false) results = [])
             then []
             else FailedHeader ::
                  ((λ res, let '(h, r, e) := failure_of res in FailedItem h r e)
                   <$> filter (λ res, succeeded res = false) results)) = [])
    as Hd.
  { case_decide; [done|]. apply breakdown_lines_none.
    constructor; [done|]. apply Forall_fmap, Forall_forall. intros res _.
    cbn. by destruct (failure_of res) as [[h r] e]. }
  rewrite !breakdown_lines_app, Hav, Hd.
  change (breakdown_lines [Rule]) with (@nil line).
  change (breakdown_lines [Rule; Title; Rule; Total _; Successful _; Failed _])
    with (@nil line).
  rewrite !app_nil_r. cbn [app].
  rewrite (Permutation_length Hperm).
  destruct (Z.ltb_spec 1 (Z.of_nat (length l))) as [Hlen|Hlen].
  - destruct (sequence _) as [ls|] eqn:Hls; [|done].
    apply repeat_lines in Hls. cbn [mbind result_bind] in Hb.
    injection Hb as <-. rewrite decide_True by lia.
    rewrite breakdown_lines_all.
    2: { constructor; [done|]. rewrite Hls. apply Forall_fmap, Forall_forall.
         by intros n _. }
    rewrite Hls. f_equal. f_equal.
    assert (l ≠ []) as Hne by (intros ->; cbn in Hlen; lia).
    destruct (max_of_greatest l Hne) as [Hmax Hle].
    assert (sort_by Z.leb id l ≠ []) as Hne'.
    { intros Hnil. rewrite Hnil in Hperm. by apply Permutation_nil_l in Hperm. }
    destruct (last_greatest _ Hstrict Hne') as (m & -> & Hm & Hlem).
    cbn [default].
    assert (m ∈ l) as Hml by (by rewrite <- Hperm).
    assert (max_of l ∈ sort_by Z.leb id l) as Hmax' by (by rewrite Hperm).
    apply Hle in Hml. apply Hlem in Hmax'. unfold id. lia.
  - injection Hb as <-. by rewrite decide_False by lia.
Qed.

Lemma print_summary_breakdown_witness :
  ∃ repeats,
    StronglySorted Z.lt repeats ∧
    (∀ n, n ∈ repeats ↔ n ∈ repeat_numbers sample_results_of_two_repeats) ∧
    breakdown_lines (ok_or [] (print_summary sample_results_of_two_repeats))
    = if decide (2 ≤ length repeats)%nat then
        NumberOfRepeats (default 0 (last repeats))
        :: map (repeat_totals sample_results_of_two_repeats) repeats
      else [].
Proof.
  apply (print_summary_breakdown sample_results_of_two_repeats
           (ok_or [] (print_summary sample_results_of_two_repeats))).
  vm_compute. reflexivity.
Defined.

Example print_summary_breakdown_sample :
  breakdown_lines (ok_or [] (print_summary sample_results_of_two_repeats))
  = [NumberOfRepeats 2; RepeatLine 1 2 3; RepeatLine 2 1 2] ∧
  breakdown_lines (ok_or [] (print_summary sample_results)) = [].
Proof. split; vm_compute; reflexivity. Qed.

(** ** Delays that never end *)

(** An infinite delay between the groups.  When the identities fill
    more than one group, [batch_submit] launches the first group,
    collects its records, starts the pause and waits for ever: no
    other group is launched and nothing is returned or raised. *)
Theorem batch_submit_waits_at_an_infinite_delay_between_groups
    (self : BatchSubmitter) (w : world) (hotkeys : list dict) (code : pystr)
    (competition_id max_workers : Z) (repeat : Z) (delay_between_repeats : float) :
  1 ≤ max_workers →
  1 ≤ repeat →
  max_workers < Z.of_nat (length hotkeys) →
  Forall (λ h, well_formed h = true) (group hotkeys max_workers 0) →
  batch_submit self w hotkeys code competition_id max_workers
               infinity repeat delay_between_repeats
  = ([Launched 1 (group hotkeys max_workers 0); Slept infinity], Waits).
Proof.
  intros Hc Hr Hmore Hwf. unfold batch_submit. rewrite py_range_from_one.
  destruct (Z.to_nat repeat) as [|n] eqn:Hn; [lia|].
  unfold lift. cbn [mbind io_bind app seq map for_repeats].
  unfold submit_cycle, len_hotkeys. rewrite py_range_step by done.
  pose proof (total_batches_ceil (Z.of_nat (length hotkeys)) max_workers
                ltac:(lia) Hc) as Hm.
  destruct (total_batches _ _) as [|m].
  { unfold ceil_div in Hm.
    pose proof (Z.div_pos (Z.of_nat (length hotkeys)) max_workers).
    assert (0 < Z.of_nat (length hotkeys) / max_workers)
      by (apply Z.div_str_pos; lia).
    destruct (_ =? 0); lia. }
  unfold lift. cbn [mbind io_bind app seq map for_groups].
  unfold submit_group at 1.
  rewrite (batch_is_group hotkeys max_workers Hc 0).
  rewrite (group_records self w hotkeys code competition_id max_workers Hc _ 0)
    by done.
  unfold len_hotkeys.
  assert ((Z.of_nat 0 * max_workers + max_workers <? Z.of_nat (length hotkeys))
          = true) as -> by (apply Z.ltb_lt; lia).
  reflexivity.
Qed.

Lemma batch_submit_waits_at_an_infinite_delay_between_groups_witness :
  batch_submit sample_submitter sample_world sample_hotkeys (lit "x = 1") 1 2
               infinity 1 0%float
  = ([Launched 1 (group sample_hotkeys 2 0); Slept infinity], Waits).
Proof.
  apply (batch_submit_waits_at_an_infinite_delay_between_groups
           sample_submitter sample_world sample_hotkeys (lit "x = 1") 1 2
           1 0%float).
  - lia.
  - lia.
  - simpl. lia.
  - repeat constructor.
Defined.

(** An infinite delay between the repeats.  When more than one repeat
    is asked for, [batch_submit] runs the first cycle, starts the pause
    and waits for ever, whatever the cycle did and returned, even when
    it launched nothing: no other cycle is run and nothing is returned
    or raised. *)
Theorem batch_submit_waits_at_an_infinite_delay_between_repeats
    (self : BatchSubmitter) (w : world) (hotkeys : list dict) (code : pystr)
    (competition_id max_workers : Z) (delay_between_batches : float)
    (repeat : Z) (t : list event) (results : list dict) :
  2 ≤ repeat →
  submit_cycle self w hotkeys code competition_id max_workers
               delay_between_batches 1
  = (t, Returned (Ok results)) →
  batch_submit self w hotkeys code competition_id max_workers
               delay_between_batches repeat infinity
  = (t ++ [Slept infinity], Waits).
Proof.
  intros Hr Hcycle. unfold batch_submit. rewrite py_range_from_one.
  destruct (Z.to_nat repeat) as [|n] eqn:Hn; [lia|].
  unfold lift. cbn [mbind io_bind app seq map for_repeats].
  change (1 + Z.of_nat 0) with 1. rewrite Hcycle. cbn [mbind io_bind].
  assert ((1 <? repeat) = true) as -> by (apply Z.ltb_lt; lia).
  reflexivity.
Qed.

Lemma batch_submit_waits_at_an_infinite_delay_between_repeats_witness :
  batch_submit sample_submitter sample_world sample_hotkeys (lit "x = 1") 1
               (-5) 0%float 2 infinity
  = ([] ++ [Slept infinity], Waits).
Proof.
  apply (batch_submit_waits_at_an_infinite_delay_between_repeats
           sample_submitter sample_world sample_hotkeys (lit "x = 1") 1
           (-5) 0%float 2 [] []).
  - lia.
  - vm_compute. reflexivity.
Defined.
